(** * Object Explorer integration layer of the mssql extension

    A shallow embedding of
    - [SqlClusterConnection] (objectExplorerNodeProvider/connection.ts),
    - [SqlClusterLookUp] (bigDataClusterLookUp.ts),
    - [HadoopObjectExplorerProvider], [Session] and [RootNode]
      (the object explorer provider),
    and the properties of the session / expansion protocol. *)

From stdpp Require Import gmap strings list fin_maps pretty.
From Stdlib Require Import ZArith.

Local Open Scope string_scope.

(** ** JavaScript values

    The option bags of the connection objects are typed
    [{ [name: string]: any }].  The primitive values that flow through them
    are modelled here; the numbers are the integers and [NaN] (no fractions,
    no infinities; [-0] is not told apart from [0], which [===], [ToBoolean]
    and a template literal do not tell apart either). *)
Module Js.

Inductive JsValue : Type :=
| JUndefined
| JNull
| JBool (b : bool)
| JNum (n : Z)
| JNaN
| JStr (s : string).

#[global] Instance JsValue_eq_dec : EqDecision JsValue.
Proof. solve_decision. Defined.

(** [ToBoolean]: what [if (v)], [!v] and [v || w] test. *)
Definition truthy (v : JsValue) : bool :=
  match v with
  | JUndefined | JNull => false
  | JBool b => b
  | JNum n => negb (n =? 0)%Z
  | JNaN => false
  | JStr s => negb (String.eqb s "")
  end.

(** [a === b] on primitives: the same type and the same value, except that
    [NaN] is equal to nothing, itself included. *)
Definition strict_eq (a b : JsValue) : bool :=
  match a with
  | JNaN => false
  | _ => bool_decide (a = b)
  end.

(** [Number.isSafeInteger(n)]: the integers a number holds exactly.  These
    are printed digit by digit; from 2^53 on the printed digits are rounded,
    and from 10^21 on the exponent form is used. *)
Definition isSafeInteger (n : Z) : Prop := (Z.abs n < 9007199254740992)%Z.

(** The values whose text [to_string] below gets right. *)
Definition printable (v : JsValue) : Prop :=
  match v with
  | JNum n => isSafeInteger n
  | _ => True
  end.

(** [a || b] *)
Definition or (a b : JsValue) : JsValue := if truthy a then a else b.

(** [`${v}`]: the string a template literal substitutes for [v].  For a
    number this is the decimal numeral, which is what JavaScript prints for a
    safe integer only: a property that reads the text of a number assumes
    [printable]. *)
Definition to_string (v : JsValue) : string :=
  match v with
  | JUndefined => "undefined"
  | JNull => "null"
  | JBool true => "true"
  | JBool false => "false"
  | JNum n => pretty n
  | JNaN => "NaN"
  | JStr s => s
  end.

(** A property bag: reading a missing key yields [undefined]. *)
Definition get (o : gmap string JsValue) (k : string) : JsValue :=
  default JUndefined (o !! k).

(** An object with primitive own properties [props] and, possibly, an
    [options] bag ([None]: the property is missing or [undefined]).
    ['k' in obj] is [is_Some (props obj !! k)]. *)
Record JsObject : Type := mkObject {
  props : gmap string JsValue;
  options : option (gmap string JsValue);
}.

Definition has (k : string) (o : JsObject) : bool :=
  bool_decide (is_Some (props o !! k)).

Definition prop (o : JsObject) (k : string) : JsValue := get (props o) k.

(** [Object.assign(target, { k1: v1, ... })]: the source's properties win. *)
Definition assign (target : JsObject) (src : gmap string JsValue) : JsObject :=
  {| props := src ∪ props target; options := options target |}.

(** The object with [options[k]] set to [v]. *)
Definition setOption (k : string) (v : JsValue) (o : JsObject) : JsObject :=
  {| props := props o; options := insert k v <$> options o |}.

(** What a JavaScript [throw] or a promise rejection carries. *)
Inductive JsError : Type :=
| Error (message : string)       (* new Error(message) *)
| TypeError (message : string)   (* raised by the runtime *)
| Reason (s : string).           (* reject('...') / throw '...' *)

(** Result of a synchronous call. *)
Inductive Outcome (A : Type) : Type :=
| Returned (a : A)
| Thrown (e : JsError).
Arguments Returned {A} a.
Arguments Thrown {A} e.

(** State of a promise once its executor has run. *)
Inductive Promise (A : Type) : Type :=
| Resolved (a : A)
| Rejected (e : JsError).
Arguments Resolved {A} a.
Arguments Rejected {A} e.

(** Sequencing of calls that may throw: [x ← c; k]. *)
#[global] Instance Outcome_bind : MBind Outcome := fun A B f x =>
  match x with
  | Returned a => f a
  | Thrown e => Thrown e
  end.

End Js.
Import Js.

(** ** constants.ts *)
Module constants.
Definition hostPropName : string := "host".
Definition userPropName : string := "user".
Definition knoxPortPropName : string := "knoxport".
Definition passwordPropName : string := "password".
Definition defaultKnoxPort : string := "30443".
Definition ObjectExplorerService : string := "objectexplorer".
End constants.

(** ** class SqlClusterConnection *)
Module SqlClusterConnection.

Record t : Type := mk {
  _sqlClusterConnInfo : JsObject;
  _sqlClusterConnProfile : JsObject;
  _host : JsValue;
  _port : JsValue;
  _user : JsValue;
  _pass : JsValue;
}.

(** [isValid]: the object and its option bag exist and each of the four
    options is [!== undefined]. *)
Definition isValid (connectionInfo : option JsObject) : bool :=
  match connectionInfo with
  | None => false
  | Some ci =>
      match options ci with
      | None => false
      | Some opts =>
          forallb (fun e => negb (strict_eq (get opts e) JUndefined))
            [ constants.hostPropName; constants.knoxPortPropName;
              constants.userPropName; constants.passwordPropName ]
      end
  end.

(** An option bag that holds the four options [isValid] asks for. *)
Definition complete (opts : gmap string JsValue) : Prop :=
  get opts constants.hostPropName ≠ JUndefined
  ∧ get opts constants.knoxPortPropName ≠ JUndefined
  ∧ get opts constants.userPropName ≠ JUndefined
  ∧ get opts constants.passwordPropName ≠ JUndefined.

Definition optionsOf (o : JsObject) : gmap string JsValue :=
  default ∅ (options o).

(** The constructor.  A profile shape (it has an [id]) is kept as it is,
    with [connectionId] copied from [id]; for a connection shape the profile
    is a copy extended with [serverName], [userName], [password] and [id].
    (In the profile case [Object.assign] writes [connectionId] into the
    caller's object too; the option bag, the only part read back here, is
    untouched.) *)
Definition new (connectionInfo : option JsObject) : Outcome t :=
  if negb (isValid connectionInfo) then
    Thrown (Error "Invalid ConnectionInfo is provided.")
  else
    match connectionInfo with
    | None => Thrown (Error "Invalid ConnectionInfo is provided.")
    | Some ci =>
        let '(info, profile) :=
          if has "id" ci then
            let p := assign ci {[ "connectionId" := prop ci "id" ]} in
            (p, p)
          else
            let opts := optionsOf ci in
            (ci,
             assign ci
               (<[ "serverName" :=
                     JStr (to_string (get opts constants.hostPropName) ++ ","
                           ++ to_string (get opts constants.knoxPortPropName)) ]>
                (<[ "userName" := get opts constants.userPropName ]>
                (<[ "password" := get opts constants.passwordPropName ]>
                {[ "id" := prop ci "connectionId" ]}))))
        in
        let opts := optionsOf info in
        Returned {|
          _sqlClusterConnInfo := info;
          _sqlClusterConnProfile := profile;
          _host := get opts constants.hostPropName;
          _port := get opts constants.knoxPortPropName;
          _user := get opts constants.userPropName;
          _pass := get opts constants.passwordPropName;
        |}
    end.

Definition host (c : t) : JsValue := _host c.
Definition port (c : t) : JsValue :=
  Js.or (_port c) (JStr constants.defaultKnoxPort).
Definition user (c : t) : JsValue := _user c.
Definition pass (c : t) : JsValue := _pass c.

(** [isMatch(obj)]: [obj] is another descriptor or a raw connection info.
    Reading an option of a missing bag is a [TypeError]. *)
Definition isMatch (this : t)
    (obj : option (t + JsObject)) : Outcome bool :=
  match obj with
  | None => Returned false
  | Some o =>
      let options1 :=
        match o with
        | inr ci => options ci
        | inl c => options (_sqlClusterConnInfo c)
        end in
      let options2 := options (_sqlClusterConnInfo this) in
      match options1, options2 with
      | Some o1, Some o2 =>
          Returned
            (forallb (fun e => strict_eq (get o1 e) (get o2 e))
               [ constants.hostPropName; constants.knoxPortPropName;
                 constants.userPropName ])
      | _, _ => Thrown (TypeError "Cannot read property of undefined")
      end
  end.

(** The option bag handed to [FileSourceFactory.createHdfsFileSource]. *)
Record IHdfsOptions : Type := {
  protocol : string;
  hdfs_host : JsValue;
  hdfs_port : JsValue;
  hdfs_user : JsValue;
  path : string;
  auth_user : JsValue;
  auth_pass : JsValue;
}.

Definition hdfsOptions (c : t) : IHdfsOptions :=
  {| protocol := "https";
     hdfs_host := host c;
     hdfs_port := port c;
     hdfs_user := user c;
     path := "gateway/default/webhdfs/v1";
     auth_user := user c;
     auth_pass := pass c |}.

End SqlClusterConnection.

(** ** class SqlClusterLookUp (bigDataClusterLookUp.ts) *)
Module SqlClusterLookUp.

Record IEndpoint : Type := {
  serviceName : string;
  ipAddress : string;
  port : Z;
}.

(** What [getServerInfo] resolves to: its [options] bag, read here only at
    the cluster-endpoints key, holds endpoint lists. *)
Record ServerInfo : Type := {
  si_options : option (gmap string (list IEndpoint));
}.

Section LookUp.
(** Entries of constants.ts that this class reads. *)
Variables (mssqlClusterProviderName clusterEndpointsProperty
           hadoopKnoxEndpointName : string).
(** The host API [sqlops.connection]; both calls are awaited, so a
    rejection becomes the rejection of the caller. *)
Variable getServerInfo : JsValue -> Promise (option ServerInfo).
Variable getCredentials : JsValue -> Promise (option (gmap string JsValue)).
(** The value [UUID.generateUuid()] produces. *)
Variable generateUuid : string.

Definition connProfileToConnectionParam (connectionProfile : JsObject)
  : JsObject :=
  assign connectionProfile {[ "connectionId" := prop connectionProfile "id" ]}.

Definition connToConnectionParam (connection : JsObject) : Outcome JsObject :=
  let connectionId := prop connection "connectionId" in
  match options connection with
  | None => Thrown (TypeError "Cannot read property of undefined")
  | Some opts =>
      Returned
        (assign connection
           (<[ "serverName" :=
                 JStr (to_string (get opts constants.hostPropName) ++ ","
                       ++ to_string (get opts constants.knoxPortPropName)) ]>
            (<[ "userName" := get opts constants.userPropName ]>
            (<[ "password" := get opts constants.passwordPropName ]>
            {[ "id" := connectionId ]}))))
  end.

Definition settle {A} (r : Outcome A) : Promise (option A) :=
  match r with
  | Returned a => Resolved (Some a)
  | Thrown e => Rejected e
  end.

(** ['id' in obj ? obj.id : obj.connectionId] *)
Definition connectionIdOf (o : JsObject) : JsValue :=
  if has "id" o then prop o "id" else prop o "connectionId".

Definition createSqlClusterConnectionParam (obj : option JsObject)
  : Promise (option JsObject) :=
  match obj with
  | None => Resolved None
  | Some o =>
      let connectionId := connectionIdOf o in
      if negb (truthy connectionId) then Resolved None else
      match getServerInfo connectionId with
      | Rejected e => Rejected e
      | Resolved None => Resolved None
      | Resolved (Some serverInfo) =>
          match si_options serverInfo with
          | None => Resolved None
          | Some sopts =>
              match sopts !! clusterEndpointsProperty with
              | None => Resolved None
              | Some endpoints =>
                  if (length endpoints =? 0)%nat then Resolved None else
                  match List.find
                          (fun ep => bool_decide
                             (serviceName ep = hadoopKnoxEndpointName))
                          endpoints with
                  | None => Resolved None
                  | Some ep =>
                      match getCredentials connectionId with
                      | Rejected e => Rejected e
                      | Resolved None => Resolved None
                      | Resolved (Some credentials) =>
                          let clusterConnInfo :=
                            {| props :=
                                 <[ "providerName" :=
                                      JStr mssqlClusterProviderName ]>
                                 {[ "connectionId" := JStr generateUuid ]};
                               options := Some
                                 (<[ constants.passwordPropName :=
                                       get credentials "password" ]>
                                  (<[ constants.userPropName := JStr "root" ]>
                                  (<[ constants.knoxPortPropName :=
                                        JNum (port ep) ]>
                                  {[ constants.hostPropName :=
                                       JStr (ipAddress ep) ]}))) |} in
                          settle (connToConnectionParam clusterConnInfo)
                      end
                  end
              end
          end
      end
  end.

Definition lookUpSqlClusterInfo (obj : option JsObject)
  : Promise (option JsObject) :=
  match obj with
  | None => Resolved None
  | Some o =>
      if strict_eq (prop o "providerName") (JStr mssqlClusterProviderName)
      then
        if has "id" o
        then Resolved (Some (connProfileToConnectionParam o))
        else settle (connToConnectionParam o)
      else createSqlClusterConnectionParam (Some o)
  end.

(** A prerequisite of [createSqlClusterConnectionParam] is missing: no
    connection id; or the server info resolved and it, its options, or a
    non-empty endpoint list with a Knox gateway entry are missing; or the
    server info resolved and the credentials resolved to nothing. *)
Definition missingPrerequisite (o : JsObject) : Prop :=
  let connectionId := connectionIdOf o in
  truthy connectionId = false
  ∨ ∃ serverInfo, getServerInfo connectionId = Resolved serverInfo ∧
      (serverInfo = None
       ∨ (∃ si, serverInfo = Some si ∧ si_options si = None)
       ∨ (∃ si sopts, serverInfo = Some si ∧ si_options si = Some sopts ∧
            (sopts !! clusterEndpointsProperty = None
             ∨ sopts !! clusterEndpointsProperty = Some []
             ∨ ∃ endpoints,
                 sopts !! clusterEndpointsProperty = Some endpoints
                 ∧ Forall (fun ep => serviceName ep ≠ hadoopKnoxEndpointName)
                          endpoints))
       ∨ getCredentials connectionId = Resolved None).

End LookUp.

End SqlClusterLookUp.

(** ** The object explorer provider *)
Module ObjectExplorer.

Definition objectExplorerPrefix : string := "objectexplorer://".

(** *** Wire records of the sqlops API *)
Module NodeInfo.
Record t : Type := mk {
  label : JsValue;
  isLeaf : bool;
  errorMessage : option string;
  metadata : option string;
  nodePath : string;
  nodeStatus : option string;
  nodeType : string;
  nodeSubType : option string;
  iconType : string;
}.
End NodeInfo.

Module ExpandNodeInfo.
Record t : Type := mk {
  sessionId : string;
  nodePath : string;
}.
End ExpandNodeInfo.

Module ObjectExplorerSessionResponse.
Record t : Type := mk { sessionId : string }.
End ObjectExplorerSessionResponse.

Module ObjectExplorerSession.
Record t : Type := mk {
  sessionId : string;
  success : bool;
  errorMessage : option string;
  rootNode : option NodeInfo.t;
}.
End ObjectExplorerSession.

Module ObjectExplorerExpandInfo.
Record t : Type := mk {
  sessionId : string;
  nodePath : string;
  errorMessage : option string;
  nodes : option (list NodeInfo.t);
}.
End ObjectExplorerExpandInfo.

Module ObjectExplorerCloseSessionResponse.
Record t : Type := mk {
  success : bool;
  sessionId : string;
}.
End ObjectExplorerCloseSessionResponse.

(** *** Collaborators

    The provider is written against classes that live in other files of
    the extension: [Connection] (./connectionProvider), [TreeNode]
    (../treeNodes), [TreeDataContext] and [ConnectionNode] (../hdfsProvider)
    and [utils.getErrorMessage].  The provider only uses the members below;
    calls it makes under a [try] or a promise [catch] may throw.  The two
    calls [startExpansion] awaits return a value that the [await] turns,
    once it has settled, into a result or into an error. *)
Class Collaborators : Type := {
  Connection : Type;
  (** [new Connection(connInfo)] *)
  new_Connection : option JsObject -> Outcome Connection;
  (** [connection.saveUriWithPrefix(prefix)], yielding the connection with
      its [uri] set *)
  saveUriWithPrefix : string -> Connection -> Outcome Connection;
  (** [connection.uri] *)
  uri : Connection -> string;
  (** [connection.host] *)
  host : Connection -> JsValue;
  FileSource : Type;
  (** [connection.createHdfsFileSource()] *)
  createHdfsFileSource : Connection -> FileSource;
  TreeDataContext : Type;
  (** [new TreeDataContext(appContext.extensionContext, provider)] *)
  treeDataContext : TreeDataContext;
  (** [TreeNode.generateNodePath()] on the root node of the session that
      wraps the connection *)
  generateNodePath : Connection -> Outcome string;
  TreeNode : Type;
  (** [session.root.findNodeByPath(path, true)] for the session that wraps
      the connection: the call throws, or it returns what [await] settles
      to; [None] is "no such node" *)
  findNodeByPath : Connection -> string -> Outcome (Promise (option TreeNode));
  (** [node.getNodeInfo().errorMessage] *)
  nodeErrorMessage : TreeNode -> Outcome (option string);
  (** [node.getChildren(true)]: the call throws, or it returns what [await]
      settles to, the children, each then projected by [getNodeInfo] (a
      projection that throws ends in the same [catch] as a rejection and is
      counted as one); [None] is a missing child list *)
  childInfos : TreeNode -> Outcome (Promise (option (list NodeInfo.t)));
  (** [utils.getErrorMessage(error)] *)
  getErrorMessage : JsError -> string;
}.

Section Provider.
Context `{Collaborators}.

(** *** class Session

    The [root] of a session is the [RootNode] built for it in
    [doCreateSession]; its observable part ([getNodeInfo]) is a function
    of the session, so the registry stores the connection only.  The
    children cache of a root node is modelled separately below. *)
Record Session : Type := mkSession { _connection : Connection }.

Definition Session_uri (s : Session) : string := uri (_connection s).

(** [RootNode.getNodeInfo] *)
Definition getNodeInfo (session : Session) : Outcome NodeInfo.t :=
  p ← generateNodePath (_connection session);
  Returned {|
    NodeInfo.label := host (_connection session);
    NodeInfo.isLeaf := false;
    NodeInfo.errorMessage := None;
    NodeInfo.metadata := None;
    NodeInfo.nodePath := p;
    NodeInfo.nodeStatus := None;
    NodeInfo.nodeType := "hadoop:root";
    NodeInfo.nodeSubType := None;
    NodeInfo.iconType := "root";
  |}.

(** *** Events, timers and the provider state *)
Inductive Event : Type :=
| SessionCreated (e : ObjectExplorerSession.t)     (* sessionCreatedEmitter.fire *)
| ExpandCompleted (e : ObjectExplorerExpandInfo.t). (* expandCompleteEmitter.fire *)

(** The three callbacks handed to [setTimeout(..., 10)], with what each
    closure captures. *)
Inductive Task : Type :=
| CreateSessionTask (connection : Connection)
| SessionNotFoundTask (nodeInfo : ExpandNodeInfo.t)
| StartExpansionTask (session : Session) (nodeInfo : ExpandNodeInfo.t)
                     (isRefresh : bool).

(** [startExpansion] is an [async] function with two [await]s.  A call of
    it that has reached an [await] is suspended there, with what it has
    computed so far and the value it waits for; it goes on when that value
    has settled, which may be at any later time, or never. *)
Inductive Continuation : Type :=
| AwaitingNode (session : Session) (nodeInfo : ExpandNodeInfo.t)
               (lookup : Promise (option TreeNode))
| AwaitingChildren (session : Session) (nodeInfo : ExpandNodeInfo.t)
                   (errorMessage : option string)
                   (listing : Promise (option (list NodeInfo.t))).

(** [sessionMap], the pending timers in the order they were set (all
    have the same delay, so they fire in that order), the suspended
    expansions, and the events fired so far, oldest first. *)
Record State : Type := mkState {
  sessionMap : gmap string Session;
  timers : list Task;
  awaiting : list Continuation;
  emitted : list Event;
}.

Definition initial : State :=
  {| sessionMap := ∅; timers := []; awaiting := []; emitted := [] |}.

Definition setTimeout (t : Task) (st : State) : State :=
  {| sessionMap := sessionMap st;
     timers := timers st ++ [t];
     awaiting := awaiting st;
     emitted := emitted st |}.

Definition fire (e : Event) (st : State) : State :=
  {| sessionMap := sessionMap st;
     timers := timers st;
     awaiting := awaiting st;
     emitted := emitted st ++ [e] |}.

Definition withSessionMap (m : gmap string Session) (st : State) : State :=
  {| sessionMap := m; timers := timers st; awaiting := awaiting st;
     emitted := emitted st |}.

(** An [await] on a value that has not settled yet. *)
Definition suspend (k : Continuation) (st : State) : State :=
  {| sessionMap := sessionMap st;
     timers := timers st;
     awaiting := awaiting st ++ [k];
     emitted := emitted st |}.

(** [localize(key, message, arg)] with the default bundle: [{0}] is
    replaced by the argument. *)
Definition sessionIdNotFound (sessionId : string) : string :=
  "Cannot expand object explorer node. Couldn't find session for uri "
  ++ sessionId.

(** The source spells this message ['Couldn\t find ...'], so the string
    holds a tab where the apostrophe and [t] were meant. *)
Definition nodeNotFound (nodePath : string) : string :=
  "Cannot expand object explorer node. Couldn"
  ++ String (Ascii.ascii_of_nat 9) (" find node for path " ++ nodePath).

(** *** createNewSession: the synchronous part *)
Definition createNewSession (connInfo : option JsObject) (st : State)
  : Promise ObjectExplorerSessionResponse.t * State :=
  match new_Connection connInfo ≫= saveUriWithPrefix objectExplorerPrefix with
  | Thrown error => (Rejected error, st)
  | Returned connection =>
      let response :=
        {| ObjectExplorerSessionResponse.sessionId := uri connection |} in
      (Resolved response, setTimeout (CreateSessionTask connection) st)
  end.

Definition sendSessionCreated (sessionInfo : ObjectExplorerSession.t)
    (st : State) : State :=
  fire (SessionCreated sessionInfo) st.

Definition handleSessionFailed (sessionInfo : ObjectExplorerSession.t)
    (st : State) : State :=
  sendSessionCreated sessionInfo
    (withSessionMap
       (delete (ObjectExplorerSession.sessionId sessionInfo) (sessionMap st))
       st).

(** [doCreateSession]: the session is registered before its root is
    asked for its node info, so a throw there leaves the key in the map
    (until [handleSessionFailed] removes it). *)
Definition doCreateSession (connection : Connection) (st : State)
  : Outcome ObjectExplorerSession.t * State :=
  let session := {| _connection := connection |} in
  let st' := withSessionMap (<[ uri connection := session ]> (sessionMap st)) st in
  (rootNode ← getNodeInfo session;
   Returned {|
     ObjectExplorerSession.sessionId := Session_uri session;
     ObjectExplorerSession.success := true;
     ObjectExplorerSession.rootNode := Some rootNode;
     ObjectExplorerSession.errorMessage := None;
   |},
   st').

(** *** expandNode *)
Definition doExpandNode (nodeInfo : ExpandNodeInfo.t) (isRefresh : bool)
    (st : State) : bool * State :=
  match sessionMap st !! ExpandNodeInfo.sessionId nodeInfo with
  | None => (false, setTimeout (SessionNotFoundTask nodeInfo) st)
  | Some session =>
      (true, setTimeout (StartExpansionTask session nodeInfo isRefresh) st)
  end.

Definition expandNode (nodeInfo : option ExpandNodeInfo.t)
    (isRefresh : bool) (st : State) : Promise bool * State :=
  match nodeInfo with
  | None =>
      (Rejected (Reason "expandNode requires a nodeInfo object to be passed"),
       st)
  | Some nodeInfo =>
      let '(accepted, st') := doExpandNode nodeInfo isRefresh st in
      (Resolved accepted, st')
  end.

Definition refreshNode (nodeInfo : option ExpandNodeInfo.t) (st : State)
  : Promise bool * State :=
  expandNode nodeInfo true st.

(** [startExpansion]: the result starts with no error and no nodes; the
    [try] body overwrites the fields it reaches, the [catch] the error. *)
Definition expandResult (session : Session) (nodeInfo : ExpandNodeInfo.t)
    (errorMessage : option string) (nodes : list NodeInfo.t)
  : ObjectExplorerExpandInfo.t :=
  {| ObjectExplorerExpandInfo.sessionId := Session_uri session;
     ObjectExplorerExpandInfo.nodePath := ExpandNodeInfo.nodePath nodeInfo;
     ObjectExplorerExpandInfo.errorMessage := errorMessage;
     ObjectExplorerExpandInfo.nodes := Some nodes |}.

(** What the [catch] and the final [fire] make of an error. *)
Definition expansionFailed (session : Session) (nodeInfo : ExpandNodeInfo.t)
    (error : JsError) (st : State) : State :=
  fire (ExpandCompleted
          (expandResult session nodeInfo (Some (getErrorMessage error)) []))
       st.

(** The call of [startExpansion], up to its first [await]: a lookup that
    throws is caught at once, otherwise the function is suspended on what
    the lookup returned. *)
Definition startExpansion (session : Session) (nodeInfo : ExpandNodeInfo.t)
    (isRefresh : bool) (st : State) : State :=
  match findNodeByPath (_connection session)
          (ExpandNodeInfo.nodePath nodeInfo) with
  | Thrown error => expansionFailed session nodeInfo error st
  | Returned lookup => suspend (AwaitingNode session nodeInfo lookup) st
  end.

(** The rest of [startExpansion], from the [await] it was suspended at,
    once the awaited value has settled. *)
Definition resume (k : Continuation) (st : State) : State :=
  match k with
  | AwaitingNode session nodeInfo lookup =>
      match lookup with
      | Rejected error => expansionFailed session nodeInfo error st
      | Resolved None =>
          fire (ExpandCompleted
                  (expandResult session nodeInfo
                     (Some (nodeNotFound (ExpandNodeInfo.nodePath nodeInfo)))
                     []))
               st
      | Resolved (Some node) =>
          match nodeErrorMessage node with
          | Thrown error => expansionFailed session nodeInfo error st
          | Returned errorMessage =>
              match childInfos node with
              | Thrown error => expansionFailed session nodeInfo error st
              | Returned listing =>
                  suspend
                    (AwaitingChildren session nodeInfo errorMessage listing) st
              end
          end
      end
  | AwaitingChildren session nodeInfo errorMessage listing =>
      match listing with
      | Rejected error => expansionFailed session nodeInfo error st
      | Resolved None =>
          fire (ExpandCompleted (expandResult session nodeInfo errorMessage []))
               st
      | Resolved (Some nodes) =>
          fire (ExpandCompleted
                  (expandResult session nodeInfo errorMessage nodes))
               st
      end
  end.

(** The event that ends an expansion of [nodeInfo] on [session]: it names
    the session's uri and the requested path, and carries a node list. *)
Definition completes (session : Session) (nodeInfo : ExpandNodeInfo.t)
    (ev : ObjectExplorerExpandInfo.t) : Prop :=
  ObjectExplorerExpandInfo.sessionId ev = Session_uri session
  ∧ ObjectExplorerExpandInfo.nodePath ev = ExpandNodeInfo.nodePath nodeInfo
  ∧ is_Some (ObjectExplorerExpandInfo.nodes ev).

(** One move of an expansion, from [st] to [st']: it ends by firing its
    event, or it is suspended; the registry and the timers are not
    touched. *)
Definition expansionMove (st st' : State) : Prop :=
  sessionMap st' = sessionMap st ∧ timers st' = timers st
  ∧ ((∃ ev, emitted st' = (emitted st ++ [ExpandCompleted ev])%list
            ∧ awaiting st' = awaiting st)
     ∨ (∃ k, emitted st' = emitted st
             ∧ awaiting st' = (awaiting st ++ [k])%list)).

(** The value the [i]-th suspended expansion waits for settles: the
    expansion leaves the list and goes on. *)
Definition settleAt (i : nat) (st : State) : State :=
  match awaiting st !! i with
  | None => st
  | Some k =>
      resume k
        {| sessionMap := sessionMap st; timers := timers st;
           awaiting := delete i (awaiting st); emitted := emitted st |}
  end.

(** *** closeSession and findNodes *)
Definition closeSession (sessionId : string) (st : State)
  : Promise ObjectExplorerCloseSessionResponse.t * State :=
  let deleted := bool_decide (is_Some (sessionMap st !! sessionId)) in
  (Resolved {| ObjectExplorerCloseSessionResponse.success := deleted;
               ObjectExplorerCloseSessionResponse.sessionId := sessionId |},
   withSessionMap (delete sessionId (sessionMap st)) st).

Definition findNodes : Promise (list NodeInfo.t) := Resolved [].

(** *** The event loop

    One timer callback together with the reactions it queues on the
    promise of [doCreateSession], which is settled when they are queued
    (they run before the next timer).  An expansion the callback starts is
    left at its first [await]; it goes on in a step of its own ([settleAt])
    when the awaited value has settled: right after the callback at the
    earliest, at any later time, or never. *)
Definition run_task (t : Task) (st : State) : State :=
  match t with
  | CreateSessionTask connection =>
      if bool_decide (is_Some (sessionMap st !! uri connection)) then st
      else
        match doCreateSession connection st with
        | (Returned session, st') => sendSessionCreated session st'
        | (Thrown error, st') =>
            handleSessionFailed
              {| ObjectExplorerSession.sessionId := uri connection;
                 ObjectExplorerSession.success := false;
                 ObjectExplorerSession.errorMessage :=
                   Some (getErrorMessage error);
                 ObjectExplorerSession.rootNode := None |}
              st'
        end
  | SessionNotFoundTask nodeInfo =>
      fire (ExpandCompleted
              {| ObjectExplorerExpandInfo.sessionId :=
                   ExpandNodeInfo.sessionId nodeInfo;
                 ObjectExplorerExpandInfo.nodePath :=
                   ExpandNodeInfo.nodePath nodeInfo;
                 ObjectExplorerExpandInfo.errorMessage :=
                   Some (sessionIdNotFound (ExpandNodeInfo.sessionId nodeInfo));
                 ObjectExplorerExpandInfo.nodes := None |})
           st
  | StartExpansionTask session nodeInfo isRefresh =>
      startExpansion session nodeInfo isRefresh st
  end.

Definition run_tasks (ts : list Task) (st : State) : State :=
  fold_left (fun s t => run_task t s) ts st.

(** Let every pending timer fire. *)
Definition run_timers (st : State) : State :=
  run_tasks (timers st)
    {| sessionMap := sessionMap st; timers := [];
       awaiting := awaiting st; emitted := emitted st |}.

(** Let every value now waited for settle, oldest first. *)
Definition settle_all (st : State) : State :=
  fold_left (fun s k => resume k s) (awaiting st)
    {| sessionMap := sessionMap st; timers := timers st;
       awaiting := []; emitted := emitted st |}.

(** Let every pending timer fire and every expansion run to its end: an
    expansion is suspended at most twice. *)
Definition quiesce (st : State) : State :=
  settle_all (settle_all (run_timers st)).

(** The [onSessionCreated] events of a log, and those reporting success. *)
Definition sessionCreatedEvents (log : list Event)
  : list ObjectExplorerSession.t :=
  omap (fun e => match e with SessionCreated s => Some s | _ => None end) log.

Definition expandCompletedEvents (log : list Event)
  : list ObjectExplorerExpandInfo.t :=
  omap (fun e => match e with ExpandCompleted s => Some s | _ => None end) log.

Definition successEvents (log : list Event) : list ObjectExplorerSession.t :=
  filter (fun s => ObjectExplorerSession.success s = true)
         (sessionCreatedEvents log).

(** The event [createNewSession]'s timer hands to [onSessionCreated] when
    it does construct the session: the [then] branch on success, the
    [catch] branch otherwise. *)
Definition sessionCreatedResult (connection : Connection)
  : ObjectExplorerSession.t :=
  match getNodeInfo {| _connection := connection |} with
  | Returned rootNode =>
      {| ObjectExplorerSession.sessionId := uri connection;
         ObjectExplorerSession.success := true;
         ObjectExplorerSession.rootNode := Some rootNode;
         ObjectExplorerSession.errorMessage := None |}
  | Thrown error =>
      {| ObjectExplorerSession.sessionId := uri connection;
         ObjectExplorerSession.success := false;
         ObjectExplorerSession.errorMessage := Some (getErrorMessage error);
         ObjectExplorerSession.rootNode := None |}
  end.

(** *** class RootNode: the children cache

    [getChildren] hands out the array it keeps in [this.children], so
    object identity matters: root nodes, connection nodes and arrays live
    in a heap and are named by their location. *)
Definition loc : Type := nat.

Record ConnectionNode : Type := mkConnectionNode {
  cn_context : TreeDataContext;
  cn_label : string;
  cn_fileSource : FileSource;
  cn_parent : option loc;
}.

Record RootNode : Type := mkRootNode {
  _session : Session;
  context : TreeDataContext;
  children : option loc;
}.

Inductive HeapObject : Type :=
| ORootNode (r : RootNode)
| OConnectionNode (n : ConnectionNode)
| OArray (elems : list loc).

(** [new ...] / [[]]: a location that is not in use. *)
Definition alloc (o : HeapObject) (h : gmap loc HeapObject)
  : loc * gmap loc HeapObject :=
  let l := fresh (dom h) in (l, <[ l := o ]> h).

Definition setChildren (arr : loc) (o : HeapObject) : HeapObject :=
  match o with
  | ORootNode r =>
      ORootNode {| _session := _session r; context := context r;
                   children := Some arr |}
  | _ => o
  end.

Definition setParent (p : loc) (o : HeapObject) : HeapObject :=
  match o with
  | OConnectionNode n =>
      OConnectionNode {| cn_context := cn_context n; cn_label := cn_label n;
                         cn_fileSource := cn_fileSource n;
                         cn_parent := Some p |}
  | _ => o
  end.

Definition push (x : loc) (o : HeapObject) : HeapObject :=
  match o with
  | OArray elems => OArray (elems ++ [x])
  | _ => o
  end.

(** [RootNode.getChildren(refreshChildren)] on the root node at [this];
    [None] when [this] is not a root node of the heap. *)
Definition getChildren (this : loc) (refreshChildren : bool)
    (h : gmap loc HeapObject) : option (loc * gmap loc HeapObject) :=
  match h !! this with
  | Some (ORootNode r) =>
      if refreshChildren || negb (bool_decide (is_Some (children r))) then
        (* this.children = [] *)
        let '(arr, h1) := alloc (OArray []) h in
        let h2 := alter (setChildren arr) this h1 in
        (* new ConnectionNode(this.context, 'HDFS', this.createHdfsFileSource()) *)
        let '(hdfsNode, h3) :=
          alloc (OConnectionNode
                   {| cn_context := context r;
                      cn_label := "HDFS";
                      cn_fileSource :=
                        createHdfsFileSource (_connection (_session r));
                      cn_parent := None |}) h2 in
        (* hdfsNode.parent = this *)
        let h4 := alter (setParent this) hdfsNode h3 in
        (* this.children.push(hdfsNode) *)
        let h5 := alter (push hdfsNode) arr h4 in
        Some (arr, h5)
      else
        match children r with
        | Some arr => Some (arr, h)
        | None => None
        end
  | _ => None
  end.

(** [k] further calls [getChildren(false)], each on the heap the previous
    one left; the references they return, in order. *)
Fixpoint getChildrenAgain (k : nat) (this : loc) (h : gmap loc HeapObject)
  : option (list loc * gmap loc HeapObject) :=
  match k with
  | O => Some ([], h)
  | S k' =>
      match getChildren this false h with
      | None => None
      | Some (arr, h') =>
          match getChildrenAgain k' this h' with
          | None => None
          | Some (arrs, h'') => Some (arr :: arrs, h'')
          end
      end
  end.

End Provider.

(** *** The provider over connection descriptors *)

Record DescriptorConnection : Type := mkDescriptorConnection {
  descriptor : SqlClusterConnection.t;
  connectionUri : string;
}.

(** The one tree node the instance below resolves: the session's root. *)
Record RootView : Type := mkRootView { rv_uri : string }.

(** Modelled from the spec: the class [Connection] (./connectionProvider),
    which the provider builds from the connection info, is not among the
    sources.  The spec's descriptor has "port: string (default "30443" if
    absent)", and "Port defaults to a well-known constant when absent from
    the source shape": an input without the port option is read as the
    input with the default port. *)
Definition withDefaultPort (connInfo : JsObject) : JsObject :=
  match options connInfo with
  | Some opts =>
      if bool_decide (get opts constants.knoxPortPropName = JUndefined)
      then setOption constants.knoxPortPropName
             (JStr constants.defaultKnoxPort) connInfo
      else connInfo
  | None => connInfo
  end.

(** Modelled from the spec: the classes [Connection] (./connectionProvider),
    [TreeNode] (../treeNodes), [ConnectionNode] and [TreeDataContext]
    (../hdfsProvider) and the helper [utils.getErrorMessage] are not among
    the sources.  The spec makes the session's connection the Connection
    Descriptor ("Session: { key, connection: ConnectionDescriptor, root }"),
    built here by [SqlClusterConnection] from the input with the port
    defaulted, so that normalisation "fails ... when any of
    host/user/password/port-equivalent fields are missing after
    normalization"; the session key is "derived from the
    descriptor's canonical URI form", taken here as prefix, host and port;
    "a node's path is the concatenation of its ancestors' path segments",
    so the root's path is its own segment, the session uri
    ([RootNode.nodePathValue]); path lookup is "exact-segment-sequence
    equality", with "not found" a valid outcome; expanding the root yields
    "exactly one child ..., labeled as the HDFS container,
    [isLeaf == false]"; failures "carry a human-readable message string". *)
#[global] Instance DescriptorCollaborators : Collaborators := {|
  Connection := DescriptorConnection;
  new_Connection connInfo :=
    d ← SqlClusterConnection.new (withDefaultPort <$> connInfo);
    Returned {| descriptor := d; connectionUri := "" |};
  saveUriWithPrefix prefix c :=
    Returned {| descriptor := descriptor c;
                connectionUri :=
                  prefix
                  ++ to_string (SqlClusterConnection.host (descriptor c)) ++ ":"
                  ++ to_string (SqlClusterConnection.port (descriptor c)) |};
  uri := connectionUri;
  host c := SqlClusterConnection.host (descriptor c);
  FileSource := SqlClusterConnection.IHdfsOptions;
  createHdfsFileSource c := SqlClusterConnection.hdfsOptions (descriptor c);
  TreeDataContext := unit;
  treeDataContext := tt;
  generateNodePath c := Returned (connectionUri c);
  TreeNode := RootView;
  findNodeByPath c nodePath :=
    Returned (Resolved (if bool_decide (nodePath = connectionUri c)
                        then Some {| rv_uri := connectionUri c |} else None));
  nodeErrorMessage _ := Returned None;
  childInfos node :=
    Returned (Resolved (Some [ {| NodeInfo.label := JStr "HDFS";
                        NodeInfo.isLeaf := false;
                        NodeInfo.errorMessage := None;
                        NodeInfo.metadata := None;
                        NodeInfo.nodePath := rv_uri node ++ "/HDFS";
                        NodeInfo.nodeStatus := None;
                        NodeInfo.nodeType := "hdfs:connection";
                        NodeInfo.nodeSubType := None;
                        NodeInfo.iconType := "hdfs:connection" |} ]));
  getErrorMessage error :=
    match error with
    | Error message | TypeError message | Reason message => message
    end;
|}.

End ObjectExplorer.

(** ** Sample inputs *)
Module Samples.
Import ObjectExplorer.

Definition connInfo (opts : list (string * JsValue)) : JsObject :=
  {| props := ∅; options := Some (list_to_map opts) |}.

(** host="h", port absent, user="root", password="p" *)
Definition noPort : JsObject :=
  connInfo [ ("host", JStr "h"); ("user", JStr "root"); ("password", JStr "p") ].

(** the same with an empty [knoxport] *)
Definition emptyPort : JsObject :=
  connInfo [ ("host", JStr "h"); ("knoxport", JStr "");
             ("user", JStr "root"); ("password", JStr "p") ].

Definition withPort : JsObject :=
  connInfo [ ("host", JStr "h"); ("knoxport", JStr "30443");
             ("user", JStr "root"); ("password", JStr "other") ].

Definition emptyPortConnection : DescriptorConnection :=
  {| descriptor :=
       {| SqlClusterConnection._sqlClusterConnInfo := emptyPort;
          SqlClusterConnection._sqlClusterConnProfile :=
            assign emptyPort
              (<[ "serverName" := JStr "h," ]>
               (<[ "userName" := JStr "root" ]>
               (<[ "password" := JStr "p" ]>
               {[ "id" := JUndefined ]})));
          SqlClusterConnection._host := JStr "h";
          SqlClusterConnection._port := JStr "";
          SqlClusterConnection._user := JStr "root";
          SqlClusterConnection._pass := JStr "p" |};
     connectionUri := "objectexplorer://h:30443" |}.

Definition emptyPortDescriptor : SqlClusterConnection.t :=
  descriptor emptyPortConnection.

Definition withPortDescriptor : SqlClusterConnection.t :=
  {| SqlClusterConnection._sqlClusterConnInfo := withPort;
     SqlClusterConnection._sqlClusterConnProfile :=
       assign withPort
         (<[ "serverName" := JStr "h,30443" ]>
          (<[ "userName" := JStr "root" ]>
          (<[ "password" := JStr "other" ]>
          {[ "id" := JUndefined ]})));
     SqlClusterConnection._host := JStr "h";
     SqlClusterConnection._port := JStr "30443";
     SqlClusterConnection._user := JStr "root";
     SqlClusterConnection._pass := JStr "other" |}.

Definition withPortConnection : DescriptorConnection :=
  {| descriptor := withPortDescriptor;
     connectionUri := "objectexplorer://h:30443" |}.

(** What the provider's connection is for [noPort]: the port defaulted. *)
Definition noPortConnection : DescriptorConnection :=
  {| descriptor :=
       {| SqlClusterConnection._sqlClusterConnInfo := withDefaultPort noPort;
          SqlClusterConnection._sqlClusterConnProfile :=
            assign (withDefaultPort noPort)
              (<[ "serverName" := JStr "h,30443" ]>
               (<[ "userName" := JStr "root" ]>
               (<[ "password" := JStr "p" ]>
               {[ "id" := JUndefined ]})));
          SqlClusterConnection._host := JStr "h";
          SqlClusterConnection._port := JStr "30443";
          SqlClusterConnection._user := JStr "root";
          SqlClusterConnection._pass := JStr "p" |};
     connectionUri := "objectexplorer://h:30443" |}.

(** A connection info whose host is [NaN], and its descriptor. *)
Definition nanHost : JsObject :=
  connInfo [ ("host", JNaN); ("knoxport", JStr "30443");
             ("user", JStr "root"); ("password", JStr "p") ].

Definition nanHostDescriptor : SqlClusterConnection.t :=
  {| SqlClusterConnection._sqlClusterConnInfo := nanHost;
     SqlClusterConnection._sqlClusterConnProfile :=
       assign nanHost
         (<[ "serverName" := JStr "NaN,30443" ]>
          (<[ "userName" := JStr "root" ]>
          (<[ "password" := JStr "p" ]>
          {[ "id" := JUndefined ]})));
     SqlClusterConnection._host := JNaN;
     SqlClusterConnection._port := JStr "30443";
     SqlClusterConnection._user := JStr "root";
     SqlClusterConnection._pass := JStr "p" |}.

(** An expansion request for a session nobody created. *)
Definition strayNodeInfo : ExpandNodeInfo.t :=
  {| ExpandNodeInfo.sessionId := "objectexplorer://nowhere:30443";
     ExpandNodeInfo.nodePath := "objectexplorer://nowhere:30443" |}.

(** A heap holding one root node, just constructed. *)
Definition newRoot : RootNode :=
  {| _session := {| _connection := emptyPortConnection |};
     context := tt;
     children := None |}.

Definition rootHeap : gmap loc HeapObject := {[ 0 := ORootNode newRoot ]}.

(** Sample values for the entries of constants.ts that the lookup reads. *)
Definition mssqlClusterProviderName : string := "mssqlCluster".
Definition clusterEndpointsProperty : string := "clusterEndpoints".
Definition hadoopKnoxEndpointName : string := "Knox".

(** A host API that knows no server and no credentials. *)
Definition noServerInfo (connectionId : JsValue)
  : Promise (option SqlClusterLookUp.ServerInfo) := Resolved None.
Definition noCredentials (connectionId : JsValue)
  : Promise (option (gmap string JsValue)) := Resolved None.

(** A cluster connection without [id] or [connectionId]. *)
Definition clusterConnection : JsObject :=
  {| props := {[ "providerName" := JStr "mssqlCluster" ]};
     options := Some (list_to_map
       [ ("host", JStr "h"); ("knoxport", JStr "30443");
         ("user", JStr "root"); ("password", JStr "p") ]) |}.

(** The same without an option bag. *)
Definition clusterConnectionNoOptions : JsObject :=
  {| props := {[ "providerName" := JStr "mssqlCluster" ]}; options := None |}.

(** A SQL server connection that carries no connection id. *)
Definition sqlConnectionNoId : JsObject :=
  {| props := {[ "providerName" := JStr "MSSQL" ]}; options := Some ∅ |}.

End Samples.

(** ** The provider driven by its host

    The host UI interleaves requests with the event loop.  One [Tick] lets the
    oldest pending timer fire, one [Settle i] lets the value the [i]-th
    suspended expansion waits for settle; a run is any sequence of requests,
    ticks and settlements. *)
Module Protocol.
Import ObjectExplorer.

Section Requests.
Context `{Collaborators}.

(** The oldest pending timer fires. *)
Definition tick (st : State) : State :=
  match timers st with
  | [] => st
  | t :: ts =>
      run_task t
        {| sessionMap := sessionMap st; timers := ts;
           awaiting := awaiting st; emitted := emitted st |}
  end.

Inductive Request : Type :=
| CreateSession (connInfo : option JsObject)
| ExpandNode (nodeInfo : option ExpandNodeInfo.t) (isRefresh : bool)
| RefreshNode (nodeInfo : option ExpandNodeInfo.t)
| CloseSession (sessionId : string)
| Tick
| Settle (i : nat).

Definition step (st : State) (r : Request) : State :=
  match r with
  | CreateSession connInfo => (createNewSession connInfo st).2
  | ExpandNode nodeInfo isRefresh => (expandNode nodeInfo isRefresh st).2
  | RefreshNode nodeInfo => (refreshNode nodeInfo st).2
  | CloseSession sessionId => (closeSession sessionId st).2
  | Tick => tick st
  | Settle i => settleAt i st
  end.

Definition run (rs : list Request) (st : State) : State := fold_left step rs st.

(** A [createSession] call is accepted when its connection can be built. *)
Definition accepted (connInfo : option JsObject) : bool :=
  match new_Connection connInfo ≫= saveUriWithPrefix objectExplorerPrefix with
  | Returned _ => true
  | Thrown _ => false
  end.

Definition isCreateCall (r : Request) : bool :=
  match r with
  | CreateSession connInfo => accepted connInfo
  | _ => false
  end.

Definition isExpandCall (r : Request) : bool :=
  match r with
  | ExpandNode (Some _) _ | RefreshNode (Some _) => true
  | _ => false
  end.

(** The accepted [createSession] calls of a run. *)
Definition createCalls (rs : list Request) : nat :=
  length (filter (fun r => isCreateCall r = true) rs).

(** The [expandNode] / [refreshNode] calls of a run that were given a
    [nodeInfo] (the others are rejected). *)
Definition expandCalls (rs : list Request) : nat :=
  length (filter (fun r => isExpandCall r = true) rs).

Definition isCreateTask (t : Task) : bool :=
  match t with
  | CreateSessionTask _ => true
  | _ => false
  end.

(** Pending session constructions, and pending expansion callbacks. *)
Definition pendingCreates (st : State) : nat :=
  length (filter (fun t => isCreateTask t = true) (timers st)).

Definition pendingExpansions (st : State) : nat :=
  length (filter (fun t => isCreateTask t = false) (timers st)).

(** Every registered session sits under its own uri. *)
Definition keyedByUri (st : State) : Prop :=
  ∀ k s, sessionMap st !! k = Some s → Session_uri s = k.

(** Every registered key has been announced by a success event. *)
Definition announced (st : State) : Prop :=
  ∀ k, is_Some (sessionMap st !! k) →
    ∃ ev, ev ∈ sessionCreatedEvents (emitted st)
          ∧ ObjectExplorerSession.sessionId ev = k
          ∧ ObjectExplorerSession.success ev = true.

(** The session constructions for the key [k]: those a timer is pending
    for, and those the accepted [createSession] calls of a run ask for, each
    with its connection, in order. *)
Definition constructionFor (k : string) (t : Task) : option Connection :=
  match t with
  | CreateSessionTask c => if decide (uri c = k) then Some c else None
  | _ => None
  end.

Definition pendingFor (k : string) (ts : list Task) : list Connection :=
  omap (constructionFor k) ts.

Definition callFor (k : string) (r : Request) : option Connection :=
  match r with
  | CreateSession connInfo =>
      match new_Connection connInfo ≫= saveUriWithPrefix objectExplorerPrefix with
      | Returned c => if decide (uri c = k) then Some c else None
      | Thrown _ => None
      end
  | _ => None
  end.

Definition callsFor (k : string) (rs : list Request) : list Connection :=
  omap (callFor k) rs.

(** The [onSessionCreated] events of a log that name the session id [k]. *)
Definition eventsFor (k : string) (log : list Event)
  : list ObjectExplorerSession.t :=
  filter (fun e => ObjectExplorerSession.sessionId e = k)
         (sessionCreatedEvents log).

(** A request that is neither [closeSession(k)] nor a [createSession] call
    accepted under the key [k]. *)
Definition foreign (k : string) (r : Request) : Prop :=
  r ≠ CloseSession k ∧ callFor k r = None.

End Requests.

End Protocol.

(** ** The lookup's success path, as a condition on its surroundings *)
Module Gateway.
Import SqlClusterLookUp.

Section Found.
Variables (mssqlClusterProviderName clusterEndpointsProperty
           hadoopKnoxEndpointName : string).
Variable getServerInfo : JsValue -> Promise (option ServerInfo).
Variable getCredentials : JsValue -> Promise (option (gmap string JsValue)).

(** The input is not a cluster connection, it carries a connection id, the
    server info lists endpoints of which [ep] is the first Knox gateway, and
    the credentials lookup resolved to [credentials]. *)
Definition found (o : JsObject) (ep : IEndpoint)
    (credentials : gmap string JsValue) : Prop :=
  prop o "providerName" ≠ JStr mssqlClusterProviderName
  ∧ truthy (connectionIdOf o) = true
  ∧ ∃ serverInfo sopts before after,
      getServerInfo (connectionIdOf o) = Resolved (Some serverInfo)
      ∧ si_options serverInfo = Some sopts
      ∧ sopts !! clusterEndpointsProperty = Some (before ++ ep :: after)%list
      ∧ Forall (fun e => serviceName e ≠ hadoopKnoxEndpointName) before
      ∧ serviceName ep = hadoopKnoxEndpointName
      ∧ getCredentials (connectionIdOf o) = Resolved (Some credentials).

(** The option bag the lookup builds for a gateway and credentials. *)
Definition clusterOptions (ep : IEndpoint) (credentials : gmap string JsValue)
  : gmap string JsValue :=
  <[ constants.passwordPropName := get credentials "password" ]>
  (<[ constants.userPropName := JStr "root" ]>
  (<[ constants.knoxPortPropName := JNum (port ep) ]>
  {[ constants.hostPropName := JStr (ipAddress ep) ]})).

End Found.

End Gateway.

(** ** class OpenSparkYarnHistoryTask (sparkFeature/historyTask.ts) *)
Module OpenSparkYarnHistoryTask.

(** What [execute] does to its surroundings: it shows an error message, or
    it runs the command [vscode.open] on a uri parsed from a string. *)
Inductive Effect : Type :=
| ShowErrorMessage (message : string)
| OpenUri (url : string).

Definition generateSparkHistoryUrl (host port : JsValue) : string :=
  "https://" ++ to_string host ++ ":" ++ to_string port
  ++ "/gateway/default/sparkhistory/".

Definition generateYarnHistoryUrl (host port : JsValue) : string :=
  "https://" ++ to_string host ++ ":" ++ to_string port
  ++ "/gateway/default/yarn/cluster/apps".

Section Execute.
(** What [SqlClusterLookUp] needs, and [utils.getErrorMessage]. *)
Variables (mssqlClusterProviderName clusterEndpointsProperty
           hadoopKnoxEndpointName : string).
Variable getServerInfo : JsValue -> Promise (option SqlClusterLookUp.ServerInfo).
Variable getCredentials : JsValue -> Promise (option (gmap string JsValue)).
Variable generateUuid : string.
Variable getErrorMessage : JsError -> string.

(** [execute]: everything runs under one [try]; the [catch] shows the
    error's message. *)
Definition execute (sqlConnProfile : option JsObject) (isSpark : bool)
  : list Effect :=
  match SqlClusterLookUp.lookUpSqlClusterInfo mssqlClusterProviderName
          clusterEndpointsProperty hadoopKnoxEndpointName getServerInfo
          getCredentials generateUuid sqlConnProfile with
  | Rejected error => [ShowErrorMessage (getErrorMessage error)]
  | Resolved None =>
      let name := if isSpark then "Spark" else "Yarn" in
      [ShowErrorMessage
         ("Please connect to the Spark cluster before View " ++ name
          ++ " History.")]
  | Resolved (Some clusterConnInfo) =>
      match SqlClusterConnection.new (Some clusterConnInfo) with
      | Thrown error => [ShowErrorMessage (getErrorMessage error)]
      | Returned hadoopConnection =>
          if isSpark then
            [OpenUri (generateSparkHistoryUrl
                        (SqlClusterConnection.host hadoopConnection)
                        (SqlClusterConnection.port hadoopConnection))]
          else
            [OpenUri (generateYarnHistoryUrl
                        (SqlClusterConnection.host hadoopConnection)
                        (SqlClusterConnection.port hadoopConnection))]
      end
  end.

End Execute.

End OpenSparkYarnHistoryTask.

(** ** class ServiceClient: the download progress handler *)
Module ServiceClient.

(** The events of the service downloader, each with the arguments the
    handler reads. *)
Inductive ServerProviderEvent : Type :=
| INSTALL_START (installPath : string)
| INSTALL_END
| DOWNLOAD_START (url : string) (size : Z)
| DOWNLOAD_PROGRESS (percent : Z)
| DOWNLOAD_END
| OTHER (name : string).

Inductive Output : Type :=
| ChannelShow                 (* outputChannel.show() *)
| StatusShow                  (* statusView.show() *)
| AppendLine (s : string)     (* outputChannel.appendLine(s) *)
| Append (s : string)         (* outputChannel.append(s) *)
| StatusText (s : string).    (* statusView.text = s *)

(** [Math.ceil(a / b)] on integers, [b > 0]. *)
Definition ceilDiv (a b : Z) : Z := (- ((- a) / b))%Z.

(** ['.'.repeat(n)] *)
Fixpoint dotString (n : nat) : string :=
  match n with
  | O => ""
  | S n' => ("." ++ dotString n')%string
  end.

(** [config.strictSSL = ...get('proxyStrictSSL') || true] in [startService] *)
Definition strictSSL (proxyStrictSSL : JsValue) : JsValue :=
  Js.or proxyStrictSSL (JBool true).

Section Handler.
(** [Constants.serviceName] *)
Variable serviceName : string.

(** The handler [generateHandleServerProviderEvent] returns, with the
    counter [dots] of its closure made explicit. *)
Definition handle (dots : Z) (e : ServerProviderEvent) : Z * list Output :=
  let shown := [ChannelShow; StatusShow] in
  match e with
  | INSTALL_START installPath =>
      (dots,
       app shown [ AppendLine ("Installing " ++ serviceName ++ " service to "
                              ++ installPath)%string;
                  StatusText "Installing Service" ])
  | INSTALL_END => (dots, app shown [AppendLine "Installed"])
  | DOWNLOAD_START url size =>
      (dots,
       app shown [ AppendLine ("Downloading " ++ url)%string;
                  Append ("(" ++ pretty (ceilDiv size 1024) ++ " KB)")%string;
                  StatusText "Downloading Service" ])
  | DOWNLOAD_PROGRESS percent =>
      let newDots := ceilDiv percent 5 in
      if (newDots >? dots)%Z
      then (newDots, app shown [Append (dotString (Z.to_nat (newDots - dots)))])
      else (dots, shown)
  | DOWNLOAD_END => (dots, app shown [AppendLine "Done!"])
  | OTHER _ => (dots, shown)
  end.

(** The handler over a sequence of events, from a given counter. *)
Fixpoint handleAll (dots : Z) (es : list ServerProviderEvent)
  : Z * list Output :=
  match es with
  | [] => (dots, [])
  | e :: es' =>
      let '(dots1, out1) := handle dots e in
      let '(dots2, out2) := handleAll dots1 es' in
      (dots2, app out1 out2)
  end.

End Handler.

(** The text [append]ed to the output channel. *)
Fixpoint appended (out : list Output) : string :=
  match out with
  | [] => ""
  | Append s :: out' => (s ++ appended out')%string
  | _ :: out' => appended out'
  end.

(** The percentages reported by the progress events of a run. *)
Definition progressOf (es : list ServerProviderEvent) : list Z :=
  omap (fun e => match e with DOWNLOAD_PROGRESS p => Some p | _ => None end) es.

(** The largest number of dots a progress report of the list asks for. *)
Definition dotsAskedFor (percents : list Z) : Z :=
  foldr (fun p acc => Z.max (ceilDiv p 5) acc) 0%Z percents.

End ServiceClient.

(** ** Walking up to the session of a node *)
Module TreeWalk.
Import ObjectExplorer.

Section Walk.
Context `{Collaborators}.

(** [getSessionForNode(node)]: follow [parent] until a [RootNode] is found
    or there is no node left.  Each round of the [while] loop takes one unit
    of [fuel]; [None] means the fuel ran out.  An object that is not a tree
    node has no [parent]. *)
Fixpoint getSessionForNode (fuel : nat) (node : option loc)
    (h : gmap loc HeapObject) : option (option Session) :=
  match fuel with
  | O => None
  | S fuel' =>
      match node with
      | None => Some None
      | Some l =>
          match h !! l with
          | Some (ORootNode r) => Some (Some (_session r))
          | Some (OConnectionNode n) => getSessionForNode fuel' (cn_parent n) h
          | _ => Some None
          end
      end
  end.

Section Find.
(** [connection.isMatch(connectionProfile)] of the [Connection] class *)
Variable connection_isMatch : Connection -> JsObject -> Outcome bool.

(** [findSessionForConnection]: the sessions are visited in the order
    [sessionMap.values()] yields them. *)
Fixpoint findSessionForConnection (sessions : list Session)
    (connectionProfile : JsObject) : Outcome (option Session) :=
  match sessions with
  | [] => Returned None
  | session :: rest =>
      isMatch ← connection_isMatch (_connection session) connectionProfile;
      if isMatch : bool then Returned (Some session)
      else findSessionForConnection rest connectionProfile
  end.

End Find.

End Walk.

End TreeWalk.

(** ** More sample inputs *)
Module Samples2.
Import ObjectExplorer Samples.

(** Collaborators whose root node cannot produce its path. *)
Definition brokenRoot : Collaborators :=
  {| Connection := DescriptorConnection;
     new_Connection := @new_Connection DescriptorCollaborators;
     saveUriWithPrefix := @saveUriWithPrefix DescriptorCollaborators;
     uri := connectionUri;
     host := @host DescriptorCollaborators;
     FileSource := SqlClusterConnection.IHdfsOptions;
     createHdfsFileSource := @createHdfsFileSource DescriptorCollaborators;
     TreeDataContext := unit;
     treeDataContext := tt;
     generateNodePath := fun _ => Thrown (Error "no path");
     TreeNode := RootView;
     findNodeByPath := fun _ _ => Thrown (Error "tree unavailable");
     nodeErrorMessage := fun _ => Returned None;
     childInfos := fun _ => Returned (Resolved None);
     getErrorMessage := @getErrorMessage DescriptorCollaborators |}.

Definition rootRequest : ExpandNodeInfo.t :=
  {| ExpandNodeInfo.sessionId := "objectexplorer://h:30443";
     ExpandNodeInfo.nodePath := "objectexplorer://h:30443" |}.

(** A SQL server connection with a connection id. *)
Definition sqlConnection : JsObject :=
  {| props := <[ "providerName" := JStr "MSSQL" ]> {[ "connectionId" := JStr "c1" ]};
     options := Some ∅ |}.

Definition gateway : SqlClusterLookUp.IEndpoint :=
  {| SqlClusterLookUp.serviceName := "Knox";
     SqlClusterLookUp.ipAddress := "10.0.0.7";
     SqlClusterLookUp.port := 30443 |}.

Definition otherEndpoint : SqlClusterLookUp.IEndpoint :=
  {| SqlClusterLookUp.serviceName := "Grafana";
     SqlClusterLookUp.ipAddress := "10.0.0.8";
     SqlClusterLookUp.port := 30888 |}.

Definition serverWithGateway (connectionId : JsValue)
  : Promise (option SqlClusterLookUp.ServerInfo) :=
  Resolved (Some
    {| SqlClusterLookUp.si_options :=
         Some {[ "clusterEndpoints" := [otherEndpoint; gateway] ]} |}).

Definition credentialsWithPassword (connectionId : JsValue)
  : Promise (option (gmap string JsValue)) :=
  Resolved (Some {[ "password" := JStr "p" ]}).

Definition credentialsWithoutPassword (connectionId : JsValue)
  : Promise (option (gmap string JsValue)) :=
  Resolved (Some ∅).

(** A heap in which the root at 0 has been expanded once, and a connection
    node that hangs nowhere. *)
Definition hdfsNode : ConnectionNode :=
  {| cn_context := tt;
     cn_label := "HDFS";
     cn_fileSource := SqlClusterConnection.hdfsOptions emptyPortDescriptor;
     cn_parent := Some 0 |}.

Definition expandedRoot : RootNode :=
  {| _session := {| _connection := emptyPortConnection |};
     context := tt;
     children := Some 1 |}.

Definition expandedHeap : gmap loc HeapObject :=
  <[ 2 := OConnectionNode hdfsNode ]>
  (<[ 1 := OArray [2] ]> {[ 0 := ORootNode expandedRoot ]}).

Definition strayNode : ConnectionNode :=
  {| cn_context := tt;
     cn_label := "HDFS";
     cn_fileSource := SqlClusterConnection.hdfsOptions emptyPortDescriptor;
     cn_parent := None |}.

Definition messageOf (error : JsError) : string :=
  match error with
  | Error message | TypeError message | Reason message => message
  end.

End Samples2.

(** * Properties *)

Local Open Scope list_scope.

(** ** Strict equality *)
Section StrictEquality.

Lemma strict_eq_true (a b : JsValue) :
  strict_eq a b = true ↔ a = b ∧ a ≠ JNaN.
Proof.
  destruct a; cbn [strict_eq]; rewrite ?bool_decide_eq_true;
    (split; [try (by intros <-); done | by intros [? ?]]).
Qed.

Lemma strict_eq_false_nan (a : JsValue) : strict_eq a a = false ↔ a = JNaN.
Proof.
  destruct a; cbn [strict_eq]; rewrite ?bool_decide_eq_false; split; done.
Qed.

Lemma strict_eq_refl (a : JsValue) : a ≠ JNaN → strict_eq a a = true.
Proof. intros Ha. by apply strict_eq_true. Qed.

Lemma strict_eq_sym (a b : JsValue) : strict_eq a b = strict_eq b a.
Proof.
  apply eq_true_iff_eq. rewrite !strict_eq_true.
  split; intros [-> ?]; done.
Qed.

Lemma strict_eq_trans (a b c : JsValue) :
  strict_eq a b = true → strict_eq b c = true → strict_eq a c = true.
Proof. rewrite !strict_eq_true. intros [-> ?] [-> _]. done. Qed.

(** Against a value that is not [NaN], [===] is equality. *)
Lemma strict_eq_decide (a b : JsValue) :
  b ≠ JNaN → strict_eq a b = bool_decide (a = b).
Proof.
  intros Hb. destruct a; try done.
  cbn [strict_eq]. by rewrite bool_decide_eq_false_2.
Qed.

End StrictEquality.

(** ** Connection descriptors *)
Section Descriptor.
Import SqlClusterConnection.

Lemma isValid_complete (ci : JsObject) :
  isValid (Some ci) = true ↔ ∃ opts, options ci = Some opts ∧ complete opts.
Proof.
  unfold isValid, complete. destruct (options ci) as [opts |].
  - simpl. rewrite !strict_eq_decide by done.
    rewrite !andb_true_iff, !negb_true_iff, !bool_decide_eq_false.
    split.
    + intros (? & ? & ? & ? & _). eauto 10.
    + intros (o & [= <-] & ? & ? & ? & ?). done.
  - split; [done |]. by intros (? & ? & _).
Qed.

(** What the constructor stores for a valid input. *)
Lemma new_complete (ci : JsObject) (opts : gmap string JsValue) :
  options ci = Some opts → complete opts →
  ∃ c, new (Some ci) = Returned c
       ∧ options (_sqlClusterConnInfo c) = Some opts
       ∧ _host c = get opts constants.hostPropName
       ∧ _port c = get opts constants.knoxPortPropName
       ∧ _user c = get opts constants.userPropName
       ∧ _pass c = get opts constants.passwordPropName.
Proof.
  intros Hopts Hc. unfold new.
  assert (isValid (Some ci) = true) as -> by (apply isValid_complete; eauto).
  simpl. destruct (has "id" ci); eexists; (split; [reflexivity |]);
    unfold optionsOf; simpl; rewrite Hopts; done.
Qed.

Lemma new_incomplete (ci : JsObject) (opts : gmap string JsValue) :
  options ci = Some opts → ¬ complete opts →
  new (Some ci) = Thrown (Error "Invalid ConnectionInfo is provided.").
Proof.
  intros Hopts Hc. unfold new.
  destruct (isValid (Some ci)) eqn:E; [| done].
  exfalso. apply isValid_complete in E as (o & Ho & ?). congruence.
Qed.

Lemma new_inv (connectionInfo : option JsObject) (c : t) :
  new connectionInfo = Returned c →
  ∃ ci opts, connectionInfo = Some ci ∧ options ci = Some opts ∧ complete opts
    ∧ options (_sqlClusterConnInfo c) = Some opts
    ∧ _host c = get opts constants.hostPropName
    ∧ _port c = get opts constants.knoxPortPropName
    ∧ _user c = get opts constants.userPropName
    ∧ _pass c = get opts constants.passwordPropName.
Proof.
  intros Hnew. destruct connectionInfo as [ci |]; [| done].
  destruct (isValid (Some ci)) eqn:E.
  - apply isValid_complete in E as (opts & Hopts & Hc).
    destruct (new_complete ci opts Hopts Hc) as (c' & Hc' & ?).
    rewrite Hc' in Hnew. injection Hnew as ->. eauto 10.
  - unfold new in Hnew. by rewrite E in Hnew.
Qed.

Lemma isMatch_bags (this : t) (o : t + JsObject)
    (o1 o2 : gmap string JsValue) :
  match o with
  | inr ci => options ci
  | inl c => options (_sqlClusterConnInfo c)
  end = Some o1 →
  options (_sqlClusterConnInfo this) = Some o2 →
  ∃ b, isMatch this (Some o) = Returned b
       ∧ (b = true ↔
          strict_eq (get o1 constants.hostPropName)
                    (get o2 constants.hostPropName) = true
          ∧ strict_eq (get o1 constants.knoxPortPropName)
                      (get o2 constants.knoxPortPropName) = true
          ∧ strict_eq (get o1 constants.userPropName)
                      (get o2 constants.userPropName) = true).
Proof.
  intros H1 H2. unfold isMatch. rewrite H1, H2. eexists. split; [done |].
  simpl. rewrite !andb_true_iff. intuition.
Qed.

Lemma complete_setPassword (opts : gmap string JsValue) (pw : JsValue) :
  complete opts → pw ≠ JUndefined →
  complete (<[ constants.passwordPropName := pw ]> opts)
  ∧ get (<[ constants.passwordPropName := pw ]> opts) constants.hostPropName
    = get opts constants.hostPropName
  ∧ get (<[ constants.passwordPropName := pw ]> opts) constants.knoxPortPropName
    = get opts constants.knoxPortPropName
  ∧ get (<[ constants.passwordPropName := pw ]> opts) constants.userPropName
    = get opts constants.userPropName
  ∧ get (<[ constants.passwordPropName := pw ]> opts) constants.passwordPropName
    = pw.
Proof.
  intros (? & ? & ? & ?) Hpw. unfold complete, get.
  rewrite lookup_insert_eq, !lookup_insert_ne by done. done.
Qed.

End Descriptor.

(** ** The event loop *)
Section EventLoop.
Import ObjectExplorer.
Context `{Collaborators}.

Lemma run_task_timers (t : Task) (st : State) :
  timers (run_task t st) = timers st.
Proof.
  destruct t as [c | ni | s ni r]; simpl; [| done |].
  - case_bool_decide; [done |].
    unfold doCreateSession. destruct (getNodeInfo _); done.
  - unfold startExpansion. by destruct (findNodeByPath _ _).
Qed.

Lemma run_tasks_timers (ts : list Task) (st : State) :
  timers (run_tasks ts st) = timers st.
Proof.
  revert st. induction ts as [| t ts IH]; intros st; [done |].
  simpl. rewrite IH. apply run_task_timers.
Qed.

Lemma timers_run_timers (st : State) : timers (run_timers st) = [].
Proof. unfold run_timers. by rewrite run_tasks_timers. Qed.

(** A timer set last fires last. *)
Lemma run_timers_setTimeout (t : Task) (st : State) :
  run_timers (setTimeout t st) = run_task t (run_timers st).
Proof. unfold run_timers, run_tasks, setTimeout. simpl. by rewrite fold_left_app. Qed.

Lemma run_timers_quiescent (st : State) :
  timers st = [] → run_timers st = st.
Proof. destruct st as [m ts aw log]. simpl. intros ->. done. Qed.

(** The deferred construction when the key is free: the session is
    registered (and removed again if its root fails), and one event fires. *)
Lemma run_create_fresh (c : Connection) (st : State) :
  sessionMap st !! uri c = None →
  run_task (CreateSessionTask c) st =
    {| sessionMap :=
         if ObjectExplorerSession.success (sessionCreatedResult c)
         then <[ uri c := {| _connection := c |} ]> (sessionMap st)
         else delete (uri c) (<[ uri c := {| _connection := c |} ]> (sessionMap st));
       timers := timers st;
       awaiting := awaiting st;
       emitted := emitted st ++ [SessionCreated (sessionCreatedResult c)] |}.
Proof.
  intros Hfree. simpl. rewrite bool_decide_eq_false_2.
  2:{ rewrite Hfree. by intros [? ?]. }
  unfold doCreateSession, sessionCreatedResult.
  destruct (getNodeInfo _) as [n | e]; done.
Qed.

(** ... and when the key is taken: nothing happens. *)
Lemma run_create_present (c : Connection) (st : State) :
  is_Some (sessionMap st !! uri c) →
  run_task (CreateSessionTask c) st = st.
Proof. intros Hin. simpl. by rewrite bool_decide_eq_true_2. Qed.

Lemma createNewSession_accepted (connInfo : option JsObject)
    (c : Connection) (st : State) :
  new_Connection connInfo ≫= saveUriWithPrefix objectExplorerPrefix
    = Returned c →
  createNewSession connInfo st =
    (Resolved {| ObjectExplorerSessionResponse.sessionId := uri c |},
     setTimeout (CreateSessionTask c) st).
Proof. intros Hc. unfold createNewSession. by rewrite Hc. Qed.

Lemma sessionCreatedResult_sessionId (c : Connection) :
  ObjectExplorerSession.sessionId (sessionCreatedResult c) = uri c.
Proof. unfold sessionCreatedResult. by destruct (getNodeInfo _). Qed.

Lemma sessionCreatedResult_success (c : Connection) (p : string) :
  generateNodePath c = Returned p →
  ObjectExplorerSession.success (sessionCreatedResult c) = true
  ∧ ∃ n, ObjectExplorerSession.rootNode (sessionCreatedResult c) = Some n
         ∧ NodeInfo.label n = host c ∧ NodeInfo.isLeaf n = false.
Proof.
  intros Hp. unfold sessionCreatedResult, getNodeInfo. simpl. rewrite Hp. simpl.
  split; [done |]. eexists. split; [done |]. done.
Qed.

Lemma run_timers_idemp (st : State) :
  run_timers (run_timers st) = run_timers st.
Proof. apply run_timers_quiescent, timers_run_timers. Qed.

Lemma sessionCreatedEvents_snoc (log : list Event) (e : ObjectExplorerSession.t) :
  sessionCreatedEvents (log ++ [SessionCreated e]) = sessionCreatedEvents log ++ [e].
Proof. unfold sessionCreatedEvents. by rewrite omap_app. Qed.

Lemma successEvents_snoc (log : list Event) (e : ObjectExplorerSession.t) :
  ObjectExplorerSession.success e = true →
  successEvents (log ++ [SessionCreated e]) = successEvents log ++ [e].
Proof.
  intros He. unfold successEvents. rewrite sessionCreatedEvents_snoc, filter_app.
  f_equal. rewrite filter_cons_True by done. done.
Qed.

Lemma sessionCreatedEvents_expand (log : list Event)
    (e : ObjectExplorerExpandInfo.t) :
  sessionCreatedEvents (log ++ [ExpandCompleted e]) = sessionCreatedEvents log.
Proof. unfold sessionCreatedEvents. rewrite omap_app. apply app_nil_r. Qed.

(** Starting an expansion: its lookup throws and the event is fired at
    once, or the expansion is suspended on the lookup. *)
Lemma startExpansion_effect (s : Session) (ni : ExpandNodeInfo.t) (r : bool)
    (st : State) :
  (∃ ev, completes s ni ev
         ∧ startExpansion s ni r st = fire (ExpandCompleted ev) st)
  ∨ (∃ lookup, startExpansion s ni r st = suspend (AwaitingNode s ni lookup) st).
Proof.
  unfold startExpansion, expansionFailed.
  destruct (findNodeByPath _ _) as [lookup | e]; [right; by eexists |].
  left. eexists. split; [| reflexivity]. by repeat split.
Qed.

(** Resuming an expansion: after the lookup it fires its event or is
    suspended once more, on the child listing; after the child listing it
    fires its event. *)
Lemma resume_effect (k : Continuation) (st : State) :
  match k with
  | AwaitingNode s ni _ =>
      (∃ ev, completes s ni ev ∧ resume k st = fire (ExpandCompleted ev) st)
      ∨ (∃ msg listing,
           resume k st = suspend (AwaitingChildren s ni msg listing) st)
  | AwaitingChildren s ni _ _ =>
      ∃ ev, completes s ni ev ∧ resume k st = fire (ExpandCompleted ev) st
  end.
Proof.
  destruct k as [s ni lookup | s ni msg listing]; cbn [resume];
    unfold expansionFailed.
  - destruct lookup as [[node |] | e];
      [| left; eexists; (split; [| reflexivity]); by repeat split ..].
    destruct (nodeErrorMessage node) as [msg | e];
      [| left; eexists; (split; [| reflexivity]); by repeat split].
    destruct (childInfos node) as [listing | e];
      [right; by do 2 eexists |].
    left; eexists; (split; [| reflexivity]); by repeat split.
  - destruct listing as [[nodes |] | e];
      eexists; (split; [| reflexivity]); by repeat split.
Qed.

Lemma startExpansion_move (s : Session) (ni : ExpandNodeInfo.t) (r : bool)
    (st : State) :
  expansionMove st (startExpansion s ni r st).
Proof.
  destruct (startExpansion_effect s ni r st) as [(ev & _ & ->) | (l & ->)];
    (split; [done |]); (split; [done |]); [left | right]; by eexists.
Qed.

Lemma resume_move (k : Continuation) (st : State) :
  expansionMove st (resume k st).
Proof.
  pose proof (resume_effect k st) as Hk.
  destruct k as [s ni lookup | s ni msg listing].
  - destruct Hk as [(ev & _ & ->) | (m & l & ->)];
      (split; [done |]); (split; [done |]); [left | right]; by eexists.
  - destruct Hk as (ev & _ & ->).
    split; [done |]. split; [done |]. left. by eexists.
Qed.

(** A settlement is a move of the expansion it wakes, on the state without
    that expansion. *)
Lemma settleAt_move (i : nat) (st : State) :
  settleAt i st = st
  ∨ (is_Some (awaiting st !! i)
     ∧ expansionMove
         {| sessionMap := sessionMap st; timers := timers st;
            awaiting := delete i (awaiting st); emitted := emitted st |}
         (settleAt i st)).
Proof.
  unfold settleAt. destruct (awaiting st !! i) as [k |]; [| by left].
  right. split; [by eexists |]. apply resume_move.
Qed.

(** With nothing suspended there is nothing to settle. *)
Lemma settle_all_quiet (st : State) : awaiting st = [] → settle_all st = st.
Proof. destruct st as [m ts aw log]. cbn. by intros ->. Qed.

Lemma settle_all_one (k : Continuation) (st : State) :
  awaiting st = [] → settle_all (suspend k st) = resume k st.
Proof. destruct st as [m ts aw log]. cbn. by intros ->. Qed.

(** An expansion whose timer is the only thing pending runs to its end:
    one event, and nothing is left pending. *)
Lemma quiesce_expansion (s : Session) (ni : ExpandNodeInfo.t) (r : bool)
    (st : State) :
  timers st = [StartExpansionTask s ni r] →
  awaiting st = [] →
  ∃ ev, completes s ni ev
    ∧ quiesce st
      = {| sessionMap := sessionMap st; timers := []; awaiting := [];
           emitted := emitted st ++ [ExpandCompleted ev] |}.
Proof.
  destruct st as [m ts aw log]. cbn [timers awaiting]. intros -> ->.
  unfold quiesce, run_timers. cbn [timers sessionMap awaiting emitted].
  cbn [run_tasks fold_left run_task].
  set (st0 := {| sessionMap := m; timers := []; awaiting := []; emitted := log |}).
  assert (Hend : ∀ ev, settle_all (settle_all (fire (ExpandCompleted ev) st0))
                       = fire (ExpandCompleted ev) st0) by done.
  destruct (startExpansion_effect s ni r st0) as [(ev & Hev & ->) | (l & ->)].
  { exists ev. split; [done |]. by rewrite Hend. }
  rewrite settle_all_one by done.
  destruct (resume_effect (AwaitingNode s ni l) st0)
    as [(ev & Hev & ->) | (msg & listing & ->)].
  { exists ev. split; [done |]. by rewrite settle_all_quiet. }
  rewrite settle_all_one by done.
  destruct (resume_effect (AwaitingChildren s ni msg listing) st0)
    as (ev & Hev & ->).
  exists ev. done.
Qed.

End EventLoop.

(** ** expandNode *)
Section ExpandNode.
Import ObjectExplorer.
Context `{Collaborators}.

(** C1 (as the code has it): [expandNode] without a [nodeInfo] does not
    resolve to [false]; its promise is rejected with the reason
    "expandNode requires a nodeInfo object to be passed", the provider state
    is left as it was (no timer is set), so no [onExpandCompleted] event is
    fired for the call, neither at once nor when the timers run. *)
Theorem expandNode_absent_rejects (isRefresh : bool) (st : State) :
  expandNode None isRefresh st =
    (Rejected (Reason "expandNode requires a nodeInfo object to be passed"), st)
  ∧ timers (expandNode None isRefresh st).2 = timers st
  ∧ emitted (run_timers (expandNode None isRefresh st).2)
    = emitted (run_timers st).
Proof. done. Qed.

(** C5: [expandNode] with a [nodeInfo] whose [sessionId] is not a key of the
    session registry resolves to [false] at once, fires nothing during the
    call, and sets one timer; when the timers run, exactly one
    [onExpandCompleted] event is added for it, carrying the session id, the
    node path, no nodes, and the message that the session for that uri
    could not be found. *)
Theorem expandNode_unknown_session (nodeInfo : ExpandNodeInfo.t)
    (isRefresh : bool) (st : State) :
  sessionMap st !! ExpandNodeInfo.sessionId nodeInfo = None →
  let result := expandNode (Some nodeInfo) isRefresh st in
  result.1 = Resolved false
  ∧ emitted result.2 = emitted st
  ∧ sessionMap result.2 = sessionMap st
  ∧ timers result.2 = (timers st ++ [SessionNotFoundTask nodeInfo])%list
  ∧ emitted (run_timers result.2)
    = (emitted (run_timers st) ++
      [ ExpandCompleted
          {| ObjectExplorerExpandInfo.sessionId := ExpandNodeInfo.sessionId nodeInfo;
             ObjectExplorerExpandInfo.nodePath := ExpandNodeInfo.nodePath nodeInfo;
             ObjectExplorerExpandInfo.errorMessage :=
               Some ("Cannot expand object explorer node. Couldn't find session for uri "
                     ++ ExpandNodeInfo.sessionId nodeInfo)%string;
             ObjectExplorerExpandInfo.nodes := None |} ])%list
  ∧ sessionMap (run_timers result.2) = sessionMap (run_timers st).
Proof.
  intros Hfree result. subst result.
  unfold expandNode, doExpandNode. rewrite Hfree. simpl.
  repeat split; try done.
  - by rewrite run_timers_setTimeout.
  - by rewrite run_timers_setTimeout.
Qed.

End ExpandNode.

(** ** closeSession *)
Section CloseSession.
Import ObjectExplorer.
Context `{Collaborators}.

(** C8: [closeSession(sessionId)] reports [success = true] exactly when
    [sessionId] was a key of the session registry at the call; afterwards
    the key is absent (other keys are untouched, nothing is scheduled or
    fired), and closing the same key again reports [success = false]. *)
Theorem closeSession_success_iff_registered (sessionId : string) (st : State) :
  ∃ response st',
    closeSession sessionId st = (Resolved response, st')
    ∧ (ObjectExplorerCloseSessionResponse.success response = true
       ↔ is_Some (sessionMap st !! sessionId))
    ∧ ObjectExplorerCloseSessionResponse.sessionId response = sessionId
    ∧ sessionMap st' !! sessionId = None
    ∧ (∀ k, k ≠ sessionId → sessionMap st' !! k = sessionMap st !! k)
    ∧ timers st' = timers st ∧ emitted st' = emitted st
    ∧ ∃ response2 st'',
        closeSession sessionId st' = (Resolved response2, st'')
        ∧ ObjectExplorerCloseSessionResponse.success response2 = false
        ∧ sessionMap st'' = sessionMap st'.
Proof.
  do 2 eexists. split; [reflexivity |]. simpl.
  split; [apply bool_decide_eq_true |].
  split; [done |].
  split; [apply lookup_delete_eq |].
  split; [intros k Hk; by apply lookup_delete_ne |].
  do 2 (split; [done |]).
  do 2 eexists. split; [reflexivity |]. simpl. split.
  - apply bool_decide_eq_false. rewrite lookup_delete_eq. by intros [? ?].
  - apply delete_id. apply lookup_delete_eq.
Qed.

End CloseSession.

(** ** createSession *)
Section CreateSession.
Import ObjectExplorer.
Context `{Collaborators}.

(** C3 (as the code has it): a [createSession] call whose connection cannot
    be built is rejected and schedules nothing.  Otherwise the call
    resolves with the session id, fires no event before it returns and sets
    one timer.  When that timer runs and the key is not in the registry,
    exactly one [onSessionCreated] event (success, or failure with the
    error message) is fired for the call; when the key is already in the
    registry the timer does nothing, so no event is fired for the call. *)
Theorem createNewSession_event_after_return
    (connInfo : option JsObject) (st : State) :
  match new_Connection connInfo ≫= saveUriWithPrefix objectExplorerPrefix with
  | Thrown error => createNewSession connInfo st = (Rejected error, st)
  | Returned c =>
      let result := createNewSession connInfo st in
      result.1 = Resolved {| ObjectExplorerSessionResponse.sessionId := uri c |}
      ∧ emitted result.2 = emitted st
      ∧ sessionMap result.2 = sessionMap st
      ∧ timers result.2 = (timers st ++ [CreateSessionTask c])%list
      ∧ ObjectExplorerSession.sessionId (sessionCreatedResult c) = uri c
      ∧ (∀ st2, sessionMap st2 !! uri c = None →
           emitted (run_task (CreateSessionTask c) st2)
           = (emitted st2 ++ [SessionCreated (sessionCreatedResult c)])%list)
      ∧ (∀ st2, is_Some (sessionMap st2 !! uri c) →
           run_task (CreateSessionTask c) st2 = st2)
      ∧ emitted (run_timers result.2)
        = (emitted (run_timers st) ++
           if bool_decide (is_Some (sessionMap (run_timers st) !! uri c))
           then []
           else [SessionCreated (sessionCreatedResult c)])%list
  end.
Proof.
  destruct (new_Connection connInfo ≫= saveUriWithPrefix objectExplorerPrefix)
    as [c | error] eqn:Hc.
  - rewrite (createNewSession_accepted _ _ _ Hc). cbn [fst snd].
    do 4 (split; [done |]).
    split; [apply sessionCreatedResult_sessionId |].
    split; [intros st2 Hfree; by rewrite run_create_fresh |].
    split; [intros st2 Hin; by apply run_create_present |].
    rewrite run_timers_setTimeout. case_bool_decide as Hin.
    + rewrite run_create_present by done. by rewrite app_nil_r.
    + rewrite run_create_fresh; [done |].
      destruct (sessionMap (run_timers st) !! uri c) eqn:E; [| done].
      exfalso. apply Hin. by eexists.
  - unfold createNewSession. by rewrite Hc.
Qed.

End CreateSession.

(** ** createSession calls for one key *)
Section SameKey.
Import ObjectExplorer Protocol.
Context `{Collaborators}.

Section Key.
Variable k : string.

Lemma eventsFor_same (log log' : list Event) :
  sessionCreatedEvents log' = sessionCreatedEvents log →
  eventsFor k log' = eventsFor k log.
Proof. unfold eventsFor. by intros ->. Qed.

Lemma eventsFor_created (log : list Event) (e : ObjectExplorerSession.t) :
  eventsFor k (log ++ [SessionCreated e])
  = eventsFor k log
    ++ (if decide (ObjectExplorerSession.sessionId e = k) then [e] else []).
Proof.
  unfold eventsFor. by rewrite sessionCreatedEvents_snoc, filter_app.
Qed.

Lemma pendingFor_snoc (ts : list Task) (t : Task) :
  pendingFor k (ts ++ [t]) = pendingFor k ts ++ option_list (constructionFor k t).
Proof.
  unfold pendingFor. rewrite omap_app. cbn.
  by destruct (constructionFor k t).
Qed.

Lemma callsFor_cons (r : Request) (rs : list Request) :
  callsFor k (r :: rs) = option_list (callFor k r) ++ callsFor k rs.
Proof. unfold callsFor. cbn. by destruct (callFor k r). Qed.

Lemma callsFor_app (rs1 rs2 : list Request) :
  callsFor k (rs1 ++ rs2) = callsFor k rs1 ++ callsFor k rs2.
Proof. apply omap_app. Qed.

Lemma callsFor_foreign (rs : list Request) :
  Forall (foreign k) rs → callsFor k rs = [].
Proof.
  induction 1 as [| r rs [_ Hr] _ IH]; [done |].
  by rewrite callsFor_cons, Hr, IH.
Qed.

(** A move of an expansion does not concern the key. *)
Lemma expansionMove_key (st st' : State) :
  expansionMove st st' →
  sessionMap st' !! k = sessionMap st !! k
  ∧ eventsFor k (emitted st') = eventsFor k (emitted st)
  ∧ pendingFor k (timers st') = pendingFor k (timers st).
Proof.
  intros (-> & -> & [(ev & -> & _) | (k' & -> & _)]); repeat split.
  apply eventsFor_same, sessionCreatedEvents_expand.
Qed.

(** One request, tick or settlement, seen from the key [k]: either the key
    keeps its registration and its events, and a construction the request
    asks for joins the pending ones; or the key was free and the oldest
    pending construction for it has just run, registered its session and
    fired its event. *)
Lemma step_for_key (st : State) (r : Request) :
  r ≠ CloseSession k →
  (sessionMap st !! k = None →
   ∀ c rest, pendingFor k (timers st) = c :: rest →
     ObjectExplorerSession.success (sessionCreatedResult c) = true) →
  (sessionMap (step st r) !! k = sessionMap st !! k
   ∧ eventsFor k (emitted (step st r)) = eventsFor k (emitted st)
   ∧ (sessionMap st !! k = None →
        pendingFor k (timers (step st r))
        = pendingFor k (timers st) ++ option_list (callFor k r)))
  ∨ (sessionMap st !! k = None ∧ callFor k r = None
     ∧ ∃ c rest, pendingFor k (timers st) = c :: rest
         ∧ sessionMap (step st r) !! k = Some {| _connection := c |}
         ∧ eventsFor k (emitted (step st r))
           = eventsFor k (emitted st) ++ [sessionCreatedResult c]).
Proof.
  intros Hclose Hhead.
  destruct r as [ci | ni b | ni | k' | | i].
  - left. cbn [step callFor]. unfold createNewSession.
    destruct (new_Connection ci ≫= saveUriWithPrefix objectExplorerPrefix)
      as [c | e]; cbn [snd].
    + split; [done |]. split; [done |]. intros _.
      unfold setTimeout. cbn [timers]. by rewrite pendingFor_snoc.
    + split; [done |]. split; [done |]. intros _. cbn. by rewrite app_nil_r.
  - left. cbn [step callFor option_list]. rewrite app_nil_r.
    unfold expandNode, doExpandNode. destruct ni as [ni |]; [| done].
    destruct (sessionMap st !! ExpandNodeInfo.sessionId ni); cbn [snd];
      (split; [done |]); (split; [done |]); intros _;
      unfold setTimeout; cbn [timers]; rewrite pendingFor_snoc; cbn;
      by rewrite app_nil_r.
  - left. cbn [step callFor option_list]. rewrite app_nil_r.
    unfold refreshNode, expandNode, doExpandNode. destruct ni as [ni |]; [| done].
    destruct (sessionMap st !! ExpandNodeInfo.sessionId ni); cbn [snd];
      (split; [done |]); (split; [done |]); intros _;
      unfold setTimeout; cbn [timers]; rewrite pendingFor_snoc; cbn;
      by rewrite app_nil_r.
  - left. cbn [step callFor option_list closeSession snd withSessionMap
               sessionMap emitted timers].
    rewrite app_nil_r. split; [| done].
    apply lookup_delete_ne. congruence.
  - cbn [step callFor option_list]. rewrite app_nil_r. unfold tick.
    destruct (timers st) as [| t ts] eqn:Ht;
      [left; repeat split; intros; by rewrite ?Ht |].
    set (st0 := {| sessionMap := sessionMap st; timers := ts;
                   awaiting := awaiting st; emitted := emitted st |}).
    destruct t as [c | ni | s ni b].
    + destruct (decide (uri c = k)) as [Hk | Hk].
      * assert (Hp : pendingFor k (CreateSessionTask c :: ts) = c :: pendingFor k ts).
        { unfold pendingFor. cbn. by rewrite decide_True. }
        destruct (sessionMap st !! k) as [s |] eqn:Hreg.
        -- left. rewrite run_create_present
             by (unfold st0; cbn [sessionMap]; rewrite Hk, Hreg; by eexists).
           unfold st0; cbn [sessionMap emitted]. rewrite Hreg. done.
        -- right. split; [done |]. split; [done |].
           exists c, (pendingFor k ts). split; [done |].
           rewrite run_create_fresh by (unfold st0; cbn [sessionMap]; by rewrite Hk).
           rewrite (Hhead eq_refl c (pendingFor k ts) Hp).
           unfold st0; cbn [sessionMap emitted]. split.
           ++ rewrite <- Hk. apply lookup_insert_eq.
           ++ rewrite eventsFor_created, sessionCreatedResult_sessionId.
              by rewrite decide_True.
      * assert (Hp : pendingFor k (CreateSessionTask c :: ts) = pendingFor k ts).
        { unfold pendingFor. cbn. by rewrite decide_False. }
        left. destruct (sessionMap st !! uri c) as [s |] eqn:Hreg.
        -- rewrite run_create_present
             by (unfold st0; cbn [sessionMap]; rewrite Hreg; by eexists).
           unfold st0; cbn [sessionMap emitted timers]. by rewrite Hp.
        -- rewrite run_create_fresh by done.
           unfold st0; cbn [sessionMap emitted timers].
           rewrite eventsFor_created, sessionCreatedResult_sessionId.
           rewrite decide_False, app_nil_r by done. rewrite Hp.
           split; [| done].
           destruct (ObjectExplorerSession.success (sessionCreatedResult c)).
           ++ by rewrite lookup_insert_ne.
           ++ rewrite lookup_delete_ne by done. by rewrite lookup_insert_ne.
    + left. unfold st0; cbn [run_task fire sessionMap emitted timers].
      split; [done |]. split; [apply eventsFor_same, sessionCreatedEvents_expand |].
      intros _. by unfold pendingFor.
    + left. cbn [run_task].
      destruct (expansionMove_key _ _ (startExpansion_move s ni b st0))
        as (-> & -> & ->).
      unfold st0; cbn [sessionMap emitted timers].
      split; [done |]. split; [done |].
      intros _. by unfold pendingFor.
  - left. cbn [step callFor option_list]. rewrite app_nil_r.
    destruct (settleAt_move i st) as [-> | [_ Hm]]; [done |].
    by destruct (expansionMove_key _ _ Hm) as (-> & -> & ->).
Qed.

(** Over a run that never closes the key, in which the oldest construction
    for the key can build its root: a key that is registered keeps its
    session and gets no further event; a key that is free either stays free,
    with every construction for it still pending, or has been registered by
    the oldest construction, which fired the only event for the key. *)
Lemma run_single_construction (rs : list Request) (st : State) :
  Forall (fun r => r ≠ CloseSession k) rs →
  (sessionMap st !! k = None →
   ∀ c rest, pendingFor k (timers st) ++ callsFor k rs = c :: rest →
     ObjectExplorerSession.success (sessionCreatedResult c) = true) →
  match sessionMap st !! k with
  | Some s =>
      sessionMap (run rs st) !! k = Some s
      ∧ eventsFor k (emitted (run rs st)) = eventsFor k (emitted st)
  | None =>
      (sessionMap (run rs st) !! k = None
       ∧ eventsFor k (emitted (run rs st)) = eventsFor k (emitted st)
       ∧ pendingFor k (timers (run rs st))
         = pendingFor k (timers st) ++ callsFor k rs)
      ∨ (∃ c rest, pendingFor k (timers st) ++ callsFor k rs = c :: rest
           ∧ sessionMap (run rs st) !! k = Some {| _connection := c |}
           ∧ eventsFor k (emitted (run rs st))
             = eventsFor k (emitted st) ++ [sessionCreatedResult c])
  end.
Proof.
  revert st. induction rs as [| r rs IH]; intros st Hclose Hhead.
  { cbn. destruct (sessionMap st !! k); [done |]. left. by rewrite app_nil_r. }
  apply Forall_cons in Hclose as [Hr Hclose].
  cbn [run fold_left]. fold (run rs (step st r)).
  rewrite callsFor_cons in *.
  specialize (IH (step st r) Hclose).
  destruct (sessionMap st !! k) as [s |] eqn:Hreg.
  - destruct (step_for_key st r Hr) as [(Em & Ee & _) | (Hnone & _)];
      [by rewrite Hreg | | congruence].
    rewrite Em, Hreg in IH. rewrite <- Ee. apply IH. by intros [=].
  - specialize (Hhead eq_refl).
    destruct (step_for_key st r Hr)
      as [(Em & Ee & Ep) | (_ & Hcall & c & rest & Hp & Em & Ee)].
    + rewrite Hreg. intros _ c rest Hp.
      apply (Hhead c (rest ++ option_list (callFor k r) ++ callsFor k rs)).
      by rewrite Hp.
    + rewrite Em, Hreg in IH. rewrite (Ep Hreg) in IH.
      rewrite <- app_assoc in IH. rewrite Ee in IH. apply IH.
      intros _. apply Hhead.
    + rewrite Em in IH. destruct IH as [Hm He]; [by intros [=] |].
      right. exists c, (rest ++ option_list (callFor k r) ++ callsFor k rs).
      split; [by rewrite Hp |]. split; [done |]. by rewrite He, Ee.
Qed.

End Key.

(** C4 (as the code has it): two [createSession] calls whose inputs normalise
    to the same session key, made on a provider where that key is not
    registered and no construction for it is pending, with a root whose path
    can be generated, and with no [closeSession] and no further
    [createSession] for the key among the other requests: in every
    interleaving of the two calls with timers, settlements and other
    requests, at most one [onSessionCreated] event is fired for the key, the
    success event of the first call, and as long as none is fired both
    constructions are pending.  Once no timer is pending, exactly that one
    event has been fired for the key and the first call's session is
    registered: the second construction found the key in the registry and
    was skipped. *)
Theorem createNewSession_same_key_single_success
    (connInfo1 connInfo2 : option JsObject) (c1 c2 : Connection)
    (p : string) (before between after : list Request) (st : State) :
  new_Connection connInfo1 ≫= saveUriWithPrefix objectExplorerPrefix
    = Returned c1 →
  new_Connection connInfo2 ≫= saveUriWithPrefix objectExplorerPrefix
    = Returned c2 →
  uri c1 = uri c2 →
  generateNodePath c1 = Returned p →
  sessionMap st !! uri c1 = None →
  pendingFor (uri c1) (timers st) = [] →
  Forall (foreign (uri c1)) (before ++ between ++ after) →
  let final :=
    run (before ++ CreateSession connInfo1 :: between
                ++ CreateSession connInfo2 :: after) st in
  let first := sessionCreatedResult c1 in
  ObjectExplorerSession.success first = true
  ∧ ObjectExplorerSession.sessionId first = uri c1
  ∧ ((sessionMap final !! uri c1 = None
      ∧ eventsFor (uri c1) (emitted final) = eventsFor (uri c1) (emitted st)
      ∧ pendingFor (uri c1) (timers final) = [c1; c2])
     ∨ (sessionMap final !! uri c1 = Some {| _connection := c1 |}
        ∧ eventsFor (uri c1) (emitted final)
          = eventsFor (uri c1) (emitted st) ++ [first]))
  ∧ (timers final = [] →
       sessionMap final !! uri c1 = Some {| _connection := c1 |}
       ∧ eventsFor (uri c1) (emitted final)
         = eventsFor (uri c1) (emitted st) ++ [first]).
Proof.
  intros Hc1 Hc2 Huri Hp Hfree Hpending Hforeign final first.
  destruct (sessionCreatedResult_success c1 p Hp) as [Hok _].
  apply Forall_app in Hforeign as [Hbefore Hrest].
  apply Forall_app in Hrest as [Hbetween Hafter].
  set (rs := before ++ CreateSession connInfo1 :: between
                    ++ CreateSession connInfo2 :: after) in *.
  assert (Hcalls : callsFor (uri c1) rs = [c1; c2]).
  { unfold rs. rewrite callsFor_app, callsFor_cons, callsFor_app, callsFor_cons.
    rewrite !callsFor_foreign by done.
    cbn [callFor]. rewrite Hc1, Hc2.
    rewrite decide_True by done. by rewrite decide_True. }
  assert (Hno : Forall (fun r => r ≠ CloseSession (uri c1)) rs).
  { assert (Hf : ∀ l, Forall (foreign (uri c1)) l →
                      Forall (fun r => r ≠ CloseSession (uri c1)) l).
    { intros l Hl. eapply Forall_impl; [exact Hl |]. by intros r [? _]. }
    unfold rs. apply Forall_app. split; [by apply Hf |].
    constructor; [done |]. apply Forall_app. split; [by apply Hf |].
    constructor; [done | by apply Hf]. }
  pose proof (run_single_construction (uri c1) rs st Hno) as Hrun.
  rewrite Hfree, Hpending, Hcalls in Hrun. cbn [app] in Hrun.
  assert (Hcases :
    (sessionMap final !! uri c1 = None
     ∧ eventsFor (uri c1) (emitted final) = eventsFor (uri c1) (emitted st)
     ∧ pendingFor (uri c1) (timers final) = [c1; c2])
    ∨ (sessionMap final !! uri c1 = Some {| _connection := c1 |}
       ∧ eventsFor (uri c1) (emitted final)
         = eventsFor (uri c1) (emitted st) ++ [first])).
  { destruct Hrun as [? | (c & rest & [= <- <-] & ? & ?)]; [| by left | by right].
    intros _ c rest [= <- <-]. done. }
  split; [done |]. split; [apply sessionCreatedResult_sessionId |].
  split; [done |].
  intros Hquiet. destruct Hcases as [(_ & _ & Hp2) | ?]; [| done].
  rewrite Hquiet in Hp2. done.
Qed.

End SameKey.

(** ** SqlClusterConnection *)
Section DescriptorProperties.
Import SqlClusterConnection.

(** C7 (as the code has it): for two descriptors built by the constructor,
    [isMatch] returns [true] exactly when their stored host, port and user
    options are equal and none of them is [NaN] (they are compared with
    [===]).  The port compared is the stored option, not what the [port]
    getter returns: a match gives equal host, port and user as the getters
    read them, not the other way round.  The password plays no part:
    replacing the password of the other descriptor leaves the result as it
    was.  A descriptor is matched against the connection info it was built
    from as against itself, and it matches itself exactly when none of its
    three stored options is [NaN]. *)
Theorem isMatch_iff_stored_options
    (i1 i2 : option JsObject) (c1 c2 : t) :
  new i1 = Returned c1 →
  new i2 = Returned c2 →
  (∃ b, isMatch c1 (Some (inl c2)) = Returned b
        ∧ (b = true ↔ (_host c2 = _host c1 ∧ _port c2 = _port c1
                       ∧ _user c2 = _user c1)
                      ∧ _host c1 ≠ JNaN ∧ _port c1 ≠ JNaN ∧ _user c1 ≠ JNaN)
        ∧ (b = true → host c2 = host c1 ∧ port c2 = port c1
                      ∧ user c2 = user c1))
  ∧ (∀ D pw, i2 = Some D → pw ≠ JUndefined →
       ∃ c2', new (Some (setOption constants.passwordPropName pw D)) = Returned c2'
              ∧ _pass c2' = pw
              ∧ isMatch c1 (Some (inl c2')) = isMatch c1 (Some (inl c2)))
  ∧ (∀ D, i1 = Some D →
       isMatch c1 (Some (inr D)) = isMatch c1 (Some (inl c1)))
  ∧ (∃ b, isMatch c1 (Some (inl c1)) = Returned b
          ∧ (b = true ↔ _host c1 ≠ JNaN ∧ _port c1 ≠ JNaN ∧ _user c1 ≠ JNaN)).
Proof.
  intros H1 H2.
  apply new_inv in H1 as (D1 & o1 & -> & HD1 & Hc1 & Hb1 & Hh1 & Hp1 & Hu1 & _).
  apply new_inv in H2 as (D2 & o2 & -> & HD2 & Hc2 & Hb2 & Hh2 & Hp2 & Hu2 & _).
  assert (Hmatch : ∀ c o, options (_sqlClusterConnInfo c) = Some o →
            get o constants.hostPropName = get o2 constants.hostPropName →
            get o constants.knoxPortPropName = get o2 constants.knoxPortPropName →
            get o constants.userPropName = get o2 constants.userPropName →
            isMatch c1 (Some (inl c)) = isMatch c1 (Some (inl c2))).
  { intros c o Hb Eh Ep Eu.
    destruct (isMatch_bags c1 (inl c) o o1 Hb Hb1) as (b & -> & Hiff).
    destruct (isMatch_bags c1 (inl c2) o2 o1 Hb2 Hb1) as (b' & -> & Hiff').
    f_equal. apply eq_true_iff_eq. rewrite Hiff, Hiff', Eh, Ep, Eu. done. }
  split; [| split; [| split]].
  - destruct (isMatch_bags c1 (inl c2) o2 o1 Hb2 Hb1) as (b & Hb & Hiff).
    exists b. split; [done |].
    rewrite Hiff, !strict_eq_true. unfold host, port, user.
    rewrite Hh1, Hp1, Hu1, Hh2, Hp2, Hu2. split.
    + split.
      * intros ((Eh & Nh) & (Ep & Np) & (Eu & Nu)).
        rewrite <- Eh, <- Ep, <- Eu. done.
      * intros ((Eh & Ep & Eu) & Nh & Np & Nu). rewrite Eh, Ep, Eu. done.
    + intros ((Eh & _) & (Ep & _) & (Eu & _)). by rewrite Eh, Ep, Eu.
  - intros D pw [= <-] Hpw.
    destruct (complete_setPassword o2 pw Hc2 Hpw) as (Hc' & Eh & Ep & Eu & Epw).
    destruct (new_complete (setOption constants.passwordPropName pw D2)
                (<[ constants.passwordPropName := pw ]> o2)) as
      (c2' & Hnew & Hb' & _ & _ & _ & Hpass); [by (simpl; rewrite HD2) | done |].
    exists c2'. split; [done |]. split; [by rewrite Hpass |].
    by apply (Hmatch c2' _ Hb').
  - intros D [= <-].
    destruct (isMatch_bags c1 (inr D1) o1 o1 HD1 Hb1) as (b & -> & Hiff).
    destruct (isMatch_bags c1 (inl c1) o1 o1 Hb1 Hb1) as (b' & -> & Hiff').
    f_equal. apply eq_true_iff_eq. by rewrite Hiff, Hiff'.
  - destruct (isMatch_bags c1 (inl c1) o1 o1 Hb1 Hb1) as (b & -> & Hiff).
    exists b. split; [done |].
    rewrite Hiff, !strict_eq_true, Hh1, Hp1, Hu1. intuition.
Qed.

(** C9: when host, user and password are present and [knoxport] is present
    but falsy (the empty string in particular), the constructor succeeds,
    keeps the value as the stored port, and the [port] getter returns the
    default "30443"; when [knoxport] is absent the constructor throws
    instead: the default stands in for a falsy stored port, not for a
    missing option. *)
Theorem port_default_for_falsy_stored_port
    (ci : JsObject) (opts : gmap string JsValue) (v : JsValue) :
  options ci = Some opts →
  get opts constants.hostPropName ≠ JUndefined →
  get opts constants.userPropName ≠ JUndefined →
  get opts constants.passwordPropName ≠ JUndefined →
  get opts constants.knoxPortPropName = v →
  truthy v = false →
  (v ≠ JUndefined →
     ∃ c, new (Some ci) = Returned c ∧ _port c = v ∧ port c = JStr "30443")
  ∧ (v = JStr "" →
     ∃ c, new (Some ci) = Returned c ∧ port c = JStr constants.defaultKnoxPort)
  ∧ (v = JUndefined →
     new (Some ci) = Thrown (Error "Invalid ConnectionInfo is provided.")).
Proof.
  intros Hopts Hh Hu Hp Hv Hfalsy.
  assert (Hdef : v ≠ JUndefined →
    ∃ c, new (Some ci) = Returned c ∧ _port c = v ∧ port c = JStr "30443").
  { intros Hne.
    destruct (new_complete ci opts Hopts) as (c & Hnew & _ & _ & Hport & _).
    { unfold complete. by rewrite Hv. }
    exists c. split; [done |]. split; [congruence |].
    unfold port, Js.or. by rewrite Hport, Hv, Hfalsy. }
  split; [done |]. split.
  - intros ->. destruct Hdef as (c & ? & ? & ?); [done |]. by exists c.
  - intros ->. apply (new_incomplete ci opts Hopts). intros (_ & Hport & _).
    by apply Hport.
Qed.

End DescriptorProperties.

(** ** End to end: a descriptor, and a session for a connection *)
Section EndToEnd.
Import ObjectExplorer.
Context `{Collaborators}.

(** C2 (as the code has it): with host, user and password present, a
    missing port makes the descriptor's constructor throw "Invalid
    ConnectionInfo is provided."; no descriptor with the default port
    results.  With the port option present the descriptor is built, and its
    port reads as the stored value, or as the default "30443" when that
    value is falsy.  Creating a session on a new provider succeeds for
    every input the provider's [Connection] class accepts, given a root
    whose path can be generated: nothing is fired during the call, and when
    the timer runs one success event is fired, for the session id the call
    resolved with, whose root node has the connection's host as label and
    [isLeaf = false]. *)
Theorem session_for_descriptor_needs_port
    (ci : JsObject) (opts : gmap string JsValue) :
  options ci = Some opts →
  get opts constants.hostPropName ≠ JUndefined →
  get opts constants.userPropName ≠ JUndefined →
  get opts constants.passwordPropName ≠ JUndefined →
  (get opts constants.knoxPortPropName = JUndefined →
     SqlClusterConnection.new (Some ci)
     = Thrown (Error "Invalid ConnectionInfo is provided."))
  ∧ (get opts constants.knoxPortPropName ≠ JUndefined →
     ∃ d, SqlClusterConnection.new (Some ci) = Returned d
       ∧ SqlClusterConnection.host d = get opts constants.hostPropName
       ∧ SqlClusterConnection.port d
         = Js.or (get opts constants.knoxPortPropName) (JStr "30443"))
  ∧ (∀ c p,
       new_Connection (Some ci) ≫= saveUriWithPrefix objectExplorerPrefix
         = Returned c →
       generateNodePath c = Returned p →
       ∃ response st1 ev n,
         createNewSession (Some ci) initial = (Resolved response, st1)
         ∧ emitted st1 = []
         ∧ emitted (run_timers st1) = [SessionCreated ev]
         ∧ ObjectExplorerSession.sessionId ev
           = ObjectExplorerSessionResponse.sessionId response
         ∧ ObjectExplorerSession.success ev = true
         ∧ ObjectExplorerSession.rootNode ev = Some n
         ∧ NodeInfo.label n = host c
         ∧ NodeInfo.isLeaf n = false).
Proof.
  intros Hopts Hh Hu Hp. split; [| split].
  - intros Hport. apply (new_incomplete ci opts Hopts).
    intros (_ & Hport' & _). by apply Hport'.
  - intros Hport.
    destruct (new_complete ci opts Hopts) as (d & Hd & _ & Hhost & Hprt & _);
      [done |].
    exists d. split; [done |]. split; [done |].
    unfold SqlClusterConnection.port. by rewrite Hprt.
  - intros c p Hc Hpath.
    destruct (sessionCreatedResult_success c _ Hpath)
      as (Hok & n & Hroot & Hlabel & Hleaf).
    exists {| ObjectExplorerSessionResponse.sessionId := uri c |},
           (setTimeout (CreateSessionTask c) initial),
           (sessionCreatedResult c), n.
    split; [by apply createNewSession_accepted |].
    split; [done |].
    rewrite run_timers_setTimeout, (run_timers_quiescent initial) by done.
    rewrite run_create_fresh by apply lookup_empty.
    split; [done |].
    split; [apply sessionCreatedResult_sessionId |].
    done.
Qed.

End EndToEnd.

(** ** The children cache of a root node *)
Section RootNodeChildren.
Import ObjectExplorer.
Context `{Collaborators}.

(** A rebuild: a new array holding one new connection node. *)
Lemma getChildren_rebuild (this : loc) (r : RootNode)
    (refreshChildren : bool) (h : gmap loc HeapObject) :
  h !! this = Some (ORootNode r) →
  refreshChildren = true ∨ children r = None →
  ∃ arr hdfsNode h1,
    getChildren this refreshChildren h = Some (arr, h1)
    ∧ (arr ∉ dom h) ∧ (hdfsNode ∉ dom h) ∧ arr ≠ hdfsNode
    ∧ dom h1 = {[arr; hdfsNode]} ∪ dom h
    ∧ h1 !! arr = Some (OArray [hdfsNode])
    ∧ h1 !! hdfsNode
      = Some (OConnectionNode
                {| cn_context := context r;
                   cn_label := "HDFS";
                   cn_fileSource := createHdfsFileSource (_connection (_session r));
                   cn_parent := Some this |})
    ∧ h1 !! this
      = Some (ORootNode {| _session := _session r; context := context r;
                           children := Some arr |})
    ∧ ∀ l, l ∈ dom h → l ≠ this → h1 !! l = h !! l.
Proof.
  intros Hroot Hcond. unfold getChildren. rewrite Hroot.
  assert ((refreshChildren || negb (bool_decide (is_Some (children r)))) = true) as ->.
  { destruct Hcond as [-> | ->]; [done |].
    rewrite bool_decide_eq_false_2; [by destruct refreshChildren |].
    by intros [? ?]. }
  unfold alloc. cbv zeta.
  set (arr := fresh (dom h)).
  set (h1 := <[arr := OArray []]> h).
  set (h2 := alter (setChildren arr) this h1).
  set (n := fresh (dom h2)).
  assert (Harr : arr ∉ dom h) by apply is_fresh.
  assert (Hthis : this ∈ dom h) by (apply elem_of_dom; eauto).
  assert (Hdom2 : dom h2 = {[arr]} ∪ dom h).
  { unfold h2, h1. by rewrite dom_alter_L, dom_insert_L. }
  assert (Hn : n ∉ dom h2) by apply is_fresh.
  rewrite Hdom2 in Hn. apply not_elem_of_union in Hn as [Hn1 Hn2].
  rewrite not_elem_of_singleton in Hn1.
  assert (arr ≠ n) by done.
  assert (this ≠ arr) by (intros E; apply Harr; by rewrite <- E).
  assert (this ≠ n) by (intros E; apply Hn2; by rewrite <- E).
  exists arr, n. eexists. split; [reflexivity |].
  do 3 (split; [done |]).
  split.
  { rewrite !dom_alter_L, dom_insert_L, Hdom2. apply set_eq. intros x.
    rewrite !elem_of_union, !elem_of_singleton. tauto. }
  split.
  { rewrite lookup_alter_eq, lookup_alter_ne, lookup_insert_ne by done.
    unfold h2. rewrite lookup_alter_ne by done.
    unfold h1. by rewrite lookup_insert_eq. }
  split.
  { rewrite lookup_alter_ne, lookup_alter_eq, lookup_insert_eq by done. done. }
  split.
  { rewrite !lookup_alter_ne, lookup_insert_ne by done.
    unfold h2. rewrite lookup_alter_eq. unfold h1.
    rewrite lookup_insert_ne by done. by rewrite Hroot. }
  intros l Hl Hne.
  assert (l ≠ arr) by (intros E; apply Harr; by rewrite <- E).
  assert (l ≠ n) by (intros E; apply Hn2; by rewrite <- E).
  rewrite !lookup_alter_ne, lookup_insert_ne by done.
  unfold h2. rewrite lookup_alter_ne by done.
  unfold h1. by rewrite lookup_insert_ne.
Qed.

(** A cache hit: the stored reference, and an untouched heap. *)
Lemma getChildren_cached (this arr : loc) (r : RootNode)
    (h : gmap loc HeapObject) :
  h !! this = Some (ORootNode r) →
  children r = Some arr →
  getChildren this false h = Some (arr, h).
Proof.
  intros Hroot Hc. unfold getChildren. by rewrite Hroot, Hc.
Qed.

Lemma getChildrenAgain_cached (k : nat) (this arr : loc) (r : RootNode)
    (h : gmap loc HeapObject) :
  h !! this = Some (ORootNode r) →
  children r = Some arr →
  getChildrenAgain k this h = Some (replicate k arr, h).
Proof.
  intros Hroot Hc. induction k as [| k IH]; [done |].
  simpl. rewrite (getChildren_cached _ _ _ _ Hroot Hc), IH. done.
Qed.

(** C6: on a root node whose children were never asked for,
    [getChildren(false)] builds exactly one child, the "HDFS" connection
    node with the root as parent, in a new one-element array; any number of
    further [getChildren(false)] calls return that same array (the same
    reference) and leave the heap, hence the array's content, untouched.
    [getChildren(true)] on a root node, in whatever state, builds a new
    array holding one new connection node. *)
Theorem getChildren_cached_until_forced (this : loc) (r : RootNode)
    (h : gmap loc HeapObject) :
  h !! this = Some (ORootNode r) →
  children r = None →
  ∃ arr hdfsNode h1,
    getChildren this false h = Some (arr, h1)
    ∧ (arr ∉ dom h) ∧ (hdfsNode ∉ dom h) ∧ arr ≠ hdfsNode
    ∧ dom h1 = {[arr; hdfsNode]} ∪ dom h
    ∧ h1 !! arr = Some (OArray [hdfsNode])
    ∧ h1 !! hdfsNode
      = Some (OConnectionNode
                {| cn_context := context r;
                   cn_label := "HDFS";
                   cn_fileSource := createHdfsFileSource (_connection (_session r));
                   cn_parent := Some this |})
    ∧ (∀ k, getChildrenAgain k this h1 = Some (replicate k arr, h1))
    ∧ (∀ h' r', h' !! this = Some (ORootNode r') →
         ∃ arr' hdfsNode' h'',
           getChildren this true h' = Some (arr', h'')
           ∧ (arr' ∉ dom h') ∧ (hdfsNode' ∉ dom h') ∧ arr' ≠ hdfsNode'
           ∧ h'' !! arr' = Some (OArray [hdfsNode'])
           ∧ (∃ node, h'' !! hdfsNode' = Some (OConnectionNode node)
                      ∧ cn_label node = "HDFS" ∧ cn_parent node = Some this)
           ∧ getChildren this false h'' = Some (arr', h'')).
Proof.
  intros Hroot Hnone.
  destruct (getChildren_rebuild this r false h Hroot (or_intror Hnone))
    as (arr & n & h1 & Hget & Harr & Hn & Hne & Hdom & Ha & Hnode & Hthis & _).
  exists arr, n, h1. do 7 (split; [done |]). split.
  - intros k. by apply (getChildrenAgain_cached k this arr _ h1 Hthis).
  - intros h' r' Hroot'.
    destruct (getChildren_rebuild this r' true h' Hroot' (or_introl eq_refl))
      as (arr' & n' & h'' & Hget' & Harr' & Hn' & Hne' & _ & Ha' & Hnode' & Hthis' & _).
    exists arr', n', h''. do 5 (split; [done |]). split.
    + eexists. split; [exact Hnode' |]. done.
    + by apply (getChildren_cached this arr' _ h'' Hthis').
Qed.

End RootNodeChildren.

(** ** SqlClusterLookUp *)
Section LookUpProperties.
Import SqlClusterLookUp.
Variables (mssqlClusterProviderName clusterEndpointsProperty
           hadoopKnoxEndpointName : string).
Variable getServerInfo : JsValue → Promise (option ServerInfo).
Variable getCredentials : JsValue → Promise (option (gmap string JsValue)).
Variable generateUuid : string.

Lemma find_knox_None (endpoints : list IEndpoint) :
  Forall (fun ep => serviceName ep ≠ hadoopKnoxEndpointName) endpoints →
  List.find (fun ep => bool_decide (serviceName ep = hadoopKnoxEndpointName))
    endpoints = None.
Proof.
  induction 1 as [| ep eps Hep _ IH]; [done |].
  simpl. by rewrite bool_decide_eq_false_2.
Qed.

(** C10 (as the code has it): an absent input resolves to [undefined].  For
    an input whose provider is not the SQL cluster provider,
    [lookUpSqlClusterInfo] resolves to [undefined], and does not reject,
    whenever a prerequisite is missing: the input carries no connection id;
    or the server info resolved and it, its options, its endpoint list (or
    a Knox gateway entry in it) are missing; or the server info resolved
    and the credentials lookup resolved to nothing. *)
Theorem lookUp_undefined_when_prerequisite_missing (o : JsObject) :
  prop o "providerName" ≠ JStr mssqlClusterProviderName →
  missingPrerequisite clusterEndpointsProperty hadoopKnoxEndpointName
    getServerInfo getCredentials o →
  lookUpSqlClusterInfo mssqlClusterProviderName clusterEndpointsProperty
    hadoopKnoxEndpointName getServerInfo getCredentials generateUuid None
    = Resolved None
  ∧ lookUpSqlClusterInfo mssqlClusterProviderName clusterEndpointsProperty
      hadoopKnoxEndpointName getServerInfo getCredentials generateUuid (Some o)
    = Resolved None.
Proof.
  intros Hprov Hmiss. split; [done |].
  unfold lookUpSqlClusterInfo. rewrite strict_eq_decide by done.
  rewrite bool_decide_eq_false_2 by done.
  unfold createSqlClusterConnectionParam.
  destruct Hmiss as [Hid | (serverInfo & Hsi & Hmiss)].
  { by rewrite Hid. }
  destruct (truthy (connectionIdOf o)); [| done]. simpl. rewrite Hsi.
  destruct Hmiss as [-> | [(si & -> & Ho) | [(si & sopts & -> & Ho & He) | Hcred]]].
  - done.
  - by rewrite Ho.
  - rewrite Ho. destruct He as [-> | [-> | (eps & -> & Hknox)]]; [done | done |].
    destruct (length eps =? 0)%nat; [done |].
    by rewrite find_knox_None.
  - destruct serverInfo as [si |]; [| done].
    destruct (si_options si) as [sopts |]; [| done].
    destruct (sopts !! clusterEndpointsProperty) as [eps |]; [| done].
    destruct (length eps =? 0)%nat; [done |].
    destruct (List.find _ eps); [| done].
    by rewrite Hcred.
Qed.

End LookUpProperties.

(** ** Concrete runs

    The runs are checked by conversion ([reflexivity]): it compares the two
    sides lazily, where a full normalisation would also normalise the
    collaborators' functions over a symbolic option bag. *)
Section Runs.
Import ObjectExplorer Protocol Samples Samples2.

(** Expanding the root path of an active session: one "HDFS" child, once
    the timer has run and the expansion has gone through its two awaits. *)
Lemma expand_root_of_active_session :
  let active := run_timers (createNewSession (Some emptyPort) initial).2 in
  let request :=
    {| ExpandNodeInfo.sessionId := "objectexplorer://h:30443";
       ExpandNodeInfo.nodePath := "objectexplorer://h:30443" |} in
  (expandNode (Some request) false active).1 = Resolved true
  ∧ expandCompletedEvents
      (emitted (run_timers (expandNode (Some request) false active).2)) = []
  ∧ NodeInfo.label <$>
      (expandCompletedEvents
         (emitted (quiesce (expandNode (Some request) false active).2))
       ≫= fun e => default [] (ObjectExplorerExpandInfo.nodes e))
    = [JStr "HDFS"].
Proof. repeat split; reflexivity. Qed.

(** C7, the claim as stated fails.  Two descriptors built by the constructor
    have the same host, port and user, yet do not match: one stores an empty
    port, which reads as the default "30443", the other stores "30443".  And
    a valid connection info whose host is [NaN] is not matched by the
    descriptor built from it. *)
Lemma isMatch_false_for_equal_fields :
  (SqlClusterConnection.new (Some emptyPort) = Returned emptyPortDescriptor
   ∧ SqlClusterConnection.new (Some withPort) = Returned withPortDescriptor
   ∧ SqlClusterConnection.host emptyPortDescriptor
     = SqlClusterConnection.host withPortDescriptor
   ∧ SqlClusterConnection.port emptyPortDescriptor
     = SqlClusterConnection.port withPortDescriptor
   ∧ SqlClusterConnection.user emptyPortDescriptor
     = SqlClusterConnection.user withPortDescriptor
   ∧ SqlClusterConnection.isMatch emptyPortDescriptor
       (Some (inl withPortDescriptor)) = Returned false)
  ∧ (SqlClusterConnection.new (Some nanHost) = Returned nanHostDescriptor
     ∧ SqlClusterConnection.isMatch nanHostDescriptor (Some (inr nanHost))
       = Returned false).
Proof. repeat split; vm_compute; reflexivity. Qed.

(** C1, the claim as stated fails: [expandNode(undefined)] on a new
    provider does not resolve to [false], and after the timers have run no
    [onExpandCompleted] event has been fired. *)
Lemma expandNode_absent_no_false_no_event :
  (expandNode None false initial).1 ≠ Resolved false
  ∧ expandCompletedEvents
      (emitted (run_timers (expandNode None false initial).2)) = [].
Proof. split; [discriminate | reflexivity]. Qed.

(** C2, the claim as stated fails: for host="h", port absent, user="root",
    password="p" the descriptor's constructor throws; there is no
    descriptor whose port is the default. *)
Lemma descriptor_without_port_is_invalid :
  SqlClusterConnection.new (Some noPort)
  = Thrown (Error "Invalid ConnectionInfo is provided.")
  ∧ ¬ ∃ d, SqlClusterConnection.new (Some noPort) = Returned d
           ∧ SqlClusterConnection.port d = JStr "30443".
Proof.
  assert (E : SqlClusterConnection.new (Some noPort)
              = Thrown (Error "Invalid ConnectionInfo is provided."))
    by (vm_compute; reflexivity).
  split; [exact E |]. intros (d & Hd & _). rewrite E in Hd. discriminate.
Qed.

(** C3, the claim as stated fails: once the session is registered, a
    second [createSession] for the same key is accepted, yet after its
    timer has run no further [onSessionCreated] event has been fired: the
    log still holds the one event of the first call. *)
Lemma createNewSession_registered_key_no_event :
  let active := run_timers (createNewSession (Some emptyPort) initial).2 in
  let second := createNewSession (Some emptyPort) active in
  sessionMap active !! "objectexplorer://h:30443"
  = Some {| _connection := emptyPortConnection |}
  ∧ second.1 = Resolved
      {| ObjectExplorerSessionResponse.sessionId := "objectexplorer://h:30443" |}
  ∧ emitted (run_timers second.2) = emitted active
  ∧ length (sessionCreatedEvents (emitted (run_timers second.2))) = 1.
Proof.
  cbv zeta. repeat split; reflexivity.
Qed.

(** C4, the claim as stated fails.  Two [createSession] calls resolve with
    the same session id.  When the session of the first is closed before
    the timer of the second runs, both constructions take place: two success
    events.  And when the root's node path cannot be generated, both
    constructions fail: two failure events and no success event. *)
Lemma same_key_calls_two_or_no_success :
  (createNewSession (Some emptyPort) initial).1
  = Resolved
      {| ObjectExplorerSessionResponse.sessionId := "objectexplorer://h:30443" |}
  ∧ (createNewSession (Some withPort) initial).1
    = Resolved
        {| ObjectExplorerSessionResponse.sessionId := "objectexplorer://h:30443" |}
  ∧ length
      (successEvents
         (emitted
            (run [ CreateSession (Some emptyPort);
                   CreateSession (Some withPort); Tick;
                   CloseSession "objectexplorer://h:30443"; Tick ] initial)))
    = 2
  ∧ successEvents
      (emitted
         (@run brokenRoot
            [ CreateSession (Some emptyPort);
              CreateSession (Some withPort); Tick; Tick ]
            (@initial brokenRoot)))
    = []
  ∧ length
      (sessionCreatedEvents
         (emitted
            (@run brokenRoot
               [ CreateSession (Some emptyPort);
                 CreateSession (Some withPort); Tick; Tick ]
               (@initial brokenRoot))))
    = 2.
Proof. repeat split; reflexivity. Qed.

(** C10, the claim as stated fails: an input of the SQL cluster provider
    that carries no connection id does not resolve to [undefined] but to
    the connection parameters built from it; without an option bag the
    lookup rejects with a [TypeError]. *)
Lemma lookUp_cluster_provider_skips_prerequisites :
  SqlClusterLookUp.missingPrerequisite clusterEndpointsProperty
    hadoopKnoxEndpointName noServerInfo noCredentials clusterConnection
  ∧ SqlClusterLookUp.lookUpSqlClusterInfo mssqlClusterProviderName
      clusterEndpointsProperty hadoopKnoxEndpointName noServerInfo
      noCredentials "uuid" (Some clusterConnection)
    = Resolved (Some
        (assign clusterConnection
           (<[ "serverName" := JStr "h,30443" ]>
            (<[ "userName" := JStr "root" ]>
            (<[ "password" := JStr "p" ]>
            {[ "id" := JUndefined ]})))))
  ∧ SqlClusterLookUp.lookUpSqlClusterInfo mssqlClusterProviderName
      clusterEndpointsProperty hadoopKnoxEndpointName noServerInfo
      noCredentials "uuid" (Some clusterConnectionNoOptions)
    = Rejected (TypeError "Cannot read property of undefined").
Proof.
  split; [left; vm_compute; reflexivity |].
  split; vm_compute; reflexivity.
Qed.

Lemma expandNode_unknown_session_witness :
  sessionMap initial !! ExpandNodeInfo.sessionId strayNodeInfo = None
  ∧ (expandNode (Some strayNodeInfo) false initial).1 = Resolved false
  ∧ length (expandCompletedEvents
              (emitted (run_timers (expandNode (Some strayNodeInfo) false initial).2)))
    = 1.
Proof.
  split; [reflexivity |].
  destruct (expandNode_unknown_session strayNodeInfo false initial eq_refl)
    as (Hfalse & _ & _ & _ & Hlog & _).
  split; [exact Hfalse |]. rewrite Hlog. reflexivity.
Defined.

Lemma createNewSession_same_key_single_success_witness :
  uri emptyPortConnection = uri withPortConnection
  ∧ eventsFor "objectexplorer://h:30443"
      (emitted (run [ CreateSession (Some emptyPort);
                      CreateSession (Some withPort); Tick; Tick ] initial))
    = [sessionCreatedResult emptyPortConnection].
Proof.
  split; [reflexivity |].
  refine (proj2 (proj2 (proj2 (proj2
    (createNewSession_same_key_single_success
       (Some emptyPort) (Some withPort) emptyPortConnection withPortConnection
       "objectexplorer://h:30443" [] [] [Tick; Tick] initial
       eq_refl eq_refl eq_refl eq_refl eq_refl eq_refl _))) eq_refl)).
  repeat constructor; discriminate.
Defined.

Lemma isMatch_iff_stored_options_witness :
  SqlClusterConnection.new (Some emptyPort) = Returned emptyPortDescriptor
  ∧ SqlClusterConnection.new (Some withPort) = Returned withPortDescriptor
  ∧ SqlClusterConnection.isMatch emptyPortDescriptor (Some (inr emptyPort))
    = SqlClusterConnection.isMatch emptyPortDescriptor
        (Some (inl emptyPortDescriptor)).
Proof.
  assert (H1 : SqlClusterConnection.new (Some emptyPort) = Returned emptyPortDescriptor)
    by (vm_compute; reflexivity).
  assert (H2 : SqlClusterConnection.new (Some withPort) = Returned withPortDescriptor)
    by (vm_compute; reflexivity).
  split; [exact H1 |]. split; [exact H2 |].
  destruct (isMatch_iff_stored_options _ _ _ _ H1 H2) as (_ & _ & Hself & _).
  exact (Hself emptyPort eq_refl).
Defined.

Lemma port_default_for_falsy_stored_port_witness :
  get (SqlClusterConnection.optionsOf emptyPort) constants.knoxPortPropName = JStr ""
  ∧ ∃ d, SqlClusterConnection.new (Some emptyPort) = Returned d
         ∧ SqlClusterConnection.port d = JStr constants.defaultKnoxPort.
Proof.
  split; [vm_compute; reflexivity |].
  refine (proj1 (proj2
    (port_default_for_falsy_stored_port emptyPort
       (SqlClusterConnection.optionsOf emptyPort) (JStr "") _ _ _ _ _ _)) eq_refl);
    vm_compute; (reflexivity || discriminate).
Defined.

Lemma session_for_descriptor_needs_port_witness :
  SqlClusterConnection.new (Some noPort)
  = Thrown (Error "Invalid ConnectionInfo is provided.")
  ∧ (∃ d, SqlClusterConnection.new (Some emptyPort) = Returned d
          ∧ SqlClusterConnection.port d = Js.or (JStr "") (JStr "30443"))
  ∧ ∃ ev n,
      emitted (run_timers (createNewSession (Some noPort) initial).2)
      = [SessionCreated ev]
      ∧ ObjectExplorerSession.success ev = true
      ∧ ObjectExplorerSession.rootNode ev = Some n
      ∧ NodeInfo.label n = JStr "h"
      ∧ NodeInfo.isLeaf n = false.
Proof.
  assert (Hh : get (SqlClusterConnection.optionsOf noPort) constants.hostPropName
               ≠ JUndefined) by (vm_compute; discriminate).
  assert (Hu : get (SqlClusterConnection.optionsOf noPort) constants.userPropName
               ≠ JUndefined) by (vm_compute; discriminate).
  assert (Hp : get (SqlClusterConnection.optionsOf noPort)
                 constants.passwordPropName ≠ JUndefined)
    by (vm_compute; discriminate).
  split; [| split].
  - refine (proj1
      (session_for_descriptor_needs_port noPort
         (SqlClusterConnection.optionsOf noPort) eq_refl Hh Hu Hp) _).
    vm_compute. reflexivity.
  - destruct (proj1 (proj2
      (session_for_descriptor_needs_port emptyPort
         (SqlClusterConnection.optionsOf emptyPort)
         eq_refl ltac:(vm_compute; discriminate) ltac:(vm_compute; discriminate)
         ltac:(vm_compute; discriminate))) ltac:(vm_compute; discriminate))
      as (d & Hd & _ & Hport).
    exists d. split; [exact Hd |]. exact Hport.
  - destruct (proj2 (proj2
      (@session_for_descriptor_needs_port DescriptorCollaborators noPort
         (SqlClusterConnection.optionsOf noPort) eq_refl Hh Hu Hp))
      noPortConnection "objectexplorer://h:30443" eq_refl eq_refl)
      as (response & st1 & ev & n & Hcall & _ & Hlog & _ & Hok & Hroot & Hlabel & Hleaf).
    exists ev, n. rewrite Hcall. cbn [snd].
    split; [exact Hlog |]. split; [exact Hok |]. split; [exact Hroot |].
    split; [exact Hlabel | exact Hleaf].
Defined.

Lemma getChildren_cached_until_forced_witness :
  rootHeap !! 0 = Some (ORootNode newRoot)
  ∧ ∃ arr h1, getChildren 0 false rootHeap = Some (arr, h1)
              ∧ getChildren 0 false h1 = Some (arr, h1).
Proof.
  split; [reflexivity |].
  destruct (getChildren_cached_until_forced 0 newRoot rootHeap eq_refl eq_refl)
    as (arr & n & h1 & Hget & _ & _ & _ & _ & _ & _ & Hagain & _).
  exists arr, h1. split; [exact Hget |].
  specialize (Hagain 1). simpl in Hagain.
  destruct (getChildren 0 false h1) as [[a h2] |]; [| discriminate].
  injection Hagain as -> ->. reflexivity.
Defined.

Lemma lookUp_undefined_when_prerequisite_missing_witness :
  prop sqlConnectionNoId "providerName" ≠ JStr mssqlClusterProviderName
  ∧ SqlClusterLookUp.lookUpSqlClusterInfo mssqlClusterProviderName
      clusterEndpointsProperty hadoopKnoxEndpointName noServerInfo
      noCredentials "uuid" (Some sqlConnectionNoId)
    = Resolved None.
Proof.
  assert (Hp : prop sqlConnectionNoId "providerName" ≠ JStr mssqlClusterProviderName)
    by (vm_compute; discriminate).
  split; [exact Hp |].
  refine (proj2
    (lookUp_undefined_when_prerequisite_missing mssqlClusterProviderName
       clusterEndpointsProperty hadoopKnoxEndpointName noServerInfo
       noCredentials "uuid" sqlConnectionNoId Hp _)).
  left. vm_compute. reflexivity.
Defined.

End Runs.

(** * Further properties of the provider *)
Section ExpansionProtocol.
Import ObjectExplorer.
Context `{Collaborators}.

(** X1: [expandNode] for a registered session resolves to [true] at once,
    fires nothing during the call and sets one timer.  When the timers run
    the expansion starts and the registry is left as it is: if the lookup
    call throws, the expansion's event is fired then; otherwise the
    expansion is suspended on the lookup and no event is fired for it.  On
    a provider where nothing else is pending, once the timer has run and
    what the expansion awaits has settled, exactly one [onExpandCompleted]
    event has been fired, whatever the tree nodes do (answer, find nothing,
    throw, reject); it names the session's uri and the requested path and
    carries a node list, and nothing is left pending. *)
Theorem expandNode_registered_session (nodeInfo : ExpandNodeInfo.t)
    (isRefresh : bool) (session : Session) (st : State) :
  sessionMap st !! ExpandNodeInfo.sessionId nodeInfo = Some session →
  let result := expandNode (Some nodeInfo) isRefresh st in
  result.1 = Resolved true
  ∧ emitted result.2 = emitted st
  ∧ sessionMap result.2 = sessionMap st
  ∧ awaiting result.2 = awaiting st
  ∧ timers result.2 = timers st ++ [StartExpansionTask session nodeInfo isRefresh]
  ∧ sessionMap (run_timers result.2) = sessionMap (run_timers st)
  ∧ ((∃ ev, completes session nodeInfo ev
            ∧ emitted (run_timers result.2)
              = emitted (run_timers st) ++ [ExpandCompleted ev]
            ∧ awaiting (run_timers result.2) = awaiting (run_timers st))
     ∨ (∃ lookup,
          emitted (run_timers result.2) = emitted (run_timers st)
          ∧ awaiting (run_timers result.2)
            = awaiting (run_timers st) ++ [AwaitingNode session nodeInfo lookup]))
  ∧ (timers st = [] → awaiting st = [] →
       ∃ ev, completes session nodeInfo ev
         ∧ quiesce result.2
           = {| sessionMap := sessionMap st; timers := []; awaiting := [];
                emitted := emitted st ++ [ExpandCompleted ev] |}).
Proof.
  intros Hs result. subst result. unfold expandNode, doExpandNode. rewrite Hs.
  cbn [fst snd]. do 5 (split; [done |]).
  split; [| split].
  - rewrite run_timers_setTimeout. cbn [run_task].
    by destruct (startExpansion_move session nodeInfo isRefresh (run_timers st))
      as (-> & _).
  - rewrite run_timers_setTimeout. cbn [run_task].
    destruct (startExpansion_effect session nodeInfo isRefresh (run_timers st))
      as [(ev & Hev & ->) | (l & ->)]; [left; by exists ev | right; by exists l].
  - intros Hquiet Hnone.
    destruct (quiesce_expansion session nodeInfo isRefresh
                (setTimeout (StartExpansionTask session nodeInfo isRefresh) st))
      as (ev & Hev & ->);
      [unfold setTimeout; cbn [timers]; by rewrite Hquiet | done |].
    by exists ev.
Qed.

(** X3: [refreshNode] is [expandNode]: the flag it passes plays no part.
    Both resolve alike, set a timer alike, and after the timers have run the
    same events have been fired and the registry is the same. *)
Theorem refreshNode_is_expandNode (nodeInfo : option ExpandNodeInfo.t) (st : State) :
  (refreshNode nodeInfo st).1 = (expandNode nodeInfo false st).1
  ∧ length (timers (refreshNode nodeInfo st).2)
    = length (timers (expandNode nodeInfo false st).2)
  ∧ run_timers (refreshNode nodeInfo st).2
    = run_timers (expandNode nodeInfo false st).2.
Proof.
  unfold refreshNode, expandNode, doExpandNode.
  destruct nodeInfo as [ni |]; [| done].
  destruct (sessionMap st !! ExpandNodeInfo.sessionId ni) as [s |]; [| done].
  cbn [fst snd]. split; [done |]. split.
  - unfold setTimeout. cbn [timers]. by rewrite !length_app.
  - by rewrite !run_timers_setTimeout.
Qed.

End ExpansionProtocol.

(** ** Sessions: pending, failed, closed *)
Section SessionLifecycle.
Import ObjectExplorer.
Context `{Collaborators}.

(** X4: closing a key does not cancel a construction that is pending for
    it.  For a [createSession] call whose connection can be built, on a
    provider with no other pending timer: a [closeSession] for the call's
    key before the timer runs reports [success] exactly if the key was
    registered before the call, and fires nothing; when the timer then runs
    the construction takes place all the same and fires one
    [onSessionCreated] event for the call.  If the root's path can be
    generated that event is a success and the session is registered; if
    generating it throws, the event is a failure and the key is left out of
    the registry. *)
Theorem closeSession_does_not_cancel_pending
    (connInfo : option JsObject) (c : Connection) (st : State) :
  new_Connection connInfo ≫= saveUriWithPrefix objectExplorerPrefix = Returned c →
  timers st = [] →
  let requested := (createNewSession connInfo st).2 in
  let closed := closeSession (uri c) requested in
  closed.1 = Resolved
    {| ObjectExplorerCloseSessionResponse.success :=
         bool_decide (is_Some (sessionMap st !! uri c));
       ObjectExplorerCloseSessionResponse.sessionId := uri c |}
  ∧ emitted closed.2 = emitted st
  ∧ emitted (run_timers closed.2)
    = emitted st ++ [SessionCreated (sessionCreatedResult c)]
  ∧ (∀ p, generateNodePath c = Returned p →
       ObjectExplorerSession.success (sessionCreatedResult c) = true
       ∧ sessionMap (run_timers closed.2) !! uri c = Some {| _connection := c |})
  ∧ (∀ e, generateNodePath c = Thrown e →
       ObjectExplorerSession.success (sessionCreatedResult c) = false
       ∧ sessionMap (run_timers closed.2) !! uri c = None).
Proof.
  intros Hc Hquiet requested closed. subst requested closed.
  rewrite (createNewSession_accepted _ _ _ Hc). cbn [fst snd].
  unfold closeSession. cbn [fst snd setTimeout sessionMap emitted].
  do 2 (split; [done |]).
  unfold run_timers, withSessionMap, setTimeout.
  cbn [sessionMap timers emitted awaiting].
  rewrite Hquiet. cbn [app]. unfold run_tasks. cbn [fold_left].
  rewrite run_create_fresh by apply lookup_delete_eq.
  cbn [sessionMap emitted]. split; [done |]. split.
  - intros p Hp. destruct (sessionCreatedResult_success c p Hp) as [Hok _].
    rewrite Hok. split; [done |]. apply lookup_insert_eq.
  - intros e He.
    assert (Hfail : ObjectExplorerSession.success (sessionCreatedResult c) = false).
    { unfold sessionCreatedResult, getNodeInfo. cbn [_connection]. by rewrite He. }
    rewrite Hfail. split; [done |]. apply lookup_delete_eq.
Qed.

(** X5: a session whose root cannot be built is never left in the registry.
    When the deferred construction runs for a free key and the root's path
    throws, the registry afterwards is exactly the registry before, and one
    failure event is fired: [success = false], the message of the error, no
    root node.  The same holds end to end, from the [createSession] call. *)
Theorem failed_construction_leaves_no_session
    (connInfo : option JsObject) (c : Connection) (e : JsError) (st : State) :
  new_Connection connInfo ≫= saveUriWithPrefix objectExplorerPrefix = Returned c →
  generateNodePath c = Thrown e →
  let failure :=
    SessionCreated
      {| ObjectExplorerSession.sessionId := uri c;
         ObjectExplorerSession.success := false;
         ObjectExplorerSession.errorMessage := Some (getErrorMessage e);
         ObjectExplorerSession.rootNode := None |} in
  (∀ st2, sessionMap st2 !! uri c = None →
     run_task (CreateSessionTask c) st2
     = {| sessionMap := sessionMap st2; timers := timers st2;
          awaiting := awaiting st2;
          emitted := emitted st2 ++ [failure] |})
  ∧ (sessionMap (run_timers st) !! uri c = None →
     let done := run_timers (createNewSession connInfo st).2 in
     sessionMap done = sessionMap (run_timers st)
     ∧ emitted done = emitted (run_timers st) ++ [failure]).
Proof.
  intros Hc He failure.
  assert (Hres : sessionCreatedResult c =
    {| ObjectExplorerSession.sessionId := uri c;
       ObjectExplorerSession.success := false;
       ObjectExplorerSession.errorMessage := Some (getErrorMessage e);
       ObjectExplorerSession.rootNode := None |}).
  { unfold sessionCreatedResult, getNodeInfo. cbn [_connection]. by rewrite He. }
  assert (Hrun : ∀ st2, sessionMap st2 !! uri c = None →
     run_task (CreateSessionTask c) st2
     = {| sessionMap := sessionMap st2; timers := timers st2;
          awaiting := awaiting st2;
          emitted := emitted st2 ++ [failure] |}).
  { intros st2 Hfree. rewrite run_create_fresh by done. rewrite Hres.
    cbn [ObjectExplorerSession.success]. by rewrite delete_insert_id. }
  split; [exact Hrun |].
  intros Hfree done. subst done.
  rewrite (createNewSession_accepted _ _ _ Hc). cbn [fst snd].
  rewrite run_timers_setTimeout, Hrun by done. done.
Qed.

(** X6: closing a session does not cancel an expansion that was accepted
    for it.  On a provider with no pending timer and no suspended
    expansion, after [expandNode] was accepted and the session was closed
    before the timer runs: once the timer has run and what the expansion
    awaits has settled, the expansion has fired its one event, for the
    session it was accepted for; the registry is the registry before the
    call without the closed key, and nothing is left pending. *)
Theorem expansion_survives_close (nodeInfo : ExpandNodeInfo.t)
    (isRefresh : bool) (session : Session) (st : State) :
  sessionMap st !! ExpandNodeInfo.sessionId nodeInfo = Some session →
  timers st = [] →
  awaiting st = [] →
  let accepted := expandNode (Some nodeInfo) isRefresh st in
  let closed := closeSession (ExpandNodeInfo.sessionId nodeInfo) accepted.2 in
  accepted.1 = Resolved true
  ∧ closed.1 = Resolved
      {| ObjectExplorerCloseSessionResponse.success := true;
         ObjectExplorerCloseSessionResponse.sessionId :=
           ExpandNodeInfo.sessionId nodeInfo |}
  ∧ emitted closed.2 = emitted st
  ∧ ∃ ev,
      completes session nodeInfo ev
      ∧ quiesce closed.2
        = {| sessionMap := delete (ExpandNodeInfo.sessionId nodeInfo) (sessionMap st);
             timers := []; awaiting := [];
             emitted := emitted st ++ [ExpandCompleted ev] |}.
Proof.
  intros Hs Hquiet Hnone accepted closed. subst accepted closed.
  unfold expandNode, doExpandNode. rewrite Hs. cbn [fst snd].
  unfold closeSession. cbn [fst snd setTimeout sessionMap emitted].
  rewrite bool_decide_eq_true_2 by eauto.
  do 3 (split; [done |]).
  destruct (quiesce_expansion session nodeInfo isRefresh
              (withSessionMap
                 (delete (ExpandNodeInfo.sessionId nodeInfo) (sessionMap st))
                 (setTimeout (StartExpansionTask session nodeInfo isRefresh) st)))
    as (ev & Hev & ->);
    [unfold withSessionMap, setTimeout; cbn [timers]; by rewrite Hquiet
    | done |].
  by exists ev.
Qed.

End SessionLifecycle.

(** ** Runs of requests, timers and settlements *)
Section RequestRuns.
Import ObjectExplorer Protocol.
Context `{Collaborators}.

Lemma expandCompletedEvents_app (l1 l2 : list Event) :
  expandCompletedEvents (l1 ++ l2)
  = expandCompletedEvents l1 ++ expandCompletedEvents l2.
Proof. apply omap_app. Qed.

Lemma sessionCreatedEvents_app (l1 l2 : list Event) :
  sessionCreatedEvents (l1 ++ l2)
  = sessionCreatedEvents l1 ++ sessionCreatedEvents l2.
Proof. apply omap_app. Qed.

(** What one timer callback does to the log and to the suspended
    expansions. *)
Lemma run_task_effect (t : Task) (st : State) :
  ∃ evs ks, emitted (run_task t st) = emitted st ++ evs
    ∧ awaiting (run_task t st) = awaiting st ++ ks
    ∧ if isCreateTask t
      then ks = [] ∧ (evs = [] ∨ ∃ ev, evs = [SessionCreated ev])
      else (∃ ev, evs = [ExpandCompleted ev] ∧ ks = [])
           ∨ (evs = [] ∧ ∃ k, ks = [k]).
Proof.
  destruct t as [c | ni | s ni r].
  - destruct (sessionMap st !! uri c) eqn:E.
    + rewrite run_create_present by eauto. exists [], []. rewrite !app_nil_r.
      do 3 (split; [done |]). by left.
    + rewrite run_create_fresh by done.
      exists [SessionCreated (sessionCreatedResult c)], [].
      cbn [emitted awaiting isCreateTask]. rewrite app_nil_r.
      do 3 (split; [done |]). right. by eexists.
  - eexists [ExpandCompleted _], []. cbn [run_task fire emitted awaiting isCreateTask].
    rewrite app_nil_r. do 2 (split; [done |]). left. by eexists.
  - cbn [run_task isCreateTask].
    destruct (startExpansion_move s ni r st)
      as (_ & _ & [(ev & -> & ->) | (k & -> & ->)]).
    + exists [ExpandCompleted ev], []. rewrite app_nil_r.
      do 2 (split; [done |]). left. by exists ev.
    + exists [], [k]. rewrite app_nil_r. do 2 (split; [done |]).
      right. split; [done |]. by exists k.
Qed.

(** What a request, a tick or a settlement does to the log, to the timers
    and to the suspended expansions. *)
Lemma step_effect (st : State) (r : Request) :
  ∃ evs,
    emitted (step st r) = emitted st ++ evs
    ∧ (length (sessionCreatedEvents evs) + pendingCreates (step st r)
       ≤ pendingCreates st + (if isCreateCall r then 1 else 0))%nat
    ∧ (length (expandCompletedEvents evs) + pendingExpansions (step st r)
       + length (awaiting (step st r))
       = pendingExpansions st + length (awaiting st)
         + (if isExpandCall r then 1 else 0))%nat.
Proof.
  assert (Hset : ∀ t s, (pendingCreates (setTimeout t s)
                 = pendingCreates s + (if isCreateTask t then 1 else 0))%nat
               ∧ (pendingExpansions (setTimeout t s)
                 = pendingExpansions s + (if isCreateTask t then 0 else 1))%nat).
  { intros t s. unfold pendingCreates, pendingExpansions, setTimeout.
    cbn [timers]. rewrite !filter_app, !length_app.
    destruct t; simpl; split; done. }
  destruct r as [ci | ni b | ni | k | | i].
  - cbn [step isCreateCall isExpandCall]. unfold createNewSession, accepted.
    destruct (new_Connection ci ≫= saveUriWithPrefix objectExplorerPrefix) as [c | e].
    + cbn [snd]. exists []. rewrite app_nil_r.
      destruct (Hset (CreateSessionTask c) st) as [-> ->]. simpl.
      split; [done |]. split; lia.
    + cbn [snd]. exists []. rewrite app_nil_r. simpl. split; [done |]. split; lia.
  - cbn [step isCreateCall isExpandCall]. unfold expandNode, doExpandNode.
    destruct ni as [ni |]; [| exists []; rewrite app_nil_r; simpl; split; [done |]; split; lia].
    destruct (sessionMap st !! ExpandNodeInfo.sessionId ni) as [s |]; cbn [snd];
      exists []; rewrite app_nil_r;
      [destruct (Hset (StartExpansionTask s ni b) st) as [-> ->]
      | destruct (Hset (SessionNotFoundTask ni) st) as [-> ->]];
      simpl; (split; [done |]); split; lia.
  - cbn [step isCreateCall isExpandCall]. unfold refreshNode, expandNode, doExpandNode.
    destruct ni as [ni |]; [| exists []; rewrite app_nil_r; simpl; split; [done |]; split; lia].
    destruct (sessionMap st !! ExpandNodeInfo.sessionId ni) as [s |]; cbn [snd];
      exists []; rewrite app_nil_r;
      [destruct (Hset (StartExpansionTask s ni true) st) as [-> ->]
      | destruct (Hset (SessionNotFoundTask ni) st) as [-> ->]];
      simpl; (split; [done |]); split; lia.
  - exists []. rewrite app_nil_r. simpl. split; [done |].
    unfold pendingCreates, pendingExpansions, withSessionMap. cbn [timers].
    split; lia.
  - cbn [step isCreateCall isExpandCall]. unfold tick.
    destruct (timers st) as [| t ts] eqn:Ht.
    { exists []. rewrite app_nil_r. simpl. split; [done |]. split; lia. }
    set (st' := {| sessionMap := sessionMap st; timers := ts;
                   awaiting := awaiting st; emitted := emitted st |}).
    destruct (run_task_effect t st') as (evs & ks & Hlog & Hks & Hkind).
    exists evs. split; [exact Hlog |].
    unfold pendingCreates, pendingExpansions.
    rewrite run_task_timers, Hks, Ht. unfold st'. cbn [timers awaiting].
    rewrite !filter_cons, length_app.
    destruct (isCreateTask t) eqn:Hk.
    + rewrite decide_True by done.
      rewrite (decide_False (P := true = false)) by done.
      destruct Hkind as [-> [-> | (ev & ->)]]; simpl; split; lia.
    + rewrite (decide_False (P := false = true)) by done.
      rewrite decide_True by done.
      destruct Hkind as [(ev & -> & ->) | (-> & k & ->)]; simpl; split; lia.
  - cbn [step isCreateCall isExpandCall].
    destruct (settleAt_move i st) as [-> | [Hi (Em & Et & Hmove)]].
    { exists []. rewrite app_nil_r. simpl. split; [done |]. split; lia. }
    cbn [sessionMap timers emitted awaiting] in Em, Et, Hmove.
    pose proof (length_delete _ _ Hi) as Hlen.
    apply lookup_lt_is_Some in Hi.
    unfold pendingCreates, pendingExpansions. rewrite Et.
    destruct Hmove as [(ev & -> & ->) | (k & -> & ->)].
    + exists [ExpandCompleted ev]. split; [done |]. simpl. split; lia.
    + exists []. rewrite app_nil_r, length_app. split; [done |]. simpl.
      split; lia.
Qed.

Lemma createCalls_cons (r : Request) (rs : list Request) :
  createCalls (r :: rs) = ((if isCreateCall r then 1 else 0) + createCalls rs)%nat.
Proof.
  unfold createCalls. rewrite filter_cons.
  destruct (isCreateCall r); [by rewrite decide_True | by rewrite decide_False].
Qed.

Lemma expandCalls_cons (r : Request) (rs : list Request) :
  expandCalls (r :: rs) = ((if isExpandCall r then 1 else 0) + expandCalls rs)%nat.
Proof.
  unfold expandCalls. rewrite filter_cons.
  destruct (isExpandCall r); [by rewrite decide_True | by rewrite decide_False].
Qed.

(** X7: at most one [onSessionCreated] event per accepted [createSession]
    call, over every interleaving of requests and timer callbacks: the
    events fired during a run, plus the constructions still pending after
    it, never exceed the constructions pending before it plus the accepted
    calls of the run.  The log of the run extends the log before it. *)
Theorem sessionCreated_at_most_once_per_call (rs : list Request) (st : State) :
  (∃ evs, emitted (run rs st) = emitted st ++ evs)
  ∧ (length (sessionCreatedEvents (emitted (run rs st)))
     + pendingCreates (run rs st)
     ≤ length (sessionCreatedEvents (emitted st)) + pendingCreates st
       + createCalls rs)%nat.
Proof.
  revert st. induction rs as [| r rs IH]; intros st.
  { split; [exists []; by rewrite app_nil_r |]. cbn. unfold createCalls. simpl. lia. }
  cbn [run fold_left]. fold (run rs (step st r)).
  destruct (IH (step st r)) as [(evs2 & Hlog2) Hle].
  destruct (step_effect st r) as (evs & Hlog & Hc & _).
  split.
  - exists (evs ++ evs2). by rewrite Hlog2, Hlog, app_assoc.
  - rewrite createCalls_cons. rewrite Hlog, sessionCreatedEvents_app, length_app in Hle.
    lia.
Qed.

(** X8: every [expandNode] or [refreshNode] call that was given a
    [nodeInfo] is accounted for exactly once, over every interleaving of
    requests, timer callbacks and settlements: the [onExpandCompleted]
    events fired during a run, plus the expansion timers pending and the
    expansions suspended after it, equal the timers pending and the
    expansions suspended before it plus the calls of the run.  So no call
    ever gets two events, a call has had its one event once its timer has
    run and what it awaits has settled, and an expansion whose awaited
    value never settles stays suspended and fires nothing. *)
Theorem expandCompleted_exactly_once_per_call (rs : list Request) (st : State) :
  (length (expandCompletedEvents (emitted (run rs st)))
   + pendingExpansions (run rs st) + length (awaiting (run rs st))
   = length (expandCompletedEvents (emitted st)) + pendingExpansions st
     + length (awaiting st) + expandCalls rs)%nat.
Proof.
  revert st. induction rs as [| r rs IH]; intros st.
  { cbn. unfold expandCalls. simpl. lia. }
  cbn [run fold_left]. fold (run rs (step st r)).
  rewrite IH, expandCalls_cons.
  destruct (step_effect st r) as (evs & Hlog & _ & He).
  rewrite Hlog, expandCompletedEvents_app, length_app. lia.
Qed.

(** Both registry invariants are kept by every request, tick and
    settlement. *)
Lemma step_keeps_registry (st : State) (r : Request) :
  keyedByUri st ∧ announced st → keyedByUri (step st r) ∧ announced (step st r).
Proof.
  intros [Hk Ha].
  assert (Hsame : ∀ st', sessionMap st' = sessionMap st →
            (∃ evs, emitted st' = emitted st ++ evs) →
            keyedByUri st' ∧ announced st').
  { intros st' Hm (evs & Hl). split.
    - intros k s. rewrite Hm. apply Hk.
    - intros k. rewrite Hm. intros Hin. destruct (Ha k Hin) as (ev & Hev & ? & ?).
      exists ev. split; [| done]. rewrite Hl, sessionCreatedEvents_app.
      apply elem_of_app. by left. }
  assert (Hmove : ∀ st0 st', sessionMap st0 = sessionMap st →
            emitted st0 = emitted st → expansionMove st0 st' →
            keyedByUri st' ∧ announced st').
  { intros st0 st' Em0 Ee0 (Em & _ & [(ev & Ee & _) | (k & Ee & _)]);
      apply Hsame; try congruence.
    - exists [ExpandCompleted ev]. congruence.
    - exists []. rewrite app_nil_r. congruence. }
  destruct r as [ci | ni b | ni | k | | i].
  - apply Hsame.
    + cbn [step]. unfold createNewSession. by destruct (_ ≫= _).
    + exists []. rewrite app_nil_r. cbn [step]. unfold createNewSession.
      by destruct (_ ≫= _).
  - apply Hsame; [| exists []; rewrite app_nil_r];
      cbn [step]; unfold expandNode, doExpandNode;
      destruct ni as [ni |]; try done;
      by destruct (sessionMap st !! ExpandNodeInfo.sessionId ni).
  - apply Hsame; [| exists []; rewrite app_nil_r];
      cbn [step]; unfold refreshNode, expandNode, doExpandNode;
      destruct ni as [ni |]; try done;
      by destruct (sessionMap st !! ExpandNodeInfo.sessionId ni).
  - cbn [step closeSession snd]. split.
    + intros k' s. cbn [withSessionMap sessionMap].
      intros Hl. apply lookup_delete_Some in Hl as [_ Hl]. by apply Hk.
    + intros k'. cbn [withSessionMap sessionMap emitted].
      intros [s Hl]. apply lookup_delete_Some in Hl as [_ Hl]. apply Ha. eauto.
  - cbn [step]. unfold tick. destruct (timers st) as [| t ts]; [done |].
    set (st' := {| sessionMap := sessionMap st; timers := ts;
                   awaiting := awaiting st; emitted := emitted st |}).
    destruct t as [c | ni | s ni b].
    + destruct (sessionMap st !! uri c) eqn:E.
      * rewrite run_create_present by (unfold st'; cbn [sessionMap]; eauto).
        apply Hsame; [done | exists []; by rewrite app_nil_r].
      * rewrite run_create_fresh by done. unfold st'.
        cbn [sessionMap timers emitted awaiting].
        destruct (ObjectExplorerSession.success (sessionCreatedResult c)) eqn:Hok.
        -- split.
           ++ intros k s. cbn [sessionMap]. intros Hl.
              apply lookup_insert_Some in Hl as [[<- <-] | [_ Hl]]; [done |].
              by apply Hk.
           ++ intros k. cbn [sessionMap emitted]. rewrite sessionCreatedEvents_snoc.
              intros [s Hl].
              apply lookup_insert_Some in Hl as [[<- <-] | [_ Hl]].
              ** exists (sessionCreatedResult c). split; [| split; [| done]].
                 --- apply elem_of_app. right. by apply list_elem_of_singleton.
                 --- apply sessionCreatedResult_sessionId.
              ** destruct (Ha k) as (ev & Hev & ? & ?); [eauto |].
                 exists ev. split; [| done]. apply elem_of_app. by left.
        -- rewrite delete_insert_id by done.
           apply (Hsame {| sessionMap := sessionMap st; timers := ts;
                           awaiting := awaiting st;
                           emitted := emitted st ++ [SessionCreated (sessionCreatedResult c)] |});
             [done | by eexists].
    + apply Hsame; [done | by eexists].
    + cbn [run_task].
      eapply Hmove; [| | exact (startExpansion_move s ni b st')]; done.
  - cbn [step]. destruct (settleAt_move i st) as [-> | [_ Hm]]; [done |].
    eapply Hmove; [| | exact Hm]; done.
Qed.

Lemma run_keeps_registry (rs : list Request) (st : State) :
  keyedByUri st ∧ announced st → keyedByUri (run rs st) ∧ announced (run rs st).
Proof.
  revert st. induction rs as [| r rs IH]; intros st Hinv; [done |].
  cbn [run fold_left]. apply IH. by apply step_keeps_registry.
Qed.

(** X9: in every state a new provider can reach, a session is registered
    under its own uri: looking a key up yields a session whose uri is that
    key. *)
Theorem registry_keyed_by_uri (rs : list Request) (k : string) (s : Session) :
  sessionMap (run rs initial) !! k = Some s → Session_uri s = k.
Proof.
  destruct (run_keeps_registry rs initial) as [Hk _]; [| apply Hk].
  split; [intros k' s' Hl | intros k' [s' Hl]];
    change ((∅ : gmap string Session) !! k' = Some s') in Hl;
    by rewrite lookup_empty in Hl.
Qed.

(** X10: in every state a new provider can reach, each registered key has
    been announced: the log holds an [onSessionCreated] success event for
    that session id.  A session never becomes active silently. *)
Theorem registered_sessions_were_announced (rs : list Request) (k : string) :
  is_Some (sessionMap (run rs initial) !! k) →
  ∃ ev, ev ∈ sessionCreatedEvents (emitted (run rs initial))
        ∧ ObjectExplorerSession.sessionId ev = k
        ∧ ObjectExplorerSession.success ev = true.
Proof.
  destruct (run_keeps_registry rs initial) as [_ Ha]; [| apply Ha].
  split; [intros k' s' Hl | intros k' [s' Hl]];
    change ((∅ : gmap string Session) !! k' = Some s') in Hl;
    by rewrite lookup_empty in Hl.
Qed.

End RequestRuns.

(** * Further properties of the connection descriptor *)
Section DescriptorMore.
Import SqlClusterConnection.

(** X11: the constructor returns a descriptor exactly for an input that is
    present and has an option bag in which host, port, user and password are
    all [!== undefined] (so [null], [""] or [0] pass); for every other input
    it throws, and the only error it throws is
    "Invalid ConnectionInfo is provided.". *)
Theorem new_returns_iff_complete (connectionInfo : option JsObject) :
  ((∃ c, new connectionInfo = Returned c)
   ↔ ∃ ci opts, connectionInfo = Some ci ∧ options ci = Some opts ∧ complete opts)
  ∧ (∀ e, new connectionInfo = Thrown e →
          e = Error "Invalid ConnectionInfo is provided.").
Proof.
  split; [split |].
  - intros [c Hc]. apply new_inv in Hc as (ci & opts & ? & ? & ? & _). eauto.
  - intros (ci & opts & -> & Ho & Hc).
    destruct (new_complete ci opts Ho Hc) as (c & ? & _). eauto.
  - intros e. unfold new. destruct (isValid connectionInfo); simpl.
    + destruct connectionInfo as [ci |]; [| by intros [= <-]].
      by destruct (has "id" ci).
    + by intros [= <-].
Qed.

Lemma assign_options (o : JsObject) (src : gmap string JsValue) :
  options (assign o src) = options o.
Proof. done. Qed.

Lemma prop_assign_here (o : JsObject) (src : gmap string JsValue)
    (k : string) (v : JsValue) :
  src !! k = Some v → prop (assign o src) k = v.
Proof.
  intros Hk. unfold prop, get. cbn [assign props].
  by rewrite lookup_union, Hk, union_Some_l.
Qed.

Lemma prop_assign_other (o : JsObject) (src : gmap string JsValue) (k : string) :
  src !! k = None → prop (assign o src) k = prop o k.
Proof.
  intros Hk. unfold prop, get. cbn [assign props].
  by rewrite lookup_union, Hk, (left_id_L None _).
Qed.

(** X12: the profile a descriptor keeps is itself a valid input, of the
    profile shape, and normalising it again gives the same host, port, user
    and password, a descriptor the first one matches exactly as it matches
    itself, and one whose connection info and profile are the same object.
    For an input of the connection shape (no [id]) the kept connection info
    is the input, and the profile carries [id] = the input's
    [connectionId], [userName] and [password], and, for a host and a port
    that are not numbers beyond the safe integers, [serverName] =
    "host,port" from the stored (not defaulted) port. *)
Theorem profile_normalises_again (ci : JsObject) (c : t) :
  new (Some ci) = Returned c →
  (∃ c', new (Some (_sqlClusterConnProfile c)) = Returned c'
         ∧ has "id" (_sqlClusterConnProfile c) = true
         ∧ _host c' = _host c ∧ _port c' = _port c
         ∧ _user c' = _user c ∧ _pass c' = _pass c
         ∧ _sqlClusterConnInfo c' = _sqlClusterConnProfile c'
         ∧ isMatch c (Some (inl c')) = isMatch c (Some (inl c)))
  ∧ (has "id" ci = false →
       _sqlClusterConnInfo c = ci
       ∧ prop (_sqlClusterConnProfile c) "id" = prop ci "connectionId"
       ∧ prop (_sqlClusterConnProfile c) "userName" = _user c
       ∧ prop (_sqlClusterConnProfile c) "password" = _pass c
       ∧ (printable (_host c) → printable (_port c) →
          prop (_sqlClusterConnProfile c) "serverName"
          = JStr (to_string (_host c) ++ "," ++ to_string (_port c))%string))
  ∧ (has "id" ci = true →
       _sqlClusterConnInfo c = _sqlClusterConnProfile c
       ∧ prop (_sqlClusterConnInfo c) "connectionId" = prop ci "id").
Proof.
  intros Hnew.
  destruct (new_inv _ _ Hnew) as (ci' & opts & [= <-] & Ho & Hc & Hb & Hh & Hp & Hu & Hpw).
  assert (Hshape :
    (has "id" ci = true ∧ _sqlClusterConnInfo c = _sqlClusterConnProfile c
     ∧ _sqlClusterConnProfile c = assign ci {[ "connectionId" := prop ci "id" ]})
    ∨ (has "id" ci = false ∧ _sqlClusterConnInfo c = ci
       ∧ _sqlClusterConnProfile c
         = assign ci
             (<[ "serverName" :=
                   JStr (to_string (get opts constants.hostPropName) ++ ","
                         ++ to_string (get opts constants.knoxPortPropName))%string ]>
              (<[ "userName" := get opts constants.userPropName ]>
              (<[ "password" := get opts constants.passwordPropName ]>
              {[ "id" := prop ci "connectionId" ]}))))).
  { unfold new in Hnew.
    assert (isValid (Some ci) = true) as Hv by (apply isValid_complete; eauto).
    rewrite Hv in Hnew. cbn [negb] in Hnew.
    destruct (has "id" ci) eqn:Hid; injection Hnew as <-; cbn.
    - by left.
    - right. unfold optionsOf. rewrite Ho. done. }
  assert (Hpo : options (_sqlClusterConnProfile c) = Some opts).
  { destruct Hshape as [(_ & _ & ->) | (_ & _ & ->)]; by rewrite assign_options. }
  assert (Hpid : has "id" (_sqlClusterConnProfile c) = true).
  { unfold has. apply bool_decide_eq_true.
    destruct Hshape as [(Hid & _ & ->) | (_ & _ & ->)]; cbn [assign props].
    - apply bool_decide_eq_true in Hid. apply lookup_union_is_Some. by right.
    - apply lookup_union_is_Some. left.
      rewrite !lookup_insert_ne by done. rewrite lookup_singleton_eq. by eexists. }
  split; [| split].
  - destruct (new_complete _ opts Hpo Hc) as (c' & Hnew' & Hb' & Hh' & Hp' & Hu' & Hpw').
    exists c'. split; [done |]. split; [done |].
    do 4 (split; [congruence |]). split.
    + unfold new in Hnew'.
      assert (isValid (Some (_sqlClusterConnProfile c)) = true) as Hv
        by (apply isValid_complete; eauto).
      rewrite Hv, Hpid in Hnew'. cbn in Hnew'. by injection Hnew' as <-.
    + destruct (isMatch_bags c (inl c') opts opts Hb' Hb) as (b & -> & Hiff).
      destruct (isMatch_bags c (inl c) opts opts Hb Hb) as (b' & -> & Hiff').
      f_equal. apply eq_true_iff_eq. by rewrite Hiff, Hiff'.
  - intros Hid. destruct Hshape as [(Hid' & _) | (_ & Hinfo & Hprof)]; [congruence |].
    split; [done |]. rewrite Hprof, Hh, Hp, Hu, Hpw.
    split; [| split; [| split]].
    + apply prop_assign_here.
      rewrite !lookup_insert_ne by done. apply lookup_singleton_eq.
    + apply prop_assign_here.
      rewrite lookup_insert_ne by done. apply lookup_insert_eq.
    + apply prop_assign_here.
      rewrite !lookup_insert_ne by done. apply lookup_insert_eq.
    + intros _ _. apply prop_assign_here, lookup_insert_eq.
  - intros Hid. destruct Hshape as [(_ & Hinfo & Hprof) | (Hid' & _)]; [| congruence].
    split; [done |]. rewrite Hinfo, Hprof.
    apply prop_assign_here, lookup_singleton_eq.
Qed.

(** X13: on descriptors built by the constructor [isMatch] never throws,
    the answer does not depend on which of the two is asked, and matching
    carries over a common partner.  A descriptor matches itself exactly
    when none of its stored host, port and user is [NaN]; a descriptor that
    matches any descriptor matches itself.  So [isMatch] is an equivalence
    on the descriptors without a [NaN] among these options. *)
Theorem isMatch_partial_equivalence (i1 i2 i3 : option JsObject) (c1 c2 c3 : t) :
  new i1 = Returned c1 → new i2 = Returned c2 → new i3 = Returned c3 →
  (∃ b, isMatch c1 (Some (inl c1)) = Returned b
        ∧ (b = true ↔ _host c1 ≠ JNaN ∧ _port c1 ≠ JNaN ∧ _user c1 ≠ JNaN))
  ∧ (∃ b, isMatch c1 (Some (inl c2)) = Returned b
          ∧ isMatch c2 (Some (inl c1)) = Returned b)
  ∧ (isMatch c1 (Some (inl c2)) = Returned true →
     isMatch c2 (Some (inl c3)) = Returned true →
     isMatch c1 (Some (inl c3)) = Returned true)
  ∧ (isMatch c1 (Some (inl c2)) = Returned true →
     isMatch c1 (Some (inl c1)) = Returned true).
Proof.
  intros H1 H2 H3.
  apply new_inv in H1 as (? & o1 & _ & _ & _ & Hb1 & Hh1 & Hp1 & Hu1 & _).
  apply new_inv in H2 as (? & o2 & _ & _ & _ & Hb2 & _).
  apply new_inv in H3 as (? & o3 & _ & _ & _ & Hb3 & _).
  destruct (isMatch_bags c1 (inl c1) o1 o1 Hb1 Hb1) as (b11 & E11 & I11).
  destruct (isMatch_bags c1 (inl c2) o2 o1 Hb2 Hb1) as (b12 & E12 & I12).
  destruct (isMatch_bags c2 (inl c1) o1 o2 Hb1 Hb2) as (b21 & E21 & I21).
  destruct (isMatch_bags c2 (inl c3) o3 o2 Hb3 Hb2) as (b23 & E23 & I23).
  destruct (isMatch_bags c1 (inl c3) o3 o1 Hb3 Hb1) as (b13 & E13 & I13).
  split; [| split; [| split]].
  - exists b11. split; [done |].
    rewrite I11, !strict_eq_true, Hh1, Hp1, Hu1. intuition.
  - exists b12. split; [done |]. rewrite E21. f_equal.
    apply eq_true_iff_eq. rewrite I21, I12.
    by rewrite (strict_eq_sym (get o1 constants.hostPropName)),
      (strict_eq_sym (get o1 constants.knoxPortPropName)),
      (strict_eq_sym (get o1 constants.userPropName)).
  - rewrite E12, E23, E13. intros [= ->] [= ->]. f_equal.
    apply I13. destruct I12 as [I12 _], I23 as [I23 _].
    destruct (I12 eq_refl) as (? & ? & ?), (I23 eq_refl) as (? & ? & ?).
    repeat split; by eapply strict_eq_trans.
  - rewrite E12, E11. intros [= ->]. f_equal. apply I11.
    destruct I12 as [I12 _]. destruct (I12 eq_refl) as (Eh & Ep & Eu).
    apply strict_eq_true in Eh as [Eh Nh], Ep as [Ep Np], Eu as [Eu Nu].
    rewrite !strict_eq_true, <- Eh, <- Ep, <- Eu. done.
Qed.

End DescriptorMore.

(** * Further properties of the cluster lookup *)
Section LookUpMore.
Import SqlClusterLookUp.
Variables (mssqlClusterProviderName clusterEndpointsProperty
           hadoopKnoxEndpointName : string).
Variable getServerInfo : JsValue → Promise (option ServerInfo).
Variable getCredentials : JsValue → Promise (option (gmap string JsValue)).
Variable generateUuid : string.

Local Abbreviation lookUp :=
  (lookUpSqlClusterInfo mssqlClusterProviderName clusterEndpointsProperty
     hadoopKnoxEndpointName getServerInfo getCredentials generateUuid).
Local Abbreviation isKnox :=
  (fun ep : IEndpoint => bool_decide (serviceName ep = hadoopKnoxEndpointName)).
Local Abbreviation gatewayFound :=
  (Gateway.found mssqlClusterProviderName clusterEndpointsProperty
     hadoopKnoxEndpointName getServerInfo getCredentials).

Lemma find_knox_first (before after : list IEndpoint) (ep : IEndpoint) :
  Forall (fun e => serviceName e ≠ hadoopKnoxEndpointName) before →
  serviceName ep = hadoopKnoxEndpointName →
  List.find isKnox (before ++ ep :: after) = Some ep.
Proof.
  intros Hb Hep. induction Hb as [| e es He _ IH]; simpl.
  - by rewrite bool_decide_eq_true_2.
  - by rewrite bool_decide_eq_false_2.
Qed.

Lemma find_knox_split (endpoints : list IEndpoint) (ep : IEndpoint) :
  List.find isKnox endpoints = Some ep →
  ∃ before after, endpoints = before ++ ep :: after
    ∧ Forall (fun e => serviceName e ≠ hadoopKnoxEndpointName) before
    ∧ serviceName ep = hadoopKnoxEndpointName.
Proof.
  induction endpoints as [| e es IH]; [done |]. simpl.
  case_bool_decide as He.
  - intros [= <-]. exists [], es. by repeat split.
  - intros Hf. destruct (IH Hf) as (before & after & -> & Hb & Hep).
    exists (e :: before), after. repeat split; [| done]. by constructor.
Qed.

Lemma find_knox_none (endpoints : list IEndpoint) :
  List.find isKnox endpoints = None →
  Forall (fun e => serviceName e ≠ hadoopKnoxEndpointName) endpoints.
Proof.
  induction endpoints as [| e es IH]; [by constructor |]. simpl.
  case_bool_decide as He; [done |]. intros Hf. constructor; [done | by apply IH].
Qed.

Lemma clusterOptions_get (ep : IEndpoint) (credentials : gmap string JsValue) :
  get (Gateway.clusterOptions ep credentials) constants.hostPropName
  = JStr (ipAddress ep)
  ∧ get (Gateway.clusterOptions ep credentials) constants.knoxPortPropName
    = JNum (port ep)
  ∧ get (Gateway.clusterOptions ep credentials) constants.userPropName
    = JStr "root"
  ∧ get (Gateway.clusterOptions ep credentials) constants.passwordPropName
    = get credentials "password".
Proof. repeat split; reflexivity. Qed.

(** The lookup on its success path. *)
Lemma lookUp_found (o : JsObject) (ep : IEndpoint)
    (credentials : gmap string JsValue) :
  gatewayFound o ep credentials →
  lookUp (Some o)
  = Resolved (Some
      (assign
         {| props := <[ "providerName" := JStr mssqlClusterProviderName ]>
                     {[ "connectionId" := JStr generateUuid ]};
            options := Some (Gateway.clusterOptions ep credentials) |}
         (<[ "serverName" :=
               JStr (ipAddress ep ++ "," ++ pretty (port ep))%string ]>
          (<[ "userName" := JStr "root" ]>
          (<[ "password" := get credentials "password" ]>
          {[ "id" := JStr generateUuid ]}))))).
Proof.
  intros (Hprov & Hid & si & sopts & before & after & Hsi & Ho & He & Hb & Hep & Hcred).
  unfold lookUpSqlClusterInfo. rewrite strict_eq_decide by done.
  rewrite bool_decide_eq_false_2 by done.
  unfold createSqlClusterConnectionParam. rewrite Hid. cbn [negb].
  rewrite Hsi, Ho, He.
  assert ((length (before ++ ep :: after) =? 0)%nat = false) as ->.
  { apply Nat.eqb_neq. rewrite length_app. simpl. lia. }
  rewrite (find_knox_first before after ep Hb Hep), Hcred.
  unfold connToConnectionParam, settle. cbn [options].
  reflexivity.
Qed.

(** A missing prerequisite makes the lookup resolve to [undefined]. *)
Lemma lookUp_missing (o : JsObject) :
  prop o "providerName" ≠ JStr mssqlClusterProviderName →
  missingPrerequisite clusterEndpointsProperty hadoopKnoxEndpointName
    getServerInfo getCredentials o →
  lookUp (Some o) = Resolved None.
Proof.
  intros Hprov Hmiss. unfold lookUpSqlClusterInfo. rewrite strict_eq_decide by done.
  rewrite bool_decide_eq_false_2 by done.
  unfold createSqlClusterConnectionParam.
  destruct Hmiss as [Hid | (serverInfo & Hsi & Hmiss)]; [by rewrite Hid |].
  destruct (truthy (connectionIdOf o)); [| done]. cbn [negb]. rewrite Hsi.
  destruct Hmiss as [-> | [(si & -> & Ho) | [(si & sopts & -> & Ho & He) | Hcred]]].
  - done.
  - by rewrite Ho.
  - rewrite Ho. destruct He as [-> | [-> | (eps & -> & Hknox)]]; [done | done |].
    destruct (length eps =? 0)%nat; [done |].
    by rewrite (find_knox_None hadoopKnoxEndpointName).
  - destruct serverInfo as [si |]; [| done].
    destruct (si_options si) as [sopts |]; [| done].
    destruct (sopts !! clusterEndpointsProperty) as [eps |]; [| done].
    destruct (length eps =? 0)%nat; [done |].
    destruct (List.find _ eps); [| done].
    by rewrite Hcred.
Qed.

(** The descriptor built from what the lookup found. *)
Lemma found_descriptor (o : JsObject) (ep : IEndpoint)
    (credentials : gmap string JsValue) :
  gatewayFound o ep credentials →
  ∃ r, lookUp (Some o) = Resolved (Some r)
    ∧ (get credentials "password" = JUndefined →
         SqlClusterConnection.new (Some r)
         = Thrown (Error "Invalid ConnectionInfo is provided."))
    ∧ (get credentials "password" ≠ JUndefined →
         ∃ d, SqlClusterConnection.new (Some r) = Returned d
           ∧ SqlClusterConnection.host d = JStr (ipAddress ep)
           ∧ SqlClusterConnection.port d
             = (if (port ep =? 0)%Z then JStr "30443" else JNum (port ep))
           ∧ SqlClusterConnection.user d = JStr "root"
           ∧ SqlClusterConnection.pass d = get credentials "password").
Proof.
  intros Hf. eexists. split; [by apply lookUp_found |].
  set (opts := Gateway.clusterOptions ep credentials).
  destruct (clusterOptions_get ep credentials) as (Hh & Hp & Hu & Hpw).
  fold opts in Hh, Hp, Hu, Hpw.
  split.
  - intros Hno. apply (new_incomplete _ opts); [done |].
    intros (_ & _ & _ & Hc). apply Hc. by rewrite Hpw.
  - intros Hyes.
    destruct (new_complete
      (assign
         {| props := <[ "providerName" := JStr mssqlClusterProviderName ]>
                     {[ "connectionId" := JStr generateUuid ]};
            options := Some opts |}
         (<[ "serverName" :=
               JStr (ipAddress ep ++ "," ++ pretty (port ep))%string ]>
          (<[ "userName" := JStr "root" ]>
          (<[ "password" := get credentials "password" ]>
          {[ "id" := JStr generateUuid ]})))) opts)
      as (d & Hd & _ & Hdh & Hdp & Hdu & Hdpw); [done | |].
    { unfold SqlClusterConnection.complete. rewrite Hh, Hp, Hu, Hpw. done. }
    exists d. split; [exact Hd |].
    unfold SqlClusterConnection.host, SqlClusterConnection.port,
      SqlClusterConnection.user, SqlClusterConnection.pass.
    rewrite Hdh, Hdp, Hdu, Hdpw, Hh, Hp, Hu, Hpw.
    repeat split. unfold Js.or, truthy. by destruct (port ep =? 0)%Z.
Qed.

(** X14: for a connection of another provider that has a connection id, a
    server whose endpoint list holds a Knox gateway with a port that is a
    safe integer, and credentials, the lookup resolves to connection
    parameters of the cluster provider: a new uuid as [connectionId] and
    [id], the host and port of the first Knox entry of the list, the user
    "root", the password of the credentials, and "host,port" as
    [serverName]. *)
Theorem lookUp_builds_cluster_connection (o : JsObject) (ep : IEndpoint)
    (credentials : gmap string JsValue) :
  gatewayFound o ep credentials →
  isSafeInteger (port ep) →
  ∃ r, lookUp (Some o) = Resolved (Some r)
    ∧ prop r "providerName" = JStr mssqlClusterProviderName
    ∧ prop r "connectionId" = JStr generateUuid
    ∧ prop r "id" = JStr generateUuid
    ∧ prop r "serverName" = JStr (ipAddress ep ++ "," ++ pretty (port ep))%string
    ∧ prop r "userName" = JStr "root"
    ∧ prop r "password" = get credentials "password"
    ∧ ∃ opts, options r = Some opts
        ∧ get opts constants.hostPropName = JStr (ipAddress ep)
        ∧ get opts constants.knoxPortPropName = JNum (port ep)
        ∧ get opts constants.userPropName = JStr "root"
        ∧ get opts constants.passwordPropName = get credentials "password".
Proof.
  intros Hf _. eexists. split; [by apply lookUp_found |].
  split. { rewrite prop_assign_other by done. unfold prop, get. cbn [props].
           by rewrite lookup_insert_eq. }
  split. { rewrite prop_assign_other by done. unfold prop, get. cbn [props].
           rewrite lookup_insert_ne by done. by rewrite lookup_singleton_eq. }
  split. { apply prop_assign_here. rewrite !lookup_insert_ne by done.
           apply lookup_singleton_eq. }
  split. { apply prop_assign_here, lookup_insert_eq. }
  split. { apply prop_assign_here. rewrite lookup_insert_ne by done.
           apply lookup_insert_eq. }
  split. { apply prop_assign_here. rewrite !lookup_insert_ne by done.
           apply lookup_insert_eq. }
  eexists. split; [reflexivity |]. apply clusterOptions_get.
Qed.

(** X15: what the lookup builds is accepted by the descriptor's constructor
    exactly when the credentials carry a password.  Then the descriptor has
    the gateway's address as host, "root" as user, that password, and as port
    the gateway's port, or the default "30443" when that port is 0.  Without
    a password the constructor throws "Invalid ConnectionInfo is provided.". *)
Theorem lookUp_result_valid_iff_password (o r : JsObject) (ep : IEndpoint)
    (credentials : gmap string JsValue) :
  gatewayFound o ep credentials →
  lookUp (Some o) = Resolved (Some r) →
  (get credentials "password" = JUndefined →
     SqlClusterConnection.new (Some r)
     = Thrown (Error "Invalid ConnectionInfo is provided."))
  ∧ (get credentials "password" ≠ JUndefined →
     ∃ d, SqlClusterConnection.new (Some r) = Returned d
       ∧ SqlClusterConnection.host d = JStr (ipAddress ep)
       ∧ SqlClusterConnection.port d
         = (if (port ep =? 0)%Z then JStr "30443" else JNum (port ep))
       ∧ SqlClusterConnection.user d = JStr "root"
       ∧ SqlClusterConnection.pass d = get credentials "password").
Proof.
  intros Hf Hr. destruct (found_descriptor o ep credentials Hf) as (r' & Hr' & H1 & H2).
  rewrite Hr in Hr'. injection Hr' as <-. by split.
Qed.

(** X16: a connection of the cluster provider is handed back without any
    lookup: with an [id] (or, lacking one, with an option bag) the result is
    defined, keeps the option bag and the provider, and has [connectionId]
    and [id] both equal to the input's connection id.  Looking the result up
    again changes none of its properties: the lookup is idempotent there. *)
Theorem lookUp_cluster_connection_idempotent (o : JsObject) :
  prop o "providerName" = JStr mssqlClusterProviderName →
  has "id" o = true ∨ is_Some (options o) →
  ∃ r, lookUp (Some o) = Resolved (Some r)
    ∧ options r = options o
    ∧ prop r "providerName" = JStr mssqlClusterProviderName
    ∧ prop r "connectionId" = connectionIdOf o
    ∧ prop r "id" = connectionIdOf o
    ∧ ∃ r2, lookUp (Some r) = Resolved (Some r2)
        ∧ options r2 = options r
        ∧ ∀ k, prop r2 k = prop r k.
Proof.
  intros Hprov Hshape.
  assert (Hagain : ∀ r, prop r "providerName" = JStr mssqlClusterProviderName →
            has "id" r = true → prop r "connectionId" = prop r "id" →
            ∃ r2, lookUp (Some r) = Resolved (Some r2) ∧ options r2 = options r
                  ∧ ∀ k, prop r2 k = prop r k).
  { intros r Hp Hid Hcid. unfold lookUpSqlClusterInfo. rewrite strict_eq_decide by done.
    rewrite bool_decide_eq_true_2 by done. rewrite Hid.
    eexists. split; [reflexivity |]. split; [done |].
    intros k. unfold connProfileToConnectionParam.
    destruct (decide (k = "connectionId")) as [-> | Hk].
    - rewrite (prop_assign_here _ _ _ (prop r "id")) by apply lookup_singleton_eq.
      done.
    - rewrite prop_assign_other; [done |]. by apply lookup_singleton_ne. }
  unfold lookUpSqlClusterInfo at 1. rewrite strict_eq_decide by done.
  rewrite bool_decide_eq_true_2 by done.
  unfold connectionIdOf.
  destruct (has "id" o) eqn:Hid.
  - eexists. split; [reflexivity |]. unfold connProfileToConnectionParam.
    assert (Hcid : prop (assign o {[ "connectionId" := prop o "id" ]}) "connectionId"
                   = prop o "id") by apply prop_assign_here, lookup_singleton_eq.
    assert (Hidr : prop (assign o {[ "connectionId" := prop o "id" ]}) "id"
                   = prop o "id") by (by apply prop_assign_other).
    split; [done |].
    split; [by rewrite prop_assign_other |].
    do 2 (split; [done |]).
    apply Hagain.
    + by rewrite prop_assign_other.
    + unfold has in *. apply bool_decide_eq_true. apply bool_decide_eq_true in Hid.
      cbn [assign props]. apply lookup_union_is_Some. by right.
    + congruence.
  - destruct Hshape as [? | [opts Hopts]]; [done |].
    unfold connToConnectionParam. rewrite Hopts. cbn [settle].
    eexists. split; [reflexivity |].
    set (src := <[ "serverName" := _ ]> _).
    assert (Hsid : src !! "id" = Some (prop o "connectionId")).
    { unfold src. rewrite !lookup_insert_ne by done. apply lookup_singleton_eq. }
    assert (Hscid : src !! "connectionId" = None).
    { unfold src. rewrite !lookup_insert_ne by done. by apply lookup_singleton_ne. }
    assert (Hsprov : src !! "providerName" = None).
    { unfold src. rewrite !lookup_insert_ne by done. by apply lookup_singleton_ne. }
    split; [done |].
    split; [by rewrite prop_assign_other |].
    split; [by rewrite prop_assign_other |].
    split; [by apply prop_assign_here |].
    apply Hagain.
    + by rewrite prop_assign_other.
    + unfold has. apply bool_decide_eq_true. cbn [assign props].
      apply lookup_union_is_Some. left. rewrite Hsid. by eexists.
    + rewrite (prop_assign_here _ _ _ _ Hsid). by rewrite prop_assign_other.
Qed.

(** X17: the three outcomes of the lookup on a connection of another
    provider, read backwards.  It resolves to [undefined] only if a
    prerequisite is missing; it rejects only with an error one of the two
    host calls rejected with; and it resolves to connection parameters only
    on the path described above (gateway found, credentials present). *)
Theorem lookUp_outcomes (o : JsObject) :
  prop o "providerName" ≠ JStr mssqlClusterProviderName →
  (lookUp (Some o) = Resolved None →
     missingPrerequisite clusterEndpointsProperty hadoopKnoxEndpointName
       getServerInfo getCredentials o)
  ∧ (∀ e, lookUp (Some o) = Rejected e →
       getServerInfo (connectionIdOf o) = Rejected e
       ∨ getCredentials (connectionIdOf o) = Rejected e)
  ∧ (∀ r, lookUp (Some o) = Resolved (Some r) →
       ∃ ep credentials, gatewayFound o ep credentials).
Proof.
  intros Hprov.
  unfold lookUpSqlClusterInfo, missingPrerequisite, Gateway.found.
  rewrite strict_eq_decide by done.
  rewrite bool_decide_eq_false_2 by done.
  unfold createSqlClusterConnectionParam.
  destruct (truthy (connectionIdOf o)) eqn:Hid; cbn [negb].
  2:{ split; [by left |]. split; [by intros e | by intros r]. }
  destruct (getServerInfo (connectionIdOf o)) as [[si |] | e0] eqn:Hsi.
  3:{ split; [done |]. split; [| done]. intros e [= <-]. by left. }
  2:{ split; [| split; [done | done]]. intros _. right. exists None. split; [done |]. by left. }
  destruct (si_options si) as [sopts |] eqn:Ho.
  2:{ split; [| split; [done | done]]. intros _. right. exists (Some si).
      split; [done |]. right. left. by exists si. }
  destruct (sopts !! clusterEndpointsProperty) as [eps |] eqn:He.
  2:{ split; [| split; [done | done]]. intros _. right. exists (Some si).
      split; [done |]. right. right. left. exists si, sopts. repeat split; try done.
      by left. }
  destruct (length eps =? 0)%nat eqn:Hlen.
  { split; [| split; [done | done]]. intros _. right. exists (Some si).
    split; [done |]. right. right. left. exists si, sopts. repeat split; try done.
    right. left. apply Nat.eqb_eq in Hlen. by destruct eps. }
  destruct (List.find isKnox eps) as [ep |] eqn:Hfind.
  2:{ split; [| split; [done | done]]. intros _. right. exists (Some si).
      split; [done |]. right. right. left. exists si, sopts. repeat split; try done.
      right. right. exists eps. split; [done |]. by apply find_knox_none. }
  destruct (getCredentials (connectionIdOf o)) as [[credentials |] | e0] eqn:Hcred.
  3:{ split; [done |]. split; [| done]. intros e [= <-]. by right. }
  2:{ split; [| split; [done | done]]. intros _. right. exists (Some si).
      split; [done |]. by repeat right. }
  split; [done |]. split; [done |]. intros r _.
  destruct (find_knox_split eps ep Hfind) as (before & after & -> & Hb & Hep).
  exists ep, credentials. split; [done |]. split; [done |].
  exists si, sopts, before, after. done.
Qed.

End LookUpMore.

(** * The history task *)
Section HistoryTask.
Import SqlClusterLookUp OpenSparkYarnHistoryTask.
Variables (mssqlClusterProviderName clusterEndpointsProperty
           hadoopKnoxEndpointName : string).
Variable getServerInfo : JsValue → Promise (option ServerInfo).
Variable getCredentials : JsValue → Promise (option (gmap string JsValue)).
Variable generateUuid : string.
Variable getErrorMessage : JsError → string.

Local Abbreviation run_execute :=
  (execute mssqlClusterProviderName clusterEndpointsProperty
     hadoopKnoxEndpointName getServerInfo getCredentials generateUuid
     getErrorMessage).
Local Abbreviation gatewayFound :=
  (Gateway.found mssqlClusterProviderName clusterEndpointsProperty
     hadoopKnoxEndpointName getServerInfo getCredentials).

(** X18: end to end, for a SQL connection whose server lists a Knox gateway
    with a port that is a safe integer, and whose credentials carry a
    password, [execute] shows no error and opens exactly one page:
    https://host:port/gateway/default/sparkhistory/ for Spark,
    .../gateway/default/yarn/cluster/apps for Yarn, with the gateway's
    address as host and its port, or 30443 when that port is 0. *)
Theorem execute_opens_gateway_history (o : JsObject) (ep : IEndpoint)
    (credentials : gmap string JsValue) :
  gatewayFound o ep credentials →
  isSafeInteger (port ep) →
  get credentials "password" ≠ JUndefined →
  let portText := if (port ep =? 0)%Z then "30443" else pretty (port ep) in
  run_execute (Some o) true
  = [OpenUri ("https://" ++ ipAddress ep ++ ":" ++ portText
              ++ "/gateway/default/sparkhistory/")%string]
  ∧ run_execute (Some o) false
    = [OpenUri ("https://" ++ ipAddress ep ++ ":" ++ portText
                ++ "/gateway/default/yarn/cluster/apps")%string].
Proof.
  intros Hf _ Hpw portText.
  destruct (found_descriptor _ _ _ _ _ generateUuid o ep credentials Hf)
    as (r & Hr & _ & Hd).
  destruct (Hd Hpw) as (d & Hnew & Hh & Hp & _).
  unfold execute. rewrite Hr, Hnew, Hh, Hp.
  unfold generateSparkHistoryUrl, generateYarnHistoryUrl, portText.
  by destruct (port ep =? 0)%Z.
Qed.

(** X19: without a cluster connection nothing is opened.  For an absent
    profile, and for a profile of another provider with a missing
    prerequisite, [execute] shows "Please connect to the Spark cluster before
    View Spark History." (or "... Yarn History."), and does nothing else. *)
Theorem execute_without_connection_asks_to_connect
    (sqlConnProfile : option JsObject) (isSpark : bool) :
  sqlConnProfile = None
  ∨ (∃ o, sqlConnProfile = Some o
          ∧ prop o "providerName" ≠ JStr mssqlClusterProviderName
          ∧ missingPrerequisite clusterEndpointsProperty hadoopKnoxEndpointName
              getServerInfo getCredentials o) →
  run_execute sqlConnProfile isSpark
  = [ShowErrorMessage
       (if isSpark
        then "Please connect to the Spark cluster before View Spark History."
        else "Please connect to the Spark cluster before View Yarn History.")].
Proof.
  intros [-> | (o & -> & Hprov & Hmiss)]; unfold execute.
  - cbn. by destruct isSpark.
  - rewrite (lookUp_missing _ _ _ _ _ generateUuid o Hprov Hmiss).
    by destruct isSpark.
Qed.

(** X20: failures are shown, not thrown, and no page is opened.  When the
    server-info call rejects, [execute] shows the message of that error;
    when a gateway is found but the credentials carry no password, it shows
    the message of "Invalid ConnectionInfo is provided.". *)
Theorem execute_shows_failures (o : JsObject) (isSpark : bool) :
  prop o "providerName" ≠ JStr mssqlClusterProviderName →
  truthy (connectionIdOf o) = true →
  (∀ e, getServerInfo (connectionIdOf o) = Rejected e →
        run_execute (Some o) isSpark = [ShowErrorMessage (getErrorMessage e)])
  ∧ (∀ ep credentials,
        gatewayFound o ep credentials →
        get credentials "password" = JUndefined →
        run_execute (Some o) isSpark
        = [ShowErrorMessage
             (getErrorMessage (Error "Invalid ConnectionInfo is provided."))]).
Proof.
  intros Hprov Hid. split.
  - intros e He. unfold execute, lookUpSqlClusterInfo. rewrite strict_eq_decide by done.
    rewrite bool_decide_eq_false_2 by done.
    unfold createSqlClusterConnectionParam. by rewrite Hid, He.
  - intros ep credentials Hf Hpw.
    destruct (found_descriptor _ _ _ _ _ generateUuid o ep credentials Hf)
      as (r & Hr & Hbad & _).
    unfold execute. by rewrite Hr, (Hbad Hpw).
Qed.

End HistoryTask.

(** * The download progress handler *)
Section ProgressHandler.
Import ServiceClient.
Variable serviceName : string.

Lemma string_app_assoc (a b c : string) :
  ((a ++ b) ++ c = a ++ (b ++ c))%string.
Proof.
  induction a as [| x a IH]; [done |].
  change (String x ((a ++ b) ++ c) = String x (a ++ (b ++ c)))%string.
  by rewrite IH.
Qed.

Lemma string_app_empty_l (a : string) : ("" ++ a = a)%string.
Proof. done. Qed.

Lemma string_app_empty_r (a : string) : (a ++ "" = a)%string.
Proof.
  induction a as [| x a IH]; [done |].
  change (String x (a ++ "") = String x a)%string. by rewrite IH.
Qed.

Lemma dotString_app (a b : nat) :
  dotString (a + b) = (dotString a ++ dotString b)%string.
Proof.
  induction a as [| a IH]; [done |].
  cbn [Nat.add dotString]. by rewrite IH, string_app_assoc.
Qed.

Lemma appended_app (o1 o2 : list Output) :
  appended (o1 ++ o2) = (appended o1 ++ appended o2)%string.
Proof.
  induction o1 as [| x o1 IH]; [done |].
  destruct x; cbn [app appended]; rewrite ?IH; try done.
  by rewrite string_app_assoc.
Qed.

Lemma ceilDiv_bound (p : Z) : (p ≤ 100 → ceilDiv p 5 ≤ 20)%Z.
Proof.
  intros Hp. unfold ceilDiv.
  assert (-20 ≤ (- p) / 5)%Z; [| lia].
  apply Z.div_le_lower_bound; lia.
Qed.

Local Abbreviation raise := (fun (d p : Z) => Z.max d (ceilDiv p 5)).

(** The counter after a run, from any start. *)
Lemma handleAll_dots (dots : Z) (es : list ServerProviderEvent) :
  (handleAll serviceName dots es).1 = fold_left raise (progressOf es) dots.
Proof.
  revert dots. induction es as [| e es IH]; intros dots; [done |].
  cbn [handleAll].
  destruct (handle serviceName dots e) as [d1 o1] eqn:He.
  specialize (IH d1).
  destruct (handleAll serviceName d1 es) as [d2 o2]. cbn [fst] in *.
  rewrite IH.
  destruct e; cbn [handle] in He; try (injection He as <- <-; done).
  change (progressOf (DOWNLOAD_PROGRESS percent :: es))
    with (percent :: progressOf es).
  cbn [fold_left].
  destruct (ceilDiv percent 5 >? dots)%Z eqn:Hgt; injection He as <- <-;
    f_equal; lia.
Qed.

Lemma fold_raise_ge (dots : Z) (ps : list Z) :
  (dots ≤ fold_left raise ps dots)%Z.
Proof.
  revert dots. induction ps as [| p ps IH]; intros dots; cbn [fold_left]; [lia |].
  specialize (IH (Z.max dots (ceilDiv p 5))). lia.
Qed.

Lemma fold_raise_asked (dots : Z) (ps : list Z) :
  (0 ≤ dots)%Z → fold_left raise ps dots = Z.max dots (dotsAskedFor ps).
Proof.
  revert dots. induction ps as [| p ps IH]; intros dots Hd.
  - unfold dotsAskedFor. cbn. lia.
  - cbn [fold_left]. rewrite IH by lia. unfold dotsAskedFor. cbn [foldr]. lia.
Qed.

Lemma dotsAskedFor_nonneg (ps : list Z) : (0 ≤ dotsAskedFor ps)%Z.
Proof. unfold dotsAskedFor. induction ps as [| p ps IH]; cbn [foldr]; lia. Qed.

Lemma progressOf_reports (ps : list Z) :
  progressOf (DOWNLOAD_PROGRESS <$> ps) = ps.
Proof.
  unfold progressOf. induction ps as [| p ps IH]; [done |]. cbn. by rewrite IH.
Qed.

(** The dots printed by a run of progress reports, from any start. *)
Lemma handleAll_progress_text (dots : Z) (ps : list Z) :
  appended (handleAll serviceName dots (DOWNLOAD_PROGRESS <$> ps)).2
  = dotString (Z.to_nat (fold_left raise ps dots - dots)).
Proof.
  revert dots. induction ps as [| p ps IH]; intros dots.
  { cbn. by rewrite Z.sub_diag. }
  cbn [fmap list_fmap handleAll handle fold_left].
  pose proof (fold_raise_ge (Z.max dots (ceilDiv p 5)) ps) as Hge.
  destruct (ceilDiv p 5 >? dots)%Z eqn:Hgt.
  - specialize (IH (ceilDiv p 5)).
    destruct (handleAll serviceName (ceilDiv p 5) (DOWNLOAD_PROGRESS <$> ps)) as [d2 o2].
    cbn [fst snd] in *. rewrite !appended_app. cbn [appended]. rewrite IH.
    rewrite string_app_empty_r, string_app_empty_l, <- dotString_app.
    replace (Z.max dots (ceilDiv p 5)) with (ceilDiv p 5) in * by lia.
    f_equal. lia.
  - specialize (IH dots).
    destruct (handleAll serviceName dots (DOWNLOAD_PROGRESS <$> ps)) as [d2 o2].
    cbn [fst snd] in *. rewrite appended_app. cbn [appended]. rewrite IH.
    replace (Z.max dots (ceilDiv p 5)) with dots by lia. done.
Qed.

(** X21: the progress dots.  After any run of downloader events the counter
    equals the largest number of dots a progress report has asked for
    (one per started 5 percent), never less than 0; events of other kinds
    leave it alone.  Over a run of progress reports the text appended to the
    output channel is exactly that many dots, whatever the order and
    repetition of the reports; for reports of at most 100 percent that is at
    most 20 dots. *)
Theorem progress_prints_each_dot_once (es : list ServerProviderEvent)
    (percents : list Z) :
  (handleAll serviceName 0 es).1 = dotsAskedFor (progressOf es)
  ∧ appended (handleAll serviceName 0 (DOWNLOAD_PROGRESS <$> percents)).2
    = dotString (Z.to_nat (dotsAskedFor percents))
  ∧ (0 ≤ dotsAskedFor percents)%Z
  ∧ (Forall (fun p => p ≤ 100)%Z percents → dotsAskedFor percents ≤ 20)%Z.
Proof.
  pose proof (dotsAskedFor_nonneg percents) as Hnn.
  split; [| split; [| split]].
  - rewrite handleAll_dots, fold_raise_asked by done.
    pose proof (dotsAskedFor_nonneg (progressOf es)). lia.
  - rewrite handleAll_progress_text, fold_raise_asked by done. f_equal. lia.
  - done.
  - clear Hnn. unfold dotsAskedFor.
    induction 1 as [| p ps Hp _ IH]; cbn [foldr]; [lia |].
    pose proof (ceilDiv_bound p Hp). lia.
Qed.

(** X22: strict SSL cannot be switched off.  Whatever the [proxyStrictSSL]
    setting holds, the value stored as [strictSSL] is truthy: a truthy
    setting is kept, and every falsy one, [false] included, becomes [true]. *)
Theorem strictSSL_never_off (proxyStrictSSL : JsValue) :
  truthy (strictSSL proxyStrictSSL) = true
  ∧ (truthy proxyStrictSSL = true → strictSSL proxyStrictSSL = proxyStrictSSL)
  ∧ (truthy proxyStrictSSL = false → strictSSL proxyStrictSSL = JBool true)
  ∧ strictSSL (JBool false) = JBool true.
Proof.
  unfold strictSSL, Js.or.
  destruct (truthy proxyStrictSSL) eqn:E; repeat split; try done.
Qed.

End ProgressHandler.

(** * Further properties of the tree *)
Section TreeMore.
Import ObjectExplorer TreeWalk.
Context `{Collaborators}.

(** X23: a forced refresh never touches what was handed out before.  The
    array returned earlier keeps its elements, every other object of the heap
    except the root itself is unchanged, and the root keeps its session and
    context; only its [children] now names a different, new array. *)
Theorem refresh_leaves_old_children (this old : loc) (r : RootNode)
    (elems : list loc) (h : gmap loc HeapObject) :
  h !! this = Some (ORootNode r) →
  children r = Some old →
  h !! old = Some (OArray elems) →
  ∃ arr h1,
    getChildren this true h = Some (arr, h1)
    ∧ arr ≠ old
    ∧ h1 !! old = Some (OArray elems)
    ∧ (∀ l, l ∈ dom h → l ≠ this → h1 !! l = h !! l)
    ∧ h1 !! this
      = Some (ORootNode {| _session := _session r; context := context r;
                           children := Some arr |})
    ∧ getChildren this false h1 = Some (arr, h1).
Proof.
  intros Hroot Hold Harr.
  destruct (getChildren_rebuild this r true h Hroot (or_introl eq_refl))
    as (arr & n & h1 & Hget & Hfresh & _ & _ & _ & _ & _ & Hthis & Hframe).
  assert (Hin : old ∈ dom h) by (apply elem_of_dom; eauto).
  assert (Hne : old ≠ this) by (intros ->; congruence).
  exists arr, h1. split; [done |].
  split; [by intros -> |].
  split; [by rewrite Hframe |].
  split; [done |]. split; [done |].
  by apply (getChildren_cached this arr _ h1 Hthis).
Qed.

Lemma getSessionForNode_root (fuel : nat) (l : loc) (r : RootNode)
    (h : gmap loc HeapObject) :
  h !! l = Some (ORootNode r) →
  getSessionForNode (S fuel) (Some l) h = Some (Some (_session r)).
Proof. intros Hl. cbn. by rewrite Hl. Qed.

(** X24: the node a root has just built finds its way back.  After
    [getChildren] has (re)built the children of a root, walking up from each
    element of the returned array, and from the root itself, ends at that
    root's session; two rounds of the loop suffice. *)
Theorem built_child_resolves_to_session (this arr : loc) (r : RootNode)
    (refreshChildren : bool) (nodes : list loc) (h h1 : gmap loc HeapObject)
    (fuel : nat) :
  h !! this = Some (ORootNode r) →
  refreshChildren = true ∨ children r = None →
  getChildren this refreshChildren h = Some (arr, h1) →
  h1 !! arr = Some (OArray nodes) →
  (2 ≤ fuel)%nat →
  getSessionForNode fuel (Some this) h1 = Some (Some (_session r))
  ∧ ∀ n, n ∈ nodes →
      getSessionForNode fuel (Some n) h1 = Some (Some (_session r)).
Proof.
  intros Hroot Hcond Hget Harr Hfuel.
  destruct (getChildren_rebuild this r refreshChildren h Hroot Hcond)
    as (arr' & n' & h1' & Hget' & _ & _ & _ & _ & Ha & Hn & Hthis & _).
  rewrite Hget in Hget'. injection Hget' as <- <-.
  rewrite Harr in Ha. injection Ha as ->.
  destruct fuel as [| [| fuel]]; [lia | lia |].
  split.
  - by apply (getSessionForNode_root _ this _ h1 Hthis).
  - intros n Hin. apply list_elem_of_singleton in Hin as ->.
    cbn [getSessionForNode]. rewrite Hn. cbn [cn_parent]. by rewrite Hthis.
Qed.

Lemma getSessionForNode_more_fuel (fuel fuel' : nat) (node : option loc)
    (h : gmap loc HeapObject) (answer : option Session) :
  getSessionForNode fuel node h = Some answer →
  (fuel ≤ fuel')%nat →
  getSessionForNode fuel' node h = Some answer.
Proof.
  revert fuel' node. induction fuel as [| fuel IH]; intros fuel' node; [done |].
  intros Hrun Hle. destruct fuel' as [| fuel']; [lia |].
  cbn [getSessionForNode] in *.
  destruct node as [l |]; [| done].
  destruct (h !! l) as [[r | n | elems] |]; try done.
  apply IH; [done | lia].
Qed.

(** X25: the walk up the tree never invents a session and never changes its
    mind.  A session it returns is the session of a root node of the heap,
    and an answer reached with some fuel ("this session" or "no session") is
    the answer for every larger fuel. *)
Theorem getSessionForNode_sound (fuel : nat) (node : option loc)
    (h : gmap loc HeapObject) (answer : option Session) :
  getSessionForNode fuel node h = Some answer →
  (∀ fuel', (fuel ≤ fuel')%nat → getSessionForNode fuel' node h = Some answer)
  ∧ (∀ s, answer = Some s →
       ∃ l r, h !! l = Some (ORootNode r) ∧ _session r = s).
Proof.
  intros Hrun. split.
  - intros fuel' Hle. by apply (getSessionForNode_more_fuel fuel).
  - intros s ->. revert node Hrun.
    induction fuel as [| fuel IH]; intros node Hrun; [done |].
    cbn [getSessionForNode] in Hrun.
    destruct node as [l |]; [| done].
    destruct (h !! l) as [[r | n | elems] |] eqn:Hl; try done.
    + injection Hrun as <-. eauto.
    + by apply (IH (cn_parent n)).
Qed.

Section Find.
Variable connection_isMatch : Connection → JsObject → Outcome bool.

Local Abbreviation findSession :=
  (findSessionForConnection connection_isMatch).

(** X26: [findSessionForConnection] returns the first session, in the order
    of the registry, whose connection matches the profile; it returns
    nothing exactly when no session matches; and it throws exactly when a
    match test throws before any session has matched. *)
Theorem findSessionForConnection_first_match (sessions : list Session)
    (connectionProfile : JsObject) :
  let test s := connection_isMatch (_connection s) connectionProfile in
  (∀ s, findSession sessions connectionProfile = Returned (Some s)
        ↔ ∃ before after, sessions = before ++ s :: after
            ∧ Forall (fun x => test x = Returned false) before
            ∧ test s = Returned true)
  ∧ (findSession sessions connectionProfile = Returned None
     ↔ Forall (fun x => test x = Returned false) sessions)
  ∧ (∀ e, findSession sessions connectionProfile = Thrown e
        ↔ ∃ before s after, sessions = before ++ s :: after
            ∧ Forall (fun x => test x = Returned false) before
            ∧ test s = Thrown e).
Proof.
  intros test. induction sessions as [| x xs (IHs & IHn & IHt)].
  - split; [| split].
    + intros s. split; [done |]. intros (b & a & Heq & _). by destruct b.
    + split; [by constructor | done].
    + intros e. split; [done |]. intros (b & s & a & Heq & _). by destruct b.
  - cbn [findSessionForConnection]. fold (test x).
    destruct (test x) as [[|] | e0] eqn:Hx; cbn.
    + split; [| split].
      * intros s. split.
        -- intros [= <-]. exists [], xs. by repeat split.
        -- intros (b & a & Heq & Hb & Hs). destruct b as [| y b].
           ++ by injection Heq as <- _.
           ++ injection Heq as <- _. apply Forall_cons in Hb as [Hy _]. congruence.
      * split; [done |]. intros Hall. apply Forall_cons in Hall as [Hy _]. congruence.
      * intros e. split; [done |]. intros (b & s & a & Heq & Hb & Hs).
        destruct b as [| y b]; injection Heq as <- _; [congruence |].
        apply Forall_cons in Hb as [Hy _]. congruence.
    + split; [| split].
      * intros s. rewrite IHs. split.
        -- intros (b & a & -> & Hb & Hs). exists (x :: b), a.
           repeat split; [| done]. by constructor.
        -- intros (b & a & Heq & Hb & Hs). destruct b as [| y b].
           ++ injection Heq as <- _. congruence.
           ++ injection Heq as <- ->. apply Forall_cons in Hb as [_ Hb]. eauto.
      * rewrite IHn. split; [by constructor |]. intros Hall.
        by apply Forall_cons in Hall as [_ ?].
      * intros e. rewrite IHt. split.
        -- intros (b & s & a & -> & Hb & Hs). exists (x :: b), s, a.
           repeat split; [| done]. by constructor.
        -- intros (b & s & a & Heq & Hb & Hs). destruct b as [| y b].
           ++ injection Heq as <- _. congruence.
           ++ injection Heq as <- ->. apply Forall_cons in Hb as [_ Hb]. eauto 10.
    + split; [| split].
      * intros s. split; [done |]. intros (b & a & Heq & Hb & Hs).
        destruct b as [| y b]; injection Heq as <- _; [congruence |].
        apply Forall_cons in Hb as [Hy _]. congruence.
      * split; [done |]. intros Hall. apply Forall_cons in Hall as [Hy _]. congruence.
      * intros e. split.
        -- intros [= <-]. exists [], x, xs. by repeat split.
        -- intros (b & s & a & Heq & Hb & Hs).
           destruct b as [| y b]; injection Heq as <- _; [congruence |].
           apply Forall_cons in Hb as [Hy _]. congruence.
Qed.

End Find.

End TreeMore.

(** * More concrete runs *)
Section MoreRuns.
Import ObjectExplorer Protocol TreeWalk Samples Samples2.

Lemma expandNode_registered_session_witness :
  let active := run_timers (createNewSession (Some emptyPort) initial).2 in
  sessionMap active !! ExpandNodeInfo.sessionId rootRequest
  = Some {| _connection := emptyPortConnection |}
  ∧ (expandNode (Some rootRequest) false active).1 = Resolved true
  ∧ ∃ ev,
      quiesce (expandNode (Some rootRequest) false active).2
      = {| sessionMap := sessionMap active; timers := []; awaiting := [];
           emitted := emitted active ++ [ExpandCompleted ev] |}.
Proof.
  cbv zeta. split; [reflexivity |].
  destruct (@expandNode_registered_session DescriptorCollaborators
              rootRequest false
              (@mkSession DescriptorCollaborators emptyPortConnection)
              (run_timers (createNewSession (Some emptyPort) initial).2)
              eq_refl)
    as (Htrue & _ & _ & _ & _ & _ & _ & Hq).
  split; [exact Htrue |].
  destruct (Hq eq_refl eq_refl) as (ev & _ & Hev).
  exists ev. exact Hev.
Defined.

Lemma closeSession_does_not_cancel_pending_witness :
  timers initial = []
  ∧ sessionMap
      (run_timers
         (closeSession (uri emptyPortConnection)
            (createNewSession (Some emptyPort) initial).2).2)
    !! uri emptyPortConnection
    = Some {| _connection := emptyPortConnection |}.
Proof.
  split; [reflexivity |].
  exact (proj2 (proj1 (proj2 (proj2 (proj2
    (@closeSession_does_not_cancel_pending DescriptorCollaborators
       (Some emptyPort) emptyPortConnection initial eq_refl eq_refl))))
    "objectexplorer://h:30443" eq_refl)).
Defined.

Lemma expansion_survives_close_witness :
  let active := run_timers (createNewSession (Some emptyPort) initial).2 in
  timers active = []
  ∧ awaiting active = []
  ∧ ∃ ev,
      quiesce
        (closeSession (ExpandNodeInfo.sessionId rootRequest)
           (expandNode (Some rootRequest) false active).2).2
      = {| sessionMap :=
             delete (ExpandNodeInfo.sessionId rootRequest) (sessionMap active);
           timers := []; awaiting := [];
           emitted := emitted active ++ [ExpandCompleted ev] |}.
Proof.
  cbv zeta. split; [reflexivity |]. split; [reflexivity |].
  destruct (proj2 (proj2 (proj2
    (@expansion_survives_close DescriptorCollaborators rootRequest false
       (@mkSession DescriptorCollaborators emptyPortConnection)
       (run_timers (createNewSession (Some emptyPort) initial).2)
       eq_refl eq_refl eq_refl))))
    as (ev & _ & Hq).
  exists ev. exact Hq.
Defined.

Lemma failed_construction_leaves_no_session_witness :
  @generateNodePath brokenRoot emptyPortConnection = Thrown (Error "no path")
  ∧ sessionMap
      (@run_timers brokenRoot
         (@createNewSession brokenRoot (Some emptyPort) (@initial brokenRoot)).2)
    = ∅.
Proof.
  split; [reflexivity |].
  exact (proj1 (proj2
    (@failed_construction_leaves_no_session brokenRoot (Some emptyPort)
       emptyPortConnection (Error "no path") (@initial brokenRoot)
       eq_refl eq_refl) eq_refl)).
Defined.

Lemma registry_keyed_by_uri_witness :
  sessionMap (run [CreateSession (Some emptyPort); Tick] initial)
    !! "objectexplorer://h:30443"
  = Some {| _connection := emptyPortConnection |}
  ∧ Session_uri {| _connection := emptyPortConnection |}
    = "objectexplorer://h:30443".
Proof.
  split; [reflexivity |].
  exact (registry_keyed_by_uri [CreateSession (Some emptyPort); Tick]
           "objectexplorer://h:30443" {| _connection := emptyPortConnection |}
           eq_refl).
Defined.

Lemma registered_sessions_were_announced_witness :
  ∃ ev,
    ev ∈ sessionCreatedEvents
           (emitted (run [CreateSession (Some emptyPort); Tick] initial))
    ∧ ObjectExplorerSession.sessionId ev = "objectexplorer://h:30443"
    ∧ ObjectExplorerSession.success ev = true.
Proof.
  apply (registered_sessions_were_announced
           [CreateSession (Some emptyPort); Tick] "objectexplorer://h:30443").
  eexists. reflexivity.
Defined.

Lemma profile_normalises_again_witness :
  SqlClusterConnection.new (Some emptyPort) = Returned emptyPortDescriptor
  ∧ ∃ c', SqlClusterConnection.new
            (Some (SqlClusterConnection._sqlClusterConnProfile emptyPortDescriptor))
          = Returned c'
          ∧ SqlClusterConnection._port c' = JStr "".
Proof.
  split; [reflexivity |].
  destruct (proj1 (profile_normalises_again emptyPort emptyPortDescriptor eq_refl))
    as (c' & Hnew & _ & _ & Hport & _).
  exists c'. split; [exact Hnew | exact Hport].
Defined.

Lemma isMatch_partial_equivalence_witness :
  SqlClusterConnection.new (Some withPort) = Returned withPortDescriptor
  ∧ ∃ b, SqlClusterConnection.isMatch emptyPortDescriptor
           (Some (inl withPortDescriptor)) = Returned b
         ∧ SqlClusterConnection.isMatch withPortDescriptor
             (Some (inl emptyPortDescriptor)) = Returned b.
Proof.
  split; [reflexivity |].
  exact (proj1 (proj2
    (isMatch_partial_equivalence (Some emptyPort) (Some withPort) (Some emptyPort)
       emptyPortDescriptor withPortDescriptor emptyPortDescriptor
       eq_refl eq_refl eq_refl))).
Defined.

(** The sample server and credentials put the lookup on its success path. *)
Lemma sample_gateway_found :
  Gateway.found mssqlClusterProviderName clusterEndpointsProperty
    hadoopKnoxEndpointName serverWithGateway credentialsWithPassword
    sqlConnection gateway {[ "password" := JStr "p" ]}.
Proof.
  split; [discriminate |]. split; [reflexivity |].
  eexists _, _, [otherEndpoint], []. split; [reflexivity |].
  split; [reflexivity |]. split; [reflexivity |].
  split; [by repeat constructor |]. split; reflexivity.
Qed.

Lemma sample_gateway_found_no_password :
  Gateway.found mssqlClusterProviderName clusterEndpointsProperty
    hadoopKnoxEndpointName serverWithGateway credentialsWithoutPassword
    sqlConnection gateway ∅.
Proof.
  split; [discriminate |]. split; [reflexivity |].
  eexists _, _, [otherEndpoint], []. split; [reflexivity |].
  split; [reflexivity |]. split; [reflexivity |].
  split; [by repeat constructor |]. split; reflexivity.
Qed.

Lemma lookUp_builds_cluster_connection_witness :
  ∃ r, SqlClusterLookUp.lookUpSqlClusterInfo mssqlClusterProviderName
         clusterEndpointsProperty hadoopKnoxEndpointName serverWithGateway
         credentialsWithPassword "uuid" (Some sqlConnection)
       = Resolved (Some r)
       ∧ prop r "serverName" = JStr "10.0.0.7,30443".
Proof.
  destruct (lookUp_builds_cluster_connection mssqlClusterProviderName
              clusterEndpointsProperty hadoopKnoxEndpointName serverWithGateway
              credentialsWithPassword "uuid" sqlConnection gateway _
              sample_gateway_found eq_refl)
    as (r & Hr & _ & _ & _ & Hname & _).
  exists r. split; [exact Hr | exact Hname].
Defined.

Lemma lookUp_result_valid_iff_password_witness :
  ∃ r d, SqlClusterLookUp.lookUpSqlClusterInfo mssqlClusterProviderName
           clusterEndpointsProperty hadoopKnoxEndpointName serverWithGateway
           credentialsWithPassword "uuid" (Some sqlConnection)
         = Resolved (Some r)
         ∧ SqlClusterConnection.new (Some r) = Returned d
         ∧ SqlClusterConnection.host d = JStr "10.0.0.7".
Proof.
  eexists. 
  destruct (proj2 (lookUp_result_valid_iff_password mssqlClusterProviderName
              clusterEndpointsProperty hadoopKnoxEndpointName serverWithGateway
              credentialsWithPassword "uuid" sqlConnection _ gateway _
              sample_gateway_found eq_refl))
    as (d & Hd & Hh & _); [discriminate |].
  exists d. split; [reflexivity |]. split; [exact Hd | exact Hh].
Defined.

Lemma lookUp_cluster_connection_idempotent_witness :
  prop clusterConnection "providerName" = JStr mssqlClusterProviderName
  ∧ ∃ r, SqlClusterLookUp.lookUpSqlClusterInfo mssqlClusterProviderName
           clusterEndpointsProperty hadoopKnoxEndpointName noServerInfo
           noCredentials "uuid" (Some clusterConnection)
         = Resolved (Some r)
         ∧ options r = options clusterConnection.
Proof.
  split; [reflexivity |].
  destruct (lookUp_cluster_connection_idempotent mssqlClusterProviderName
              clusterEndpointsProperty hadoopKnoxEndpointName noServerInfo
              noCredentials "uuid" clusterConnection eq_refl
              (or_intror (ex_intro _ _ eq_refl)))
    as (r & Hr & Ho & _).
  exists r. split; [exact Hr | exact Ho].
Defined.

Lemma lookUp_outcomes_witness :
  SqlClusterLookUp.lookUpSqlClusterInfo mssqlClusterProviderName
    clusterEndpointsProperty hadoopKnoxEndpointName noServerInfo
    noCredentials "uuid" (Some sqlConnectionNoId)
  = Resolved None
  ∧ SqlClusterLookUp.missingPrerequisite clusterEndpointsProperty
      hadoopKnoxEndpointName noServerInfo noCredentials sqlConnectionNoId.
Proof.
  split; [reflexivity |].
  refine (proj1
    (lookUp_outcomes mssqlClusterProviderName clusterEndpointsProperty
       hadoopKnoxEndpointName noServerInfo noCredentials "uuid"
       sqlConnectionNoId _) eq_refl).
  discriminate.
Defined.

Lemma execute_opens_gateway_history_witness :
  OpenSparkYarnHistoryTask.execute mssqlClusterProviderName
    clusterEndpointsProperty hadoopKnoxEndpointName serverWithGateway
    credentialsWithPassword "uuid" messageOf (Some sqlConnection) true
  = [OpenSparkYarnHistoryTask.OpenUri
       "https://10.0.0.7:30443/gateway/default/sparkhistory/"].
Proof.
  refine (proj1
    (execute_opens_gateway_history mssqlClusterProviderName
       clusterEndpointsProperty hadoopKnoxEndpointName serverWithGateway
       credentialsWithPassword "uuid" messageOf sqlConnection gateway _
       sample_gateway_found eq_refl _)).
  discriminate.
Defined.

Lemma execute_without_connection_asks_to_connect_witness :
  OpenSparkYarnHistoryTask.execute mssqlClusterProviderName
    clusterEndpointsProperty hadoopKnoxEndpointName noServerInfo
    noCredentials "uuid" messageOf (Some sqlConnectionNoId) false
  = [OpenSparkYarnHistoryTask.ShowErrorMessage
       "Please connect to the Spark cluster before View Yarn History."].
Proof.
  refine (execute_without_connection_asks_to_connect mssqlClusterProviderName
            clusterEndpointsProperty hadoopKnoxEndpointName noServerInfo
            noCredentials "uuid" messageOf (Some sqlConnectionNoId) false _).
  right. exists sqlConnectionNoId. split; [reflexivity |].
  split; [discriminate |]. left. reflexivity.
Defined.

Lemma execute_shows_failures_witness :
  OpenSparkYarnHistoryTask.execute mssqlClusterProviderName
    clusterEndpointsProperty hadoopKnoxEndpointName serverWithGateway
    credentialsWithoutPassword "uuid" messageOf (Some sqlConnection) true
  = [OpenSparkYarnHistoryTask.ShowErrorMessage
       "Invalid ConnectionInfo is provided."].
Proof.
  refine (proj2
    (execute_shows_failures mssqlClusterProviderName
       clusterEndpointsProperty hadoopKnoxEndpointName serverWithGateway
       credentialsWithoutPassword "uuid" messageOf sqlConnection true _ _)
    gateway ∅ sample_gateway_found_no_password eq_refl).
  - discriminate.
  - reflexivity.
Defined.

Lemma refresh_leaves_old_children_witness :
  expandedHeap !! 1 = Some (OArray [2])
  ∧ ∃ arr h1, getChildren 0 true expandedHeap = Some (arr, h1)
              ∧ arr ≠ 1 ∧ h1 !! 1 = Some (OArray [2]).
Proof.
  split; [reflexivity |].
  destruct (refresh_leaves_old_children 0 1 expandedRoot [2] expandedHeap
              eq_refl eq_refl eq_refl)
    as (arr & h1 & Hget & Hne & Hold & _).
  exists arr, h1. split; [exact Hget |]. split; [exact Hne | exact Hold].
Defined.

Lemma built_child_resolves_to_session_witness :
  rootHeap !! 0 = Some (ORootNode newRoot)
  ∧ ∃ arr h1, getChildren 0 false rootHeap = Some (arr, h1)
              ∧ getSessionForNode 2 (Some 0) h1
                = Some (Some {| _connection := emptyPortConnection |}).
Proof.
  split; [reflexivity |].
  destruct (getChildren_rebuild 0 newRoot false rootHeap eq_refl
              (or_intror eq_refl))
    as (arr & n & h1 & Hget & _ & _ & _ & _ & Ha & _).
  exists arr, h1. split; [exact Hget |].
  exact (proj1 (built_child_resolves_to_session 0 arr newRoot false [n]
                  rootHeap h1 2 eq_refl (or_intror eq_refl) Hget Ha
                  (le_n 2))).
Defined.

Lemma getSessionForNode_sound_witness :
  getSessionForNode 2 (Some 2) expandedHeap
  = Some (Some {| _connection := emptyPortConnection |})
  ∧ getSessionForNode 7 (Some 2) expandedHeap
    = Some (Some {| _connection := emptyPortConnection |}).
Proof.
  split; [reflexivity |].
  refine (proj1
    (getSessionForNode_sound 2 (Some 2) expandedHeap
       (Some {| _connection := emptyPortConnection |}) eq_refl) 7 _).
  repeat constructor.
Defined.

End MoreRuns.
